(** * ILGC research-study front end: task form, timed session, assessment

    A shallow embedding of the React pages of the repository

      - [TaskForm]            (task setup form),
      - [TaskSession]         (src/windows/frontend/src/pages/TaskSession.tsx),
      - [TaskResults]         (src/mac/frontend/src/pages/TaskResults.tsx, the
                               assessment form),
      - [TaskResultsFeedback] (the variant of TaskResults that only links to
                               the feedback form),
      - [Index]               (landing page),
      - [ApiService]          (the requests to the backend),

    together with the properties of the session life cycle
    (setup, timed session, assessment) that the specification states.

    Conventions of the embedding.

      - JavaScript numbers that the pages compute with are whole numbers of
        seconds or milliseconds, or [NaN]; they are modelled by [number],
        exact integers plus [NaN].  The integer arithmetic is the
        JavaScript arithmetic as long as the values stay below 2^53, and
        so is the decimal notation of [toString]; the module [Double] has
        the division as JavaScript rounds it, for the numbers beyond.
      - [localStorage] is a finite map from strings to strings.
      - What the browser provides ([JSON.stringify], [JSON.parse],
        [Date.prototype.toISOString], the [Date] constructor, string
        coercion) is an interface, [Browser]; the pages are written against
        it and the theorems hold for every implementation of it.
      - An event handler is a program in a state-and-exception monad over
        the component state and the [World] (storage and the log of
        observable effects); [await apiService.f(..)] takes the outcome of
        the request as an argument. *)

From Stdlib Require Import ZArith NArith String Ascii List Bool Lia.
From Stdlib Require Import DecimalString DecimalN DecimalPos.
From stdpp Require Import base gmap strings list.

Set Warnings "-register-all".

Open Scope string_scope.
Open Scope Z_scope.

(** ** JavaScript numbers *)

Module JS.

Inductive number : Type :=
| Num (z : Z)
| NaN.

(** [a - b] *)
Definition sub (a b : number) : number :=
  match a, b with
  | Num x, Num y => Num (x - y)
  | _, _ => NaN
  end.

(** [Math.floor(a / d)] for a positive integer literal [d]; the quotient is
    exact, as it is in JavaScript for [a] below 2^53 ([Double.floor_div] is
    the division with the rounding of the doubles). *)
Definition floor_div (a : number) (d : Z) : number :=
  match a with
  | Num x => Num (x / d)
  | NaN => NaN
  end.

(** [a % d]: the remainder takes the sign of the dividend. *)
Definition rem (a : number) (d : Z) : number :=
  match a with
  | Num x => Num (Z.rem x d)
  | NaN => NaN
  end.

(** [a > b]; every comparison with [NaN] is false. *)
Definition gtb (a : number) (b : Z) : bool :=
  match a with
  | Num x => b <? x
  | NaN => false
  end.

(** [n.toString()] *)
Definition toString (n : number) : string :=
  match n with
  | Num z => NilZero.string_of_int (Z.to_int z)
  | NaN => "NaN"
  end.

(** [s.padStart(n, "0")] *)
Fixpoint zeros (k : nat) : string :=
  match k with
  | O => ""
  | S k' => String "0" (zeros k')
  end.

Definition padStart0 (n : nat) (s : string) : string :=
  zeros (n - String.length s) +:+ s.

(** *** Values

    What [JSON.parse] returns and what the pages keep in [any]-typed
    state.  An object is the list of its own properties in insertion
    order. *)

Inductive value : Type :=
| VUndefined
| VNull
| VBool (b : bool)
| VNum (n : number)
| VStr (s : string)
| VArr (l : list value)
| VObj (o : list (string * value)).

Abbreviation obj := (list (string * value)).

(** [!v] is [falsy v]. *)
Definition falsy (v : value) : bool :=
  match v with
  | VUndefined | VNull => true
  | VBool b => negb b
  | VNum (Num z) => (z =? 0)%Z
  | VNum NaN => true
  | VStr s => String.eqb s ""
  | VArr _ | VObj _ => false
  end.

Definition truthy (v : value) : bool := negb (falsy v).

(** [v === undefined || v === null] *)
Definition nullish (v : value) : bool :=
  match v with
  | VUndefined | VNull => true
  | _ => false
  end.

(** Own property [k] of the object [o]. *)
Fixpoint obj_get (k : string) (o : obj) : option value :=
  match o with
  | [] => None
  | (k', v) :: o' => if String.eqb k k' then Some v else obj_get k o'
  end.

(** [o[k] = v]: an existing property keeps its place, a new one goes last. *)
Fixpoint obj_set (k : string) (v : value) (o : obj) : obj :=
  match o with
  | [] => [(k, v)]
  | (k', v') :: o' =>
      if String.eqb k k' then (k, v) :: o' else (k', v') :: obj_set k v o'
  end.

Definition obj_keys (o : obj) : list string := map fst o.

(** [{ ...o, k1: v1, ..., kn: vn }] once the spread has been copied:
    the listed properties are defined from left to right. *)
Definition obj_extend (o : obj) (ps : obj) : obj :=
  fold_left (fun acc kv => obj_set (fst kv) (snd kv) acc) ps o.

(** The properties the pages read are plain data properties with names of
    their own choosing (never [length] or an index), so a value that is
    not an object has none of them. *)
Definition field (k : string) (v : value) : value :=
  match v with
  | VObj o => match obj_get k o with Some x => x | None => VUndefined end
  | _ => VUndefined
  end.

Definition index_key (i : nat) : string :=
  toString (Num (Z.of_nat i)).

Fixpoint indexed (i : nat) (l : list value) : obj :=
  match l with
  | [] => []
  | x :: l' => (index_key i, x) :: indexed (S i) l'
  end.

Fixpoint chars (s : string) : list value :=
  match s with
  | EmptyString => []
  | String c s' => VStr (String c EmptyString) :: chars s'
  end.

(** [{ ...v }]: the own enumerable properties of [v]. *)
Definition spread (v : value) : obj :=
  match v with
  | VObj o => o
  | VArr l => indexed 0 l
  | VStr s => indexed 0 (chars s)
  | _ => []
  end.

(** [a === s] for a string literal [s] *)
Definition is_string (a : value) (s : string) : bool :=
  match a with
  | VStr x => String.eqb x s
  | _ => false
  end.

(** [v?.k] *)
Definition optional_field (k : string) (v : value) : value :=
  if nullish v then VUndefined else field k v.

(** [!s] for a string [s] *)
Definition empty (s : string) : bool := String.eqb s "".

(** [/^\d+$/.test(s)] *)
Definition is_digit (c : ascii) : bool :=
  let n := nat_of_ascii c in (48 <=? n)%nat && (n <=? 57)%nat.

Fixpoint all_digits (s : string) : bool :=
  match s with
  | EmptyString => true
  | String c s' => is_digit c && all_digits s'
  end.

Definition test_digits (s : string) : bool :=
  negb (String.eqb s "") && all_digits s.

End JS.

Import JS.

(** ** The browser interface *)

(** A thrown [Error]; only its [message] is ever read. *)
Record error : Type := Error { message : string }.

Class Browser : Type := {
  (** [JSON.stringify(v)] *)
  JSON_stringify : value -> string;
  (** [JSON.parse(s)]; [None] when it throws a [SyntaxError]. *)
  JSON_parse : string -> option value;
  (** [new Date(ms).toISOString()], the date given in milliseconds. *)
  toISOString : Z -> string;
  (** [new Date(v).getTime()] *)
  Date_getTime : value -> number;
  (** [String(v)], as in a template literal. *)
  String_of : value -> string;
  (** The error thrown when property [k] of [null] or [undefined] is read. *)
  TypeError_reading : string -> error;
  (** The error thrown by [JSON.parse] on the text [s]. *)
  SyntaxError_parsing : string -> error
}.

(** ** Observable effects and the world *)

Record toast_args : Type := Toast {
  title : string;
  description : option string;
  variant : option string
}.

Definition destructive (t : toast_args) : bool :=
  match variant t with
  | Some v => String.eqb v "destructive"
  | None => false
  end.

Inductive api_call : Type :=
| saveTaskDetailsAndStart (taskData : value)
| stopInterventions
| saveAssessment (assessmentData : value).

Inductive event : Type :=
| PreventDefault
| ToastShown (t : toast_args)
| Navigate (path : string)
| ConsoleError (label : string) (e : error)
| WindowOpen (url : string)
| ApiCall (c : api_call)
| SetItem (key data : string)
| RemoveItem (key : string).

Record World : Type := mkWorld {
  localStorage : gmap string string;
  log : list event
}.

(** The outcome of an awaited request of [apiService]: the parsed body of
    the response, or the error that the service rethrows.  In the log,
    [ApiCall] stands for the whole request, the console output of the
    service included. *)
Inductive outcome : Type :=
| Resolved (result : value)
| Rejected (e : error).

(** ** Programs

    State over the component state [C] and the world, with exceptions:
    [inl a] is normal completion, [inr e] an uncaught [throw e]. *)

Definition Prog (C A : Type) : Type := C * World -> (A + error) * (C * World).

#[global] Instance prog_ret {C} : MRet (Prog C) :=
  fun A (a : A) s => (inl a, s).

#[global] Instance prog_bind {C} : MBind (Prog C) :=
  fun A B (k : A -> Prog C B) (m : Prog C A) s =>
    match m s with
    | (inl a, s') => k a s'
    | (inr e, s') => (inr e, s')
    end.

Definition throw {C A} (e : error) : Prog C A := fun s => (inr e, s).

(** [try { body } catch (error) { handler }] *)
Definition try_catch {C A} (body : Prog C A) (handler : error -> Prog C A) : Prog C A :=
  fun s =>
    match body s with
    | (inl a, s') => (inl a, s')
    | (inr e, s') => handler e s'
    end.

(** [try { body } finally { cleanup }] *)
Definition try_finally {C A} (body : Prog C A) (cleanup : Prog C unit) : Prog C A :=
  fun s =>
    match body s with
    | (r, s') =>
        match cleanup s' with
        | (inl _, s'') => (r, s'')
        | (inr e, s'') => (inr e, s'')
        end
    end.

(** A program run from component state [c] in the world [w]. *)
Definition run {C A} (p : Prog C A) (c : C) (w : World) : (A + error) * (C * World) :=
  p (c, w).

Definition setState {C} (f : C -> C) : Prog C unit :=
  fun '(c, w) => (inl tt, (f c, w)).

Definition emit {C} (e : event) : Prog C unit :=
  fun '(c, w) => (inl tt, (c, mkWorld (localStorage w) (log w ++ [e]))).

Definition toast {C} (t : toast_args) : Prog C unit := emit (ToastShown t).
Definition navigate {C} (path : string) : Prog C unit := emit (Navigate path).
Definition console_error {C} (label : string) (e : error) : Prog C unit :=
  emit (ConsoleError label e).
Definition window_open {C} (url : string) : Prog C unit := emit (WindowOpen url).
Definition preventDefault {C} : Prog C unit := emit PreventDefault.

(** [localStorage.getItem(key)]; [None] is [null]. *)
Definition getItem {C} (key : string) : Prog C (option string) :=
  fun '(c, w) => (inl (localStorage w !! key), (c, w)).

Definition setItem {C} (key data : string) : Prog C unit :=
  fun '(c, w) =>
    (inl tt, (c, mkWorld (<[key := data]> (localStorage w)) (log w ++ [SetItem key data]))).

Definition removeItem {C} (key : string) : Prog C unit :=
  fun '(c, w) =>
    (inl tt, (c, mkWorld (delete key (localStorage w)) (log w ++ [RemoveItem key]))).

(** [await apiService.f(..)], the request ending in [o]. *)
Definition await {C} (c : api_call) (o : outcome) : Prog C value :=
  emit (ApiCall c) ;;
  match o with
  | Resolved result => mret result
  | Rejected e => throw e
  end.

(** [v.k], which throws when [v] is [null] or [undefined]. *)
Definition get `{Browser} {C} (v : value) (k : string) : Prog C value :=
  if nullish v then throw (TypeError_reading k) else mret (field k v).

(** [JSON.parse(s)] *)
Definition parse `{Browser} {C} (s : string) : Prog C value :=
  match JSON_parse s with
  | Some v => mret v
  | None => throw (SyntaxError_parsing s)
  end.

(** ** ApiService: the requests to the backend

    Each method of [apiService] fetches, reads the body of the response
    as JSON, throws when the response is not [ok], and returns the body
    otherwise; whatever it catches it logs to the console and throws
    again.  A request is settled by how its [fetch] ends. *)

Module ApiService.

(** The [fetch] rejects, or it gives a response, [ok] or not, whose
    [json()] gives a value or rejects. *)
Inductive fetched : Type :=
| Failed (e : error)
| Response (ok : bool) (json : value + error).

Section Requests.

Context `{Browser}.

(** The body shared by the methods; [failure] is the message of the
    method for a response that carries none. *)
Definition request (failure : string) (f : fetched) : outcome :=
  match f with
  | Failed e => Rejected e
  | Response ok (inr e) => Rejected e
  | Response ok (inl result) =>
      if negb ok then
        if nullish result then Rejected (TypeError_reading "message")
        else
          let message := field "message" result in
          Rejected (Error (if falsy message then failure else String_of message))
      else Resolved result
  end.

Definition saveTaskDetailsAndStart : fetched -> outcome :=
  request "Failed to save task details".
Definition stopInterventions : fetched -> outcome :=
  request "Failed to stop interventions".
Definition saveAssessment : fetched -> outcome :=
  request "Failed to save assessment".

End Requests.

End ApiService.

(** ** TaskForm: the task setup page *)

Module TaskForm.

Record FormData : Type := mkFormData {
  name : string;
  participantId : string;
  batch : string;
  category : list string;
  taskDescription : string;
  estimatedTime : string;
  systemType : string
}.

Definition initial : FormData := mkFormData "" "" "" [] "" "" "".

(** The properties of [formData], in the order of the [useState] literal. *)
Definition to_obj (formData : FormData) : obj :=
  [ ("name", VStr (name formData));
    ("participantId", VStr (participantId formData));
    ("batch", VStr (batch formData));
    ("category", VArr (map VStr (category formData)));
    ("taskDescription", VStr (taskDescription formData));
    ("estimatedTime", VStr (estimatedTime formData));
    ("systemType", VStr (systemType formData)) ].

(** [{ ...formData, startTime: new Date().toISOString() }] *)
Definition taskData `{Browser} (formData : FormData) (now : Z) : value :=
  VObj (obj_extend (to_obj formData) [("startTime", VStr (toISOString now))]).

(** The condition of the first [if] of [handleSubmit]. *)
Definition incomplete (formData : FormData) : bool :=
  empty (name formData)
  || empty (participantId formData)
  || empty (batch formData)
  || (length (category formData) =? 0)%nat
  || empty (taskDescription formData)
  || empty (estimatedTime formData)
  || empty (systemType formData).

Definition handleSubmit `{Browser} (formData : FormData) (now : Z) (o : outcome)
  : Prog FormData unit :=
  preventDefault ;;
  if incomplete formData then
    toast (Toast "Please fill in all fields" None (Some "destructive"))
  else if negb (test_digits (participantId formData)) then
    toast (Toast "Invalid Participant ID"
                 (Some "Participant ID must be a number") (Some "destructive"))
  else
    try_catch
      (let taskData := taskData formData now in
       setItem "currentTask" (JSON_stringify taskData) ;;
       result ← await (saveTaskDetailsAndStart taskData) o;
       interventionsStarted ← get result "interventionsStarted";
       toast (Toast "Task session started"
                (Some (if truthy interventionsStarted
                       then "Task details saved and monitoring started!"
                       else "Task details saved. Good luck with your task!"))
                None) ;;
       navigate "/task-session")
      (fun error =>
         toast (Toast "Error"
                  (Some "Failed to start task session. Please try again.")
                  (Some "destructive")) ;;
         console_error "Error starting task session:" error).

End TaskForm.

(** ** TaskSession: the timed session page *)

Module TaskSession.

Record State : Type := mkState {
  taskData : value;
  elapsedTime : number;
  isEndingSession : bool
}.

Definition initial : State := mkState VNull (Num 0) false.

Definition setTaskData (v : value) (st : State) : State :=
  mkState v (elapsedTime st) (isEndingSession st).
Definition setElapsedTime (n : number) (st : State) : State :=
  mkState (taskData st) n (isEndingSession st).
Definition setIsEndingSession (b : bool) (st : State) : State :=
  mkState (taskData st) (elapsedTime st) b.

(** The body of the [useEffect]: it returns the [startTime] of the timer
    it starts, or [None] after the redirect. *)
Definition mount `{Browser} : Prog State (option number) :=
  storedTask ← getItem "currentTask";
  match storedTask with
  | None => navigate "/task-form" ;; mret None
  | Some text =>
      if empty text then navigate "/task-form" ;; mret None
      else
        task ← parse text;
        setState (setTaskData task) ;;
        task_startTime ← get task "startTime";
        let startTime := Date_getTime task_startTime in
        mret (Some startTime)
  end.

(** The callback of [setInterval], run at time [now]. *)
Definition tick (startTime : number) (now : Z) : Prog State unit :=
  let elapsed := floor_div (sub (Num now) startTime) 1000 in
  setState (setElapsedTime elapsed).

Definition formatTime (seconds : number) : string :=
  let hours := floor_div seconds 3600 in
  let minutes := floor_div (rem seconds 3600) 60 in
  let remainingSeconds := rem seconds 60 in
  if gtb hours 0 then
    toString hours +:+ ":" +:+ padStart0 2 (toString minutes) +:+ ":"
      +:+ padStart0 2 (toString remainingSeconds)
  else
    toString minutes +:+ ":" +:+ padStart0 2 (toString remainingSeconds).

(** [handleEndSession] as the render of state [st] defines it; the
    request ends in [o] and [new Date()] is [now]. *)
Definition handleEndSession `{Browser} (st : State) (now : Z) (o : outcome)
  : Prog State unit :=
  if falsy (taskData st) || isEndingSession st then mret tt
  else
    setState (setIsEndingSession true) ;;
    try_finally
      (try_catch
         (stopResult ← await stopInterventions o;
          let endTime := toISOString now in
          status ← get stopResult "status";
          let sessionData :=
            obj_extend (spread (taskData st))
              [ ("endTime", VStr endTime);
                ("actualDuration", VNum (elapsedTime st));
                ("interventionsStopped", VBool (is_string status "success")) ] in
          setItem "completedTask" (JSON_stringify (VObj sessionData)) ;;
          (if is_string status "success" then
             toast (Toast "Task session ended"
                      (Some "Monitoring stopped successfully. Please complete the assessment forms")
                      None)
           else
             toast (Toast "Task session ended"
                      (Some ("Session saved. " +:+ String_of (field "message" stopResult)))
                      (Some "destructive"))) ;;
          navigate "/task-results")
         (fun error =>
            console_error "Error ending session:" error ;;
            let endTime := toISOString now in
            let sessionData :=
              obj_extend (spread (taskData st))
                [ ("endTime", VStr endTime);
                  ("actualDuration", VNum (elapsedTime st));
                  ("interventionsStopped", VBool false);
                  ("error", VStr "Failed to stop interventions") ] in
            setItem "completedTask" (JSON_stringify (VObj sessionData)) ;;
            toast (Toast "Task session ended"
                     (Some "Session saved, but failed to stop monitoring. Please check manually.")
                     (Some "destructive")) ;;
            navigate "/task-results"))
      (setState (setIsEndingSession false)).

Inductive view : Type :=
| Loading
| Content (timer : string).

Definition render (st : State) : view :=
  if falsy (taskData st) then Loading else Content (formatTime (elapsedTime st)).

End TaskSession.

(** ** TaskResults: the assessment page *)

Module TaskResults.

Record NasaTlx : Type := mkNasaTlx {
  mental : string;
  physical : string;
  temporal : string;
  performance : string;
  effort : string;
  frustration : string
}.

Record Likert : Type := mkLikert {
  accuracy : string;
  effectiveness : string;
  personalisation : string
}.

Record File : Type := mkFile { file_name : string }.

Record State : Type := mkState {
  taskData : value;
  uploadedFile : option File;
  isSubmitting : bool;
  nasaTlx : NasaTlx;
  likertResponses : Likert
}.

Definition initial : State :=
  mkState VNull None false (mkNasaTlx "" "" "" "" "" "") (mkLikert "" "" "").

Definition setTaskData (v : value) (st : State) : State :=
  mkState v (uploadedFile st) (isSubmitting st) (nasaTlx st) (likertResponses st).
Definition setIsSubmitting (b : bool) (st : State) : State :=
  mkState (taskData st) (uploadedFile st) b (nasaTlx st) (likertResponses st).

(** [Object.values(nasaTlx)] and [Object.values(likertResponses)] *)
Definition nasaTlx_values (n : NasaTlx) : list string :=
  [mental n; physical n; temporal n; performance n; effort n; frustration n].
Definition likert_values (l : Likert) : list string :=
  [accuracy l; effectiveness l; personalisation l].

Definition nasaTlx_obj (n : NasaTlx) : value :=
  VObj [ ("mental", VStr (mental n)); ("physical", VStr (physical n));
         ("temporal", VStr (temporal n)); ("performance", VStr (performance n));
         ("effort", VStr (effort n)); ("frustration", VStr (frustration n)) ].
Definition likert_obj (l : Likert) : value :=
  VObj [ ("accuracy", VStr (accuracy l)); ("effectiveness", VStr (effectiveness l));
         ("personalisation", VStr (personalisation l)) ].

(** [.every((v) => v !== "")] *)
Definition every_nonempty (l : list string) : bool :=
  forallb (fun v => negb (String.eqb v "")) l.

(** [uploadedFile?.name || "No file uploaded"] *)
Definition file_label (f : option File) : string :=
  match f with
  | Some f => if empty (file_name f) then "No file uploaded" else file_name f
  | None => "No file uploaded"
  end.

(** The body of the [useEffect]. *)
Definition mount `{Browser} : Prog State unit :=
  storedTask ← getItem "completedTask";
  match storedTask with
  | None => navigate "/"
  | Some text =>
      if empty text then navigate "/"
      else
        task ← parse text;
        setState (setTaskData task)
  end.

Definition assessmentData `{Browser} (st : State) (now : Z) : value :=
  VObj [ ("participantId", field "participantId" (taskData st));
         ("batch", field "batch" (taskData st));
         ("category", field "category" (taskData st));
         ("taskDescription", field "taskDescription" (taskData st));
         ("name", field "name" (taskData st));
         ("estimatedTime", field "estimatedTime" (taskData st));
         ("file", VStr (file_label (uploadedFile st)));
         ("nasaTlx", nasaTlx_obj (nasaTlx st));
         ("likertResponses", likert_obj (likertResponses st));
         ("submittedAt", VStr (toISOString now)) ].

Definition handleSubmit `{Browser} (st : State) (now : Z) (o : outcome)
  : Prog State unit :=
  preventDefault ;;
  let nasaTlxComplete := every_nonempty (nasaTlx_values (nasaTlx st)) in
  let likertComplete := every_nonempty (likert_values (likertResponses st)) in
  if negb nasaTlxComplete || negb likertComplete then
    toast (Toast "Please complete all assessment forms" None (Some "destructive"))
  else if falsy (optional_field "participantId" (taskData st)) then
    toast (Toast "Participant ID missing"
             (Some "Cannot save assessment without participant ID")
             (Some "destructive"))
  else
    setState (setIsSubmitting true) ;;
    try_finally
      (try_catch
         (let assessmentData := assessmentData st now in
          result ← await (saveAssessment assessmentData) o;
          setItem "sessionResults" (JSON_stringify assessmentData) ;;
          removeItem "currentTask" ;;
          removeItem "completedTask" ;;
          isNewFile ← get result "isNewFile";
          toast (Toast "Assessment completed!"
                   (Some (if truthy isNewFile
                          then "Assessment saved successfully"
                          else "Assessment appended ("
                               +:+ String_of (field "totalEntries" result)
                               +:+ " total entries)"))
                   None) ;;
          navigate "/")
         (fun error =>
            console_error "Failed to save assessment:" error ;;
            toast (Toast "Failed to save assessment"
                     (Some (if empty (message error) then "Please try again"
                            else message error))
                     (Some "destructive"))))
      (setState (setIsSubmitting false)).

Inductive view : Type :=
| Loading
| Content.

Definition render (st : State) : view :=
  if falsy (taskData st) then Loading else Content.

End TaskResults.

(** ** TaskResults, the variant that links to the feedback form *)

Module TaskResultsFeedback.

Record State : Type := mkState { taskData : value }.

Definition initial : State := mkState VNull.

Definition setTaskData (v : value) (st : State) : State := mkState v.

Definition mount `{Browser} : Prog State unit :=
  storedTask ← getItem "completedTask";
  match storedTask with
  | None => navigate "/"
  | Some text =>
      if empty text then navigate "/"
      else
        task ← parse text;
        setState (setTaskData task)
  end.

Definition feedback_form : string :=
  "https://forms.cloud.microsoft/Pages/ResponsePage.aspx?id=M4x5RUMbAUy_PtjWVdM4nKa3h3dGz11PvcqBDTUv2SFUM040RUVRRldSTUVYV0kzMkVWVDc0VjRUVS4u".

Definition handleFeedbackClick : Prog State unit :=
  removeItem "currentTask" ;;
  removeItem "completedTask" ;;
  window_open feedback_form ;;
  navigate "/".

Inductive view : Type :=
| Loading
| Content.

Definition render (st : State) : view :=
  if falsy (taskData st) then Loading else Content.

End TaskResultsFeedback.

(** ** Index: the landing page *)

Module Index.

Definition handleStartSession : Prog unit unit :=
  navigate "/task-form".

End Index.

(** ** Reading a rendered duration back

    What a reader of the timer does with ["H:MM:SS"] or ["M:SS"]: the
    fields between the colons are decimal numbers of hours, minutes and
    seconds. *)

Module Duration.

(** The decimal numeral of [n], without padding. *)
Definition decimal (n : N) : string := NilZero.string_of_uint (N.to_uint n).

Definition digit (n : N) : ascii := ascii_of_N (48 + n).

(** The numeral of [n < 100] on exactly two digits. *)
Definition two_digits (n : N) : string :=
  String (digit (n / 10)) (String (digit (n mod 10)) EmptyString).

Definition read_decimal (s : string) : option N :=
  option_map N.of_uint (NilZero.uint_of_string s).

(** [s.split(c)] *)
Fixpoint split_on (c : ascii) (s : string) : list string :=
  match s with
  | EmptyString => [EmptyString]
  | String x s' =>
      if Ascii.eqb x c then EmptyString :: split_on c s'
      else
        match split_on c s' with
        | h :: t => String x h :: t
        | [] => [String x EmptyString]
        end
  end.

Definition seconds_of (h m s : N) : N := (h * 3600 + m * 60 + s)%N.

Definition read (t : string) : option N :=
  match split_on ":" t with
  | [m; s] =>
      match read_decimal m, read_decimal s with
      | Some m, Some s => Some (seconds_of 0 m s)
      | _, _ => None
      end
  | [h; m; s] =>
      match read_decimal h, read_decimal m, read_decimal s with
      | Some h, Some m, Some s => Some (seconds_of h m s)
      | _, _, _ => None
      end
  | _ => None
  end.

(** The numbers that fit on two digits. *)
Definition below_100 : list N := map N.of_nat (seq 0 100).

End Duration.

(** ** JavaScript numbers beyond 2^53

    A JavaScript number is an IEEE 754 double.  [a / d] is the quotient
    rounded to the nearest double (53 significant bits, a tie goes to the
    even one), and [Math.floor] is applied to the rounded quotient; [a % d]
    is exact.  Here the division has its rounding written out, for integers
    [a] and positive integers [d] (the exponent range of the doubles, which
    these quotients do not leave, is not modelled).  [toString] is the
    decimal notation of an integer below 2^53; beyond, JavaScript prints the
    shortest digits that identify the double, which is not modelled, and
    [formatTime] gives [None]. *)

Module Double.

(** The integer [z] is a double: it fits on 53 bits once the trailing zero
    bits are set aside. *)
Definition representable (z : Z) : bool :=
  Z.abs z mod 2 ^ Z.max 0 (Z.log2 (Z.abs z) - 52) =? 0.

(** [n / d] as the fraction [num / den] of [n / (d * 2^e)]. *)
Definition scaled (n d e : Z) : Z * Z :=
  if 0 <=? e then (n, d * 2 ^ e) else (n * 2 ^ (- e), d).

(** The exponent [e] with [2^52 <= n / (d * 2^e) < 2^53], for positive [n]
    and [d]. *)
Definition exponent (n d : Z) : Z :=
  let e := Z.log2 n - Z.log2 d - 52 in
  if fst (scaled n d e) <? 2 ^ 52 * snd (scaled n d e) then e - 1 else e.

(** The integer nearest to [num / den], the even one of two that are
    equally near. *)
Definition half_even (num den : Z) : Z :=
  let q := num / den in
  let r := num mod den in
  if 2 * r <? den then q
  else if den <? 2 * r then q + 1
  else if Z.even q then q else q + 1.

(** [Math.floor(n / d)]: the double nearest to the quotient is
    [m * 2^e], and the floor is taken of it. *)
Definition floor_div (n d : Z) : Z :=
  if n =? 0 then 0
  else
    let e := exponent (Z.abs n) d in
    let m := half_even (fst (scaled (Z.abs n) d e)) (snd (scaled (Z.abs n) d e)) in
    let m := if n <? 0 then - m else m in
    if 0 <=? e then m * 2 ^ e else m / 2 ^ (- e).

(** [z.toString()] for an integer below 2^53. *)
Definition toString (z : Z) : option string :=
  if Z.abs z <? 2 ^ 53 then Some (JS.toString (Num z)) else None.

(** [formatTime] on the double [seconds], an integer. *)
Definition formatTime (seconds : Z) : option string :=
  let hours := floor_div seconds 3600 in
  let minutes := floor_div (Z.rem seconds 3600) 60 in
  let remainingSeconds := Z.rem seconds 60 in
  if 0 <? hours then
    h ← toString hours;
    m ← toString minutes;
    s ← toString remainingSeconds;
    Some (h +:+ ":" +:+ padStart0 2 m +:+ ":" +:+ padStart0 2 s)
  else
    m ← toString minutes;
    s ← toString remainingSeconds;
    Some (m +:+ ":" +:+ padStart0 2 s).

End Double.

(** ** A reference browser

    An executable implementation of [Browser], to run the pages on
    concrete inputs.  It implements the built-ins on the texts the pages
    themselves produce: JSON with whole numbers, and dates in the format of
    [toISOString] with four-digit years; [JSON.stringify] applied to
    [undefined] gives [null] here, which the pages never ask for. *)

Module Reference.

Definition dquote : ascii := ascii_of_nat 34.
Definition backslash : ascii := ascii_of_nat 92.
Definition char (c : ascii) : string := String c EmptyString.

(** *** [String(v)] *)

Fixpoint coerce (v : value) : string :=
  match v with
  | VUndefined => "undefined"
  | VNull => "null"
  | VBool true => "true"
  | VBool false => "false"
  | VNum n => toString n
  | VStr s => s
  | VArr l =>
      (fix join (l : list value) : string :=
         match l with
         | [] => ""
         | [x] => if nullish x then "" else coerce x
         | x :: l' => (if nullish x then "" else coerce x) +:+ "," +:+ join l'
         end) l
  | VObj _ => "[object Object]"
  end.

(** *** [JSON.stringify] *)

Definition hex_digit (n : N) : ascii :=
  if (n <? 10)%N then ascii_of_N (48 + n) else ascii_of_N (87 + n).

Definition escape_char (c : ascii) : string :=
  let n := N_of_ascii c in
  if Ascii.eqb c dquote then String backslash (char dquote)
  else if Ascii.eqb c backslash then String backslash (char backslash)
  else if (n =? 8)%N then String backslash "b"
  else if (n =? 9)%N then String backslash "t"
  else if (n =? 10)%N then String backslash "n"
  else if (n =? 12)%N then String backslash "f"
  else if (n =? 13)%N then String backslash "r"
  else if (n <? 32)%N then
    String backslash "u00" +:+ String (hex_digit (n / 16)) (char (hex_digit (n mod 16)))
  else char c.

Fixpoint escape (s : string) : string :=
  match s with
  | EmptyString => EmptyString
  | String c s' => escape_char c +:+ escape s'
  end.

Definition quote (s : string) : string := String dquote (escape s +:+ char dquote).

Fixpoint stringify (v : value) : string :=
  match v with
  | VUndefined => "null"
  | VNull => "null"
  | VBool true => "true"
  | VBool false => "false"
  | VNum NaN => "null"
  | VNum n => toString n
  | VStr s => quote s
  | VArr l =>
      "[" +:+
      (fix items (l : list value) : string :=
         match l with
         | [] => ""
         | [x] => stringify x
         | x :: l' => stringify x +:+ "," +:+ items l'
         end) l
      +:+ "]"
  | VObj o =>
      "{" +:+
      (fix members (first : bool) (o : obj) : string :=
         match o with
         | [] => ""
         | (k, VUndefined) :: o' => members first o'
         | (k, x) :: o' =>
             (if first then "" else ",") +:+ quote k +:+ ":" +:+ stringify x
             +:+ members false o'
         end) true o
      +:+ "}"
  end.

(** *** [JSON.parse] *)

Definition is_space (c : ascii) : bool :=
  let n := N_of_ascii c in
  (n =? 32)%N || (n =? 9)%N || (n =? 10)%N || (n =? 13)%N.

Fixpoint skip_ws (s : string) : string :=
  match s with
  | String c s' => if is_space c then skip_ws s' else s
  | EmptyString => EmptyString
  end.

Definition hex_value (c : ascii) : option N :=
  let n := N_of_ascii c in
  if (48 <=? n)%N && (n <=? 57)%N then Some (n - 48)%N
  else if (97 <=? n)%N && (n <=? 102)%N then Some (n - 87)%N
  else if (65 <=? n)%N && (n <=? 70)%N then Some (n - 55)%N
  else None.

(** The character that follows a backslash, other than [u]. *)
Definition unescape (e : ascii) : option ascii :=
  if Ascii.eqb e dquote then Some dquote
  else if Ascii.eqb e backslash then Some backslash
  else if Ascii.eqb e "/" then Some "/"%char
  else if Ascii.eqb e "b" then Some (ascii_of_nat 8)
  else if Ascii.eqb e "t" then Some (ascii_of_nat 9)
  else if Ascii.eqb e "n" then Some (ascii_of_nat 10)
  else if Ascii.eqb e "f" then Some (ascii_of_nat 12)
  else if Ascii.eqb e "r" then Some (ascii_of_nat 13)
  else None.

Definition cons_char (c : ascii) (r : option (string * string)) : option (string * string) :=
  match r with
  | Some (str, rest) => Some (String c str, rest)
  | None => None
  end.

(** The characters of a string literal after its opening quote, and what
    follows the closing one. *)
Fixpoint string_body (s : string) : option (string * string) :=
  match s with
  | EmptyString => None
  | String c rest =>
      if Ascii.eqb c dquote then Some (EmptyString, rest)
      else if Ascii.eqb c backslash then
        match rest with
        | String e rest' =>
            if Ascii.eqb e "u" then
              match rest' with
              | String h1 (String h2 (String h3 (String h4 rest''))) =>
                  match hex_value h1, hex_value h2, hex_value h3, hex_value h4 with
                  | Some 0%N, Some 0%N, Some a, Some b =>
                      cons_char (ascii_of_N (16 * a + b)) (string_body rest'')
                  | _, _, _, _ => None
                  end
              | _ => None
              end
            else
              match unescape e with
              | Some c' => cons_char c' (string_body rest')
              | None => None
              end
        | EmptyString => None
        end
      else if (N_of_ascii c <? 32)%N then None
      else cons_char c (string_body rest)
  end.

(** The leading digits of [s] as a number, with their count and the rest. *)
Fixpoint digits (acc : Z) (count : nat) (s : string) : Z * nat * string :=
  match s with
  | String c s' =>
      if is_digit c then digits (10 * acc + Z.of_N (N_of_ascii c - 48)) (S count) s'
      else (acc, count, s)
  | EmptyString => (acc, count, s)
  end.

(** A whole number; a fraction or an exponent is outside the model. *)
Definition integer (s : string) : option (value * string) :=
  let '(negative, s1) :=
    match s with
    | String c s' => if Ascii.eqb c "-" then (true, s') else (false, s)
    | EmptyString => (false, s)
    end in
  let '(n, count, rest) := digits 0 0 s1 in
  match count with
  | O => None
  | S _ =>
      match rest with
      | String c _ =>
          if Ascii.eqb c "." || Ascii.eqb c "e" || Ascii.eqb c "E" then None
          else Some (VNum (Num (if negative then - n else n)), rest)
      | EmptyString => Some (VNum (Num (if negative then - n else n)), rest)
      end
  end.

Fixpoint strip_prefix (p s : string) : option string :=
  match p, s with
  | EmptyString, _ => Some s
  | String a p', String b s' => if Ascii.eqb a b then strip_prefix p' s' else None
  | String _ _, EmptyString => None
  end.

Definition literal (word : string) (v : value) (s : string) : option (value * string) :=
  match strip_prefix word s with
  | Some rest => Some (v, rest)
  | None => None
  end.

Fixpoint parse_value (fuel : nat) (s : string) {struct fuel} : option (value * string) :=
  match fuel with
  | O => None
  | S fuel' =>
      match skip_ws s with
      | EmptyString => None
      | String c rest =>
          if Ascii.eqb c "{" then
            match skip_ws rest with
            | String c' rest' =>
                if Ascii.eqb c' "}" then Some (VObj [], rest')
                else parse_members fuel' [] rest
            | EmptyString => None
            end
          else if Ascii.eqb c "[" then
            match skip_ws rest with
            | String c' rest' =>
                if Ascii.eqb c' "]" then Some (VArr [], rest')
                else parse_items fuel' [] rest
            | EmptyString => None
            end
          else if Ascii.eqb c dquote then
            match string_body rest with
            | Some (str, rest') => Some (VStr str, rest')
            | None => None
            end
          else if Ascii.eqb c "t" then literal "true" (VBool true) (String c rest)
          else if Ascii.eqb c "f" then literal "false" (VBool false) (String c rest)
          else if Ascii.eqb c "n" then literal "null" VNull (String c rest)
          else integer (String c rest)
      end
  end
with parse_items (fuel : nat) (acc : list value) (s : string) {struct fuel}
  : option (value * string) :=
  match fuel with
  | O => None
  | S fuel' =>
      match parse_value fuel' s with
      | Some (x, rest) =>
          match skip_ws rest with
          | String c rest' =>
              if Ascii.eqb c "," then parse_items fuel' (acc ++ [x]) rest'
              else if Ascii.eqb c "]" then Some (VArr (acc ++ [x]), rest')
              else None
          | EmptyString => None
          end
      | None => None
      end
  end
with parse_members (fuel : nat) (acc : obj) (s : string) {struct fuel}
  : option (value * string) :=
  match fuel with
  | O => None
  | S fuel' =>
      match skip_ws s with
      | String q rest =>
          if Ascii.eqb q dquote then
            match string_body rest with
            | Some (k, rest1) =>
                match skip_ws rest1 with
                | String colon rest2 =>
                    if Ascii.eqb colon ":" then
                      match parse_value fuel' rest2 with
                      | Some (x, rest3) =>
                          match skip_ws rest3 with
                          | String c rest4 =>
                              if Ascii.eqb c "," then parse_members fuel' (obj_set k x acc) rest4
                              else if Ascii.eqb c "}" then Some (VObj (obj_set k x acc), rest4)
                              else None
                          | EmptyString => None
                          end
                      | None => None
                      end
                    else None
                | EmptyString => None
                end
            | None => None
            end
          else None
      | EmptyString => None
      end
  end.

Definition parse_text (s : string) : option value :=
  match parse_value (2 * String.length s + 2) s with
  | Some (v, rest) =>
      match skip_ws rest with
      | EmptyString => Some v
      | String _ _ => None
      end
  | None => None
  end.

(** *** Dates, in milliseconds since 1970-01-01T00:00:00Z *)

Definition ms_per_day : Z := 86400000.

(** Year, month and day of the day number [z] (days since 1970-01-01)
    in the proleptic Gregorian calendar. *)
Definition civil_from_days (z : Z) : Z * Z * Z :=
  let z := z + 719468 in
  let era := z / 146097 in
  let doe := z - era * 146097 in
  let yoe := (doe - doe / 1460 + doe / 36524 - doe / 146096) / 365 in
  let doy := doe - (365 * yoe + yoe / 4 - yoe / 100) in
  let mp := (5 * doy + 2) / 153 in
  let d := doy - (153 * mp + 2) / 5 + 1 in
  let m := if mp <? 10 then mp + 3 else mp - 9 in
  let y := yoe + era * 400 in
  (if m <=? 2 then y + 1 else y, m, d).

Definition days_from_civil (y m d : Z) : Z :=
  let y := if m <=? 2 then y - 1 else y in
  let era := y / 400 in
  let yoe := y - era * 400 in
  let doy := (153 * (if 2 <? m then m - 3 else m + 9) + 2) / 5 + d - 1 in
  let doe := yoe * 365 + yoe / 4 - yoe / 100 + doy in
  era * 146097 + doe - 719468.

Definition pad (n : nat) (z : Z) : string := padStart0 n (toString (Num z)).

Definition iso_year (y : Z) : string :=
  if (0 <=? y) && (y <=? 9999) then pad 4 y
  else if y <? 0 then "-" +:+ pad 6 (- y)
  else "+" +:+ pad 6 y.

Definition iso_text (ms : Z) : string :=
  let '(y, m, d) := civil_from_days (ms / ms_per_day) in
  let r := ms mod ms_per_day in
  iso_year y +:+ "-" +:+ pad 2 m +:+ "-" +:+ pad 2 d +:+ "T"
    +:+ pad 2 (r / 3600000) +:+ ":" +:+ pad 2 ((r / 60000) mod 60) +:+ ":"
    +:+ pad 2 ((r / 1000) mod 60) +:+ "." +:+ pad 3 (r mod 1000) +:+ "Z".

(** Exactly [n] digits followed by the separator [sep]. *)
Definition field_of (n : nat) (sep : string) (s : string) : option (Z * string) :=
  let '(z, count, rest) := digits 0 0 s in
  if (count =? n)%nat then
    match strip_prefix sep rest with
    | Some rest' => Some (z, rest')
    | None => None
    end
  else None.

(** The time value of a text in the format of [iso_text], four-digit
    years only. *)
Definition iso_time (s : string) : number :=
  match field_of 4 "-" s with
  | Some (y, s) =>
  match field_of 2 "-" s with
  | Some (m, s) =>
  match field_of 2 "T" s with
  | Some (d, s) =>
  match field_of 2 ":" s with
  | Some (hh, s) =>
  match field_of 2 ":" s with
  | Some (mm, s) =>
  match field_of 2 "." s with
  | Some (ss, s) =>
  match field_of 3 "Z" s with
  | Some (ms, EmptyString) =>
      if (1 <=? m) && (m <=? 12) && (1 <=? d) && (d <=? 31)
         && (hh <=? 23) && (mm <=? 59) && (ss <=? 59)
      then Num (days_from_civil y m d * ms_per_day
                + hh * 3600000 + mm * 60000 + ss * 1000 + ms)
      else NaN
  | _ => NaN
  end
  | None => NaN end
  | None => NaN end
  | None => NaN end
  | None => NaN end
  | None => NaN end
  | None => NaN end.

(** [new Date(v).getTime()] for the values the pages can pass. *)
Definition time_of (v : value) : number :=
  match v with
  | VStr s => iso_time s
  | VNum n => n
  | VNull => Num 0
  | VBool b => Num (if b then 1 else 0)
  | _ => NaN
  end.


Definition browser : Browser := {|
  JSON_stringify := stringify;
  JSON_parse := parse_text;
  toISOString := iso_text;
  Date_getTime := time_of;
  String_of := coerce;
  TypeError_reading k :=
    Error ("Cannot read properties of null (reading '" +:+ k +:+ "')");
  SyntaxError_parsing s := Error "Unexpected token in JSON"
|}.

End Reference.

(** ** What a run did *)

Definition result_of {C A} (p : Prog C A) (c : C) (w : World) : A + error :=
  fst (run p c w).
Definition state_after {C A} (p : Prog C A) (c : C) (w : World) : C :=
  fst (snd (run p c w)).
Definition world_after {C A} (p : Prog C A) (c : C) (w : World) : World :=
  snd (snd (run p c w)).

(** The events a run adds to the log. *)
Definition effects {C A} (p : Prog C A) (c : C) (w : World) : list event :=
  drop (length (log w)) (log (world_after p c w)).

Fixpoint navigations (evs : list event) : list string :=
  match evs with
  | [] => []
  | Navigate path :: evs' => path :: navigations evs'
  | _ :: evs' => navigations evs'
  end.

Fixpoint toasts (evs : list event) : list toast_args :=
  match evs with
  | [] => []
  | ToastShown t :: evs' => t :: toasts evs'
  | _ :: evs' => toasts evs'
  end.

Fixpoint api_calls (evs : list event) : list api_call :=
  match evs with
  | [] => []
  | ApiCall c :: evs' => c :: api_calls evs'
  | _ :: evs' => api_calls evs'
  end.

(** The writes to [localStorage], in order. *)
Fixpoint storage_writes (evs : list event) : list event :=
  match evs with
  | [] => []
  | SetItem k v :: evs' => SetItem k v :: storage_writes evs'
  | RemoveItem k :: evs' => RemoveItem k :: storage_writes evs'
  | _ :: evs' => storage_writes evs'
  end.

(** The writes to [localStorage] and the requests, in the order in which
    they were made. *)
Fixpoint writes_and_calls (evs : list event) : list event :=
  match evs with
  | [] => []
  | SetItem k v :: evs' => SetItem k v :: writes_and_calls evs'
  | RemoveItem k :: evs' => RemoveItem k :: writes_and_calls evs'
  | ApiCall c :: evs' => ApiCall c :: writes_and_calls evs'
  | _ :: evs' => writes_and_calls evs'
  end.

(** A request that resolved with a response body to read from. *)
Definition delivered (o : outcome) : bool :=
  match o with
  | Resolved result => negb (nullish result)
  | Rejected _ => false
  end.

(** ** The checks of the forms and the branches of the handlers *)

(** The task form passes both checks of its [handleSubmit]. *)
Definition form_accepted (formData : TaskForm.FormData) : bool :=
  negb (TaskForm.incomplete formData)
  && test_digits (TaskForm.participantId formData).

(** All nine scales are answered. *)
Definition assessment_answered (st : TaskResults.State) : bool :=
  TaskResults.every_nonempty (TaskResults.nasaTlx_values (TaskResults.nasaTlx st))
  && TaskResults.every_nonempty (TaskResults.likert_values (TaskResults.likertResponses st)).

(** The assessment passes both checks of its [handleSubmit]. *)
Definition assessment_accepted (st : TaskResults.State) : bool :=
  assessment_answered st
  && truthy (optional_field "participantId" (TaskResults.taskData st)).

Section Branches.

Context `{Browser}.

(** Submitting the task form through the [catch] branch: the task stays
    stored. *)
Definition start_failed (formData : TaskForm.FormData) (now : Z) (e : error) (w : World)
  : (unit + error) * (TaskForm.FormData * World) :=
  let text := JSON_stringify (TaskForm.taskData formData now) in
  (inl tt,
   (formData,
    mkWorld (<["currentTask" := text]> (localStorage w))
      (log w ++
       [ PreventDefault;
         SetItem "currentTask" text;
         ApiCall (saveTaskDetailsAndStart (TaskForm.taskData formData now));
         ToastShown (Toast "Error"
                       (Some "Failed to start task session. Please try again.")
                       (Some "destructive"));
         ConsoleError "Error starting task session:" e ]))).

(** Ending the session through the [catch] branch, entered with the
    error [e]. *)
Definition failed_run (st : TaskSession.State) (now : Z) (e : error) (w : World)
  : (unit + error) * (TaskSession.State * World) :=
  let text :=
    JSON_stringify
      (VObj (obj_extend (spread (TaskSession.taskData st))
               [ ("endTime", VStr (toISOString now));
                 ("actualDuration", VNum (TaskSession.elapsedTime st));
                 ("interventionsStopped", VBool false);
                 ("error", VStr "Failed to stop interventions") ])) in
  (inl tt,
   (st,
    mkWorld (<["completedTask" := text]> (localStorage w))
      (log w ++
       [ ApiCall stopInterventions;
         ConsoleError "Error ending session:" e;
         SetItem "completedTask" text;
         ToastShown
           (Toast "Task session ended"
              (Some "Session saved, but failed to stop monitoring. Please check manually.")
              (Some "destructive"));
         Navigate "/task-results" ]))).

(** The storage after the three calls that follow a saved assessment. *)
Definition cleared (st : TaskResults.State) (now : Z) (ls : gmap string string) : gmap string string :=
  delete "completedTask"
    (delete "currentTask"
       (<["sessionResults" := JSON_stringify (TaskResults.assessmentData st now)]> ls)).

End Branches.

(** The timer of the session page firing at the times [nows]. *)
Fixpoint ticking (startTime : number) (nows : list Z) : Prog TaskSession.State unit :=
  match nows with
  | [] => mret tt
  | now :: later => TaskSession.tick startTime now ;; ticking startTime later
  end.

(** ** Numerals

    What the pattern [^\d+$] accepts: one or more characters, each of them
    a decimal digit. *)

Definition decimal_digit (c : ascii) : Prop :=
  (48 <= nat_of_ascii c <= 57)%nat.

Definition only_digits (s : string) : Prop :=
  s <> "" /\ Forall decimal_digit (list_ascii_of_string s).

(** ** The three steps of a study session

    Task setup, then the timed task session, then the post-task
    assessment; [hands_over_to] is the route on which the next step lives,
    the landing page after the last one. *)

Module Steps.

Inductive step : Type :=
| TaskSetup
| TimedSession
| Assessment.

Definition hands_over_to (s : step) : string :=
  match s with
  | TaskSetup => "/task-session"
  | TimedSession => "/task-results"
  | Assessment => "/"
  end.

End Steps.

(** ** A worked session

    The data of one participant, used to run the pages on the reference
    browser. *)

Module Demo.

Definition formData : TaskForm.FormData :=
  TaskForm.mkFormData "Asha" "42" "UG27" ["Coding"; "Writing"]
    "Summarise the lab notes" "30" "system1".

(** 2024-11-02T09:00:00.000Z, in milliseconds. *)
Definition started : Z := 1730538000000.

(** Twelve minutes and 34.5 seconds later. *)
Definition ended : Z := started + 754500.

Definition world : World := mkWorld ∅ [].

Definition task : value := @TaskForm.taskData Reference.browser formData started.

(** The session page twelve minutes and 34 seconds into the task. *)
Definition session : TaskSession.State := TaskSession.mkState task (Num 754) false.

Definition stop_ok : value :=
  VObj [("status", VStr "success"); ("message", VStr "Interventions stopped")].

Definition network_down : error := Error "Failed to fetch".

(** The record that ending the session at [ended] stores. *)
Definition completed : value :=
  VObj (obj_extend (spread task)
          [ ("endTime", VStr (Reference.iso_text ended));
            ("actualDuration", VNum (Num 754));
            ("interventionsStopped", VBool true) ]).

(** The assessment page with every scale answered. *)
Definition assessment : TaskResults.State :=
  TaskResults.mkState completed (Some (TaskResults.mkFile "notes.pdf")) false
    (TaskResults.mkNasaTlx "7" "1" "5" "8" "6" "2")
    (TaskResults.mkLikert "4" "5" "3").

Definition saved : value :=
  VObj [("isNewFile", VBool false); ("totalEntries", VNum (Num 3))].

(** The storage when the assessment page opens. *)
Definition stored : World :=
  mkWorld
    (<["completedTask" := Reference.stringify completed]>
       (<["currentTask" := Reference.stringify task]> ∅))
    [].

(** The whole session: the form is submitted, the session page opens,
    the timer ticks, the session is ended, the assessment page opens and
    the assessment is saved. *)
Definition whole_session : World :=
  let w1 := world_after (@TaskForm.handleSubmit Reference.browser formData started
                           (Resolved (VObj [("interventionsStarted", VBool true)])))
              formData world in
  let st1 := state_after (@TaskSession.mount Reference.browser) TaskSession.initial w1 in
  let w2 := world_after (@TaskSession.mount Reference.browser) TaskSession.initial w1 in
  let st2 := state_after (ticking (Num started) [started + 1000; ended]) st1 w2 in
  let w3 := world_after (@TaskSession.handleEndSession Reference.browser st2 ended
                           (Resolved stop_ok)) st2 w2 in
  let st3 := state_after (@TaskResults.mount Reference.browser) assessment w3 in
  let w4 := world_after (@TaskResults.mount Reference.browser) assessment w3 in
  world_after (@TaskResults.handleSubmit Reference.browser st3 (ended + 90000)
                 (Resolved saved)) st3 w4.

End Demo.

(** ** The change handlers of the forms

    [handleInputChange], [handleNasaTlxChange] and [handleLikertChange]
    pass the same updater to the setter of their piece of state:
    [(prev) => ({ ...prev, [field]: value })].  The updater works on the
    object; the typed state of the pages is read back from it. *)

Module Updaters.

(** [{ ...prev, [field]: value }] *)
Definition change (field value : string) (prev : obj) : obj :=
  obj_extend prev [(field, VStr value)].


(** The changes [(field, value)] of a sitting, applied in order. *)
Definition changes (events : list (string * string)) (o : obj) : obj :=
  fold_left (fun acc e => change (fst e) (snd e) acc) events o.

(** The value that the changes leave in [field], [start] when none of
    them names it. *)
Definition last_value (field : string) (start : string) (events : list (string * string))
  : string :=
  fold_left (fun acc e => if String.eqb (fst e) field then snd e else acc) events start.

End Updaters.

(** ** TaskForm: the handlers of the inputs *)

Module TaskFormInputs.






(** [c !== category] *)
Definition differs (category c : string) : bool := negb (String.eqb c category).

(** The updater of [handleCategoryChange]. *)
Definition handleCategoryChange (category : string) (checked : bool)
  (prev : TaskForm.FormData) : TaskForm.FormData :=
  TaskForm.mkFormData
    (TaskForm.name prev) (TaskForm.participantId prev) (TaskForm.batch prev)
    (if checked then TaskForm.category prev ++ [category]
     else List.filter (fun c => differs category c) (TaskForm.category prev))
    (TaskForm.taskDescription prev) (TaskForm.estimatedTime prev)
    (TaskForm.systemType prev).

(** [formData.category.includes(c)], the [checked] of a checkbox. *)
Definition includes (c : string) (f : TaskForm.FormData) : bool :=
  existsb (String.eqb c) (TaskForm.category f).

(** The changes [(category, checked)] of a sitting, applied in order. *)
Definition category_changes (events : list (string * bool)) (f : TaskForm.FormData)
  : TaskForm.FormData :=
  fold_left (fun acc e => handleCategoryChange (fst e) (snd e) acc) events f.

(** What the last of the changes says of [c]; [None] when none names it. *)
Definition last_change (c : string) (events : list (string * bool)) : option bool :=
  fold_left (fun acc e => if String.eqb (fst e) c then Some (snd e) else acc) events None.

End TaskFormInputs.

(** ** TaskResults: the handlers of the inputs *)

Module TaskResultsInputs.

Definition nasaTlx_of (o : obj) : option TaskResults.NasaTlx :=
  match o with
  | [ (k1, VStr mental); (k2, VStr physical); (k3, VStr temporal);
      (k4, VStr performance); (k5, VStr effort); (k6, VStr frustration) ] =>
      if String.eqb k1 "mental" && String.eqb k2 "physical" && String.eqb k3 "temporal"
         && String.eqb k4 "performance" && String.eqb k5 "effort"
         && String.eqb k6 "frustration"
      then Some (TaskResults.mkNasaTlx mental physical temporal performance effort frustration)
      else None
  | _ => None
  end.

Definition likert_of (o : obj) : option TaskResults.Likert :=
  match o with
  | [ (k1, VStr accuracy); (k2, VStr effectiveness); (k3, VStr personalisation) ] =>
      if String.eqb k1 "accuracy" && String.eqb k2 "effectiveness"
         && String.eqb k3 "personalisation"
      then Some (TaskResults.mkLikert accuracy effectiveness personalisation)
      else None
  | _ => None
  end.

(** The updaters of [handleNasaTlxChange] and [handleLikertChange]. *)
Definition handleNasaTlxChange (field value : string) (prev : obj) : obj :=
  Updaters.change field value prev.
Definition handleLikertChange (field value : string) (prev : obj) : obj :=
  Updaters.change field value prev.

(** The names with which the page renders its scales. *)
Definition nasaTlx_fields : list string :=
  ["mental"; "physical"; "temporal"; "performance"; "effort"; "frustration"].
Definition likert_fields : list string :=
  ["accuracy"; "effectiveness"; "personalisation"].

(** The values of the radio items: [num.toString()] for the eleven
    numbers from 0 of a NASA TLX scale and for the five of a Likert
    scale. *)
Definition nasaTlx_items : list string :=
  map (fun i => toString (Num (Z.of_nat i))) (seq 0 11).
Definition likert_items : list string :=
  map (fun i => toString (Num i)) [1; 2; 3; 4; 5].

Definition setUploadedFile (f : option TaskResults.File) (st : TaskResults.State)
  : TaskResults.State :=
  TaskResults.mkState (TaskResults.taskData st) f (TaskResults.isSubmitting st)
    (TaskResults.nasaTlx st) (TaskResults.likertResponses st).
Definition setNasaTlx (n : TaskResults.NasaTlx) (st : TaskResults.State)
  : TaskResults.State :=
  TaskResults.mkState (TaskResults.taskData st) (TaskResults.uploadedFile st)
    (TaskResults.isSubmitting st) n (TaskResults.likertResponses st).
Definition setLikertResponses (l : TaskResults.Likert) (st : TaskResults.State)
  : TaskResults.State :=
  TaskResults.mkState (TaskResults.taskData st) (TaskResults.uploadedFile st)
    (TaskResults.isSubmitting st) (TaskResults.nasaTlx st) l.

(** [handleFileUpload], the input reporting the selection [files]
    ([None] is [null]): the first file is kept, and nothing happens
    without one. *)
Definition handleFileUpload (files : option (list TaskResults.File))
  : Prog TaskResults.State unit :=
  match files with
  | Some (file :: _) => setState (setUploadedFile (Some file))
  | Some [] | None => mret tt
  end.

(** The selections of a sitting, reported in order. *)
Fixpoint uploads (selections : list (option (list TaskResults.File)))
  : Prog TaskResults.State unit :=
  match selections with
  | [] => mret tt
  | files :: later => handleFileUpload files ;; uploads later
  end.

(** The file that the selections leave, [start] when none of them has a
    file. *)
Definition last_file (start : option TaskResults.File)
  (selections : list (option (list TaskResults.File))) : option TaskResults.File :=
  fold_left
    (fun acc files =>
       match files with
       | Some (file :: _) => Some file
       | _ => acc
       end)
    selections start.

(** The page after the participant has answered: the changes of the NASA
    TLX scales and of the Likert scales applied to the answers of [st];
    [None] when an answer object is no longer of its type. *)
Definition answered_with (nasa likert : list (string * string)) (st : TaskResults.State)
  : option TaskResults.State :=
  match nasaTlx_of
          (fold_left (fun prev e => handleNasaTlxChange (fst e) (snd e) prev) nasa
             (spread (TaskResults.nasaTlx_obj (TaskResults.nasaTlx st)))),
        likert_of
          (fold_left (fun prev e => handleLikertChange (fst e) (snd e) prev) likert
             (spread (TaskResults.likert_obj (TaskResults.likertResponses st)))) with
  | Some n, Some l => Some (setLikertResponses l (setNasaTlx n st))
  | _, _ => None
  end.

(** Every change names one of [fields]. *)
Definition named (fields : list string) (events : list (string * string)) : bool :=
  forallb (fun e => existsb (String.eqb (fst e)) fields) events.

(** Every one of [fields] is named by a change. *)
Definition covered (fields : list string) (events : list (string * string)) : bool :=
  forallb (fun f => existsb (fun e => String.eqb (fst e) f) events) fields.

(** The answers in which every scale holds the last value given to it. *)
Definition nasaTlx_after (events : list (string * string)) (n : TaskResults.NasaTlx)
  : TaskResults.NasaTlx :=
  TaskResults.mkNasaTlx
    (Updaters.last_value "mental" (TaskResults.mental n) events)
    (Updaters.last_value "physical" (TaskResults.physical n) events)
    (Updaters.last_value "temporal" (TaskResults.temporal n) events)
    (Updaters.last_value "performance" (TaskResults.performance n) events)
    (Updaters.last_value "effort" (TaskResults.effort n) events)
    (Updaters.last_value "frustration" (TaskResults.frustration n) events).
Definition likert_after (events : list (string * string)) (l : TaskResults.Likert)
  : TaskResults.Likert :=
  TaskResults.mkLikert
    (Updaters.last_value "accuracy" (TaskResults.accuracy l) events)
    (Updaters.last_value "effectiveness" (TaskResults.effectiveness l) events)
    (Updaters.last_value "personalisation" (TaskResults.personalisation l) events).

End TaskResultsInputs.

(** ** ApiService: the methods, with what they log

    A method that sends data ([saveTaskDetailsAndStart],
    [stopInterventions], [saveAssessment], [saveFeedback]) reports the
    message of a response that is not [ok], or its own when the response
    has none; a method that only reads ([getStatus], [getTaskDetails])
    reports its own.  Every method logs what it catches under its label
    and throws it again. *)

Module ApiMethods.

Section Methods.

Context `{Browser} {C : Type}.

Definition logged (label : string) (body : Prog C value) : Prog C value :=
  try_catch body (fun error => console_error label error ;; throw error).

(** [await response.json()] *)
Definition json (body : value + error) : Prog C value :=
  match body with
  | inl result => mret result
  | inr e => throw e
  end.

Definition sending (label failure : string) (f : ApiService.fetched) : Prog C value :=
  logged label
    (match f with
     | ApiService.Failed e => throw e
     | ApiService.Response ok body =>
         result ← json body;
         if negb ok then
           message ← get result "message";
           throw (Error (if falsy message then failure else String_of message))
         else mret result
     end).

Definition reading (label failure : string) (f : ApiService.fetched) : Prog C value :=
  logged label
    (match f with
     | ApiService.Failed e => throw e
     | ApiService.Response ok body =>
         result ← json body;
         if negb ok then throw (Error failure) else mret result
     end).

(** A method that settles as [o]: it gives the value, or logs the error
    under [label] and throws it. *)
Definition settled (label : string) (o : outcome) (c : C) (w : World)
  : (value + error) * (C * World) :=
  match o with
  | Resolved result => (inl result, (c, w))
  | Rejected e =>
      (inr e, (c, mkWorld (localStorage w) (log w ++ [ConsoleError label e])))
  end.

(** How a method that only reads settles. *)
Definition read (failure : string) (f : ApiService.fetched) : outcome :=
  match f with
  | ApiService.Failed e => Rejected e
  | ApiService.Response _ (inr e) => Rejected e
  | ApiService.Response ok (inl result) =>
      if ok then Resolved result else Rejected (Error failure)
  end.

Definition saveTaskDetailsAndStart : ApiService.fetched -> Prog C value :=
  sending "Error saving task details:" "Failed to save task details".
Definition stopInterventions : ApiService.fetched -> Prog C value :=
  sending "Error stopping interventions:" "Failed to stop interventions".
Definition saveAssessment : ApiService.fetched -> Prog C value :=
  sending "Error saving assessment:" "Failed to save assessment".
Definition saveFeedback : ApiService.fetched -> Prog C value :=
  sending "Error saving feedback:" "Failed to save feedback".
Definition getStatus : ApiService.fetched -> Prog C value :=
  reading "Error getting status:" "Failed to get status".
Definition getTaskDetails : ApiService.fetched -> Prog C value :=
  reading "Error getting task details:" "Failed to get task details".

End Methods.

End ApiMethods.

(** ** From the form to the assessment

    The record that [handleEndSession] stores, and the three pages run
    one after the other. *)

Module Flow.

Section Records.

Context `{Browser}.

(** The request resolved, with a body or without. *)
Definition resolved (o : outcome) : bool :=
  match o with
  | Resolved _ => true
  | Rejected _ => false
  end.

(** Whether the record says that the interventions were stopped. *)
Definition stopped (o : outcome) : bool :=
  match o with
  | Resolved result => is_string (field "status" result) "success"
  | Rejected _ => false
  end.

(** The [sessionData] of the branch that the outcome [o] selects. *)
Definition sessionData (st : TaskSession.State) (now : Z) (o : outcome) : obj :=
  obj_extend (spread (TaskSession.taskData st))
    (if delivered o then
       [ ("endTime", VStr (toISOString now));
         ("actualDuration", VNum (TaskSession.elapsedTime st));
         ("interventionsStopped", VBool (stopped o)) ]
     else
       [ ("endTime", VStr (toISOString now));
         ("actualDuration", VNum (TaskSession.elapsedTime st));
         ("interventionsStopped", VBool false);
         ("error", VStr "Failed to stop interventions") ]).

(** The session page as its timer shows [elapsed], mounted on the storage
    that the task form leaves. *)
Definition session (formData : TaskForm.FormData) (started : Z) (start : outcome)
  (elapsed : number) (w : World) : TaskSession.State * World :=
  let w1 := world_after (TaskForm.handleSubmit formData started start) formData w in
  (TaskSession.setElapsedTime elapsed
     (state_after TaskSession.mount TaskSession.initial w1),
   world_after TaskSession.mount TaskSession.initial w1).

(** The assessment page mounted on the storage that ending that session
    leaves. *)
Definition assessment (formData : TaskForm.FormData) (started : Z) (start : outcome)
  (elapsed : number) (ended : Z) (stop : outcome) (w : World)
  : TaskResults.State * World :=
  let '(st2, w2) := session formData started start elapsed w in
  let w3 := world_after (TaskSession.handleEndSession st2 ended stop) st2 w2 in
  (state_after TaskResults.mount TaskResults.initial w3,
   world_after TaskResults.mount TaskResults.initial w3).

End Records.

End Flow.

(** * Properties *)

(** ** The timer display *)

Section FormatTime.

Import Duration.

Lemma toString_of_N (n : N) : toString (Num (Z.of_N n)) = decimal n.
Proof. destruct n; reflexivity. Qed.

Lemma is_digit_not_colon (c : ascii) : is_digit c = true -> Ascii.eqb c ":" = false.
Proof.
  destruct c as [[] [] [] [] [] [] [] []]; simpl; intros E;
    first [reflexivity | discriminate E].
Qed.

Lemma all_digits_uint (d : Decimal.uint) :
  all_digits (NilEmpty.string_of_uint d) = true.
Proof. induction d; simpl; auto. Qed.

Lemma all_digits_decimal (n : N) : all_digits (decimal n) = true.
Proof.
  unfold decimal, NilZero.string_of_uint.
  destruct (N.to_uint n) eqn:E; try reflexivity;
    rewrite <- E; apply all_digits_uint.
Qed.

Lemma read_decimal_decimal (n : N) : read_decimal (decimal n) = Some n.
Proof.
  unfold read_decimal, decimal.
  destruct n as [|p]; [reflexivity|].
  rewrite NilZero.usu by apply DecimalPos.Unsigned.to_uint_nonnil.
  simpl. f_equal. apply (DecimalN.Unsigned.of_to (Npos p)).
Qed.

Lemma below_100_spec (n : N) : (n < 100)%N -> In n below_100.
Proof.
  intros Hn. unfold below_100.
  rewrite <- (N2Nat.id n). apply in_map, in_seq. lia.
Qed.

Lemma check_below_100 (f : N -> bool) :
  forallb f below_100 = true -> forall n, (n < 100)%N -> f n = true.
Proof.
  intros Hall n Hn. rewrite forallb_forall in Hall.
  apply Hall, below_100_spec, Hn.
Qed.

Lemma padStart0_two_digits (n : N) :
  (n < 100)%N -> padStart0 2 (decimal n) = two_digits n.
Proof.
  intros Hn. apply String.eqb_eq.
  revert n Hn.
  apply (check_below_100 (fun n => String.eqb (padStart0 2 (decimal n)) (two_digits n))).
  vm_compute. reflexivity.
Qed.

Lemma read_two_digits (n : N) :
  (n < 100)%N -> read_decimal (two_digits n) = Some n.
Proof.
  intros Hn.
  assert (E : (match read_decimal (two_digits n) with
               | Some m => N.eqb m n
               | None => false
               end) = true).
  { revert n Hn.
    apply (check_below_100 (fun n => match read_decimal (two_digits n) with
                                     | Some m => N.eqb m n
                                     | None => false
                                     end)).
    vm_compute. reflexivity. }
  destruct (read_decimal (two_digits n)); [|discriminate E].
  apply N.eqb_eq in E. now subst.
Qed.

Lemma all_digits_two_digits (n : N) :
  (n < 100)%N -> all_digits (two_digits n) = true.
Proof.
  revert n.
  apply (check_below_100 (fun n => all_digits (two_digits n))).
  vm_compute. reflexivity.
Qed.

Lemma split_on_digits (a : string) :
  all_digits a = true -> split_on ":" a = [a].
Proof.
  induction a as [|c a IH]; simpl; [reflexivity|].
  intros H. apply andb_prop in H as [Hc Ha].
  rewrite (is_digit_not_colon c Hc), (IH Ha). reflexivity.
Qed.

Lemma split_on_field (a b : string) :
  all_digits a = true ->
  split_on ":" (a +:+ String ":" b) = a :: split_on ":" b.
Proof.
  induction a as [|c a IH]; simpl; [reflexivity|].
  intros H. apply andb_prop in H as [Hc Ha].
  rewrite (is_digit_not_colon c Hc), (IH Ha). reflexivity.
Qed.

Lemma read_minutes_seconds (m s : N) :
  (s < 100)%N ->
  read (decimal m +:+ ":" +:+ two_digits s) = Some (seconds_of 0 m s).
Proof.
  intros Hs. unfold read.
  change (":" +:+ two_digits s) with (String ":" (two_digits s)).
  rewrite split_on_field by apply all_digits_decimal.
  rewrite split_on_digits by now apply all_digits_two_digits.
  now rewrite read_decimal_decimal, read_two_digits.
Qed.

Lemma read_hours_minutes_seconds (h m s : N) :
  (m < 100)%N -> (s < 100)%N ->
  read (decimal h +:+ ":" +:+ two_digits m +:+ ":" +:+ two_digits s)
  = Some (seconds_of h m s).
Proof.
  intros Hm Hs. unfold read.
  change (":" +:+ two_digits m +:+ ":" +:+ two_digits s)
    with (String ":" (two_digits m +:+ String ":" (two_digits s))).
  rewrite split_on_field by apply all_digits_decimal.
  rewrite split_on_field by now apply all_digits_two_digits.
  rewrite split_on_digits by now apply all_digits_two_digits.
  now rewrite read_decimal_decimal, !read_two_digits.
Qed.

(** The three numbers that [formatTime] computes from [s] seconds. *)
Lemma formatTime_fields (s : N) :
  floor_div (Num (Z.of_N s)) 3600 = Num (Z.of_N (s / 3600))
  /\ floor_div (rem (Num (Z.of_N s)) 3600) 60 = Num (Z.of_N ((s mod 3600) / 60))
  /\ rem (Num (Z.of_N s)) 60 = Num (Z.of_N (s mod 60)).
Proof.
  unfold floor_div, rem.
  change 3600 with (Z.of_N 3600). change 60 with (Z.of_N 60).
  now rewrite <- !N2Z.inj_rem, <- !N2Z.inj_div.
Qed.

(** With the exact division of [JS.floor_div], [formatTime] prints every
    natural number of seconds [s] as ["M:SS"] or ["H:MM:SS"], and the text
    reads back as [s]. *)
Lemma formatTime_exact (s : N) :
  let h := (s / 3600)%N in
  let m := ((s mod 3600) / 60)%N in
  let sec := (s mod 60)%N in
  TaskSession.formatTime (Num (Z.of_N s))
  = (if (s <? 3600)%N
     then decimal m +:+ ":" +:+ two_digits sec
     else decimal h +:+ ":" +:+ two_digits m +:+ ":" +:+ two_digits sec)
  /\ (m < 60)%N /\ (sec < 60)%N
  /\ seconds_of h m sec = s
  /\ read (TaskSession.formatTime (Num (Z.of_N s))) = Some s.
Proof.
  intros h m sec.
  assert (Hm : (m < 60)%N).
  { subst m. apply N.Div0.div_lt_upper_bound.
    change (60 * 60)%N with 3600%N. now apply N.mod_lt. }
  assert (Hsec : (sec < 60)%N) by (subst sec; now apply N.mod_lt).
  assert (Hsum : seconds_of h m sec = s).
  { unfold seconds_of. subst h m sec.
    pose proof (N.div_mod s 3600 ltac:(discriminate)) as E1.
    pose proof (N.div_mod (s mod 3600) 60 ltac:(discriminate)) as E2.
    assert (E3 : ((s mod 3600) mod 60 = s mod 60)%N).
    { change 3600%N with (60 * 60)%N.
      rewrite N.Div0.mod_mul_r.
      rewrite (N.mul_comm 60), N.Div0.mod_add.
      apply N.Div0.mod_mod. }
    lia. }
  assert (Hh : (s <? 3600)%N = true <-> h = 0%N).
  { rewrite N.ltb_lt. subst h. symmetry. apply N.div_small_iff. discriminate. }
  assert (Hfmt : TaskSession.formatTime (Num (Z.of_N s))
    = (if (s <? 3600)%N
       then decimal m +:+ ":" +:+ two_digits sec
       else decimal h +:+ ":" +:+ two_digits m +:+ ":" +:+ two_digits sec)).
  { unfold TaskSession.formatTime.
    destruct (formatTime_fields s) as (-> & -> & ->).
    fold h m sec. rewrite !toString_of_N.
    rewrite !padStart0_two_digits by lia.
    unfold gtb.
    destruct (s <? 3600)%N.
    - rewrite (proj1 Hh eq_refl). reflexivity.
    - assert (h <> 0%N) by (intros E'; apply Hh in E'; discriminate E').
      replace (0 <? Z.of_N h) with true by (symmetry; apply Z.ltb_lt; lia).
      reflexivity. }
  repeat split; try assumption.
  rewrite Hfmt. destruct (s <? 3600)%N.
  - rewrite (proj1 Hh eq_refl) in Hsum.
    rewrite read_minutes_seconds by lia. now rewrite Hsum.
  - rewrite read_hours_minutes_seconds by lia. now rewrite Hsum.
Qed.


(** *** The division of the doubles *)

Lemma half_even_bounds (num den : Z) :
  0 < den ->
  Double.half_even num den = num / den
  \/ (Double.half_even num den = num / den + 1 /\ den <= 2 * (num mod den)).
Proof.
  intros D. unfold Double.half_even.
  destruct (Z.ltb_spec (2 * (num mod den)) den); [now left|].
  destruct (Z.ltb_spec den (2 * (num mod den))); [right; lia|].
  destruct (Z.even (num / den)); [now left | right; lia].
Qed.

(** The quotient of a number below 2^53 by [d >= 2] is scaled up, and by
    enough to have 53 bits. *)
Lemma exponent_normal (x d : Z) :
  0 < x < 2 ^ 53 -> 2 <= d ->
  Double.exponent x d < 0 /\ 2 ^ 52 * d <= x * 2 ^ (- Double.exponent x d).
Proof.
  intros X D. unfold Double.exponent.
  assert (Lx : 0 <= Z.log2 x < 53).
  { split; [apply Z.log2_nonneg|]. apply Z.log2_lt_pow2; lia. }
  assert (Ld : 1 <= Z.log2 d).
  { change 1 with (Z.log2 2). apply Z.log2_le_mono. lia. }
  set (e0 := Z.log2 x - Z.log2 d - 52).
  assert (E0 : e0 < 0) by (subst e0; lia).
  unfold Double.scaled. destruct (Z.leb_spec 0 e0) as [|_]; [lia|]. cbn [fst snd].
  destruct (Z.ltb_spec (x * 2 ^ (- e0)) (2 ^ 52 * d)) as [Lt|Ge].
  - split; [lia|].
    replace (- (e0 - 1)) with (- e0 + 1) by lia.
    rewrite Z.pow_add_r by lia. change (2 ^ 1) with 2.
    destruct (Z.log2_spec x ltac:(lia)) as [Xl _].
    destruct (Z.log2_spec d ltac:(lia)) as [_ Du].
    assert (P : 2 ^ Z.log2 x * 2 ^ (- e0) = 2 ^ 52 * 2 ^ Z.log2 d).
    { rewrite <- !Z.pow_add_r by lia. f_equal. subst e0. lia. }
    rewrite Z.pow_succ_r in Du by lia.
    assert (0 < 2 ^ (- e0)) by (apply Z.pow_pos_nonneg; lia).
    nia.
  - split; [lia | exact Ge].
Qed.

(** Below 2^53 the rounding of the quotient never reaches the next whole
    number: the division of the doubles, floored, is the exact one. *)
Lemma double_floor_div_exact (x d : Z) :
  0 <= x < 2 ^ 53 -> 2 <= d -> Double.floor_div x d = x / d.
Proof.
  intros X D. unfold Double.floor_div.
  destruct (Z.eqb_spec x 0) as [->|N]; [reflexivity|].
  rewrite Z.abs_eq by lia.
  destruct (exponent_normal x d ltac:(lia) D) as [E Nm].
  set (e := Double.exponent x d) in *.
  unfold Double.scaled. destruct (Z.leb_spec 0 e) as [|_]; [lia|]. cbn [fst snd].
  destruct (Z.ltb_spec x 0) as [|_]; [lia|].
  set (P := 2 ^ (- e)) in *.
  assert (HP : 0 < P) by (apply Z.pow_pos_nonneg; lia).
  assert (HdP : d < 2 * P) by nia.
  pose proof (Z.div_mod x d ltac:(lia)) as Ex.
  pose proof (Z.mod_pos_bound x d ltac:(lia)) as Bx.
  pose proof (Z.div_mod (x * P) d ltac:(lia)) as Ey.
  pose proof (Z.mod_pos_bound (x * P) d ltac:(lia)) as By.
  set (Q := x / d) in *. set (R := x mod d) in *.
  set (q := x * P / d) in *. set (r := (x * P) mod d) in *.
  assert (Lo : Q * P <= q) by nia.
  assert (Hi : q < (Q + 1) * P) by nia.
  destruct (half_even_bounds (x * P) d ltac:(lia)) as [M|[M Up]];
    fold q r in M; try fold r in Up; rewrite M.
  - symmetry. apply Z.div_unique with (q - Q * P); lia.
  - assert (Hi' : q + 1 < (Q + 1) * P) by nia.
    symmetry. apply Z.div_unique with (q + 1 - Q * P); lia.
Qed.

(** Below 2^53, [formatTime] on the doubles is [formatTime] with the exact
    division. *)
Lemma double_formatTime_exact (s : Z) :
  0 <= s < 2 ^ 53 ->
  Double.formatTime s = Some (TaskSession.formatTime (Num s)).
Proof.
  intros S. unfold Double.formatTime, TaskSession.formatTime, floor_div, rem, gtb.
  pose proof (Z.rem_bound_pos s 3600 ltac:(lia) ltac:(lia)) as B1.
  pose proof (Z.rem_bound_pos s 60 ltac:(lia) ltac:(lia)) as B2.
  change (2 ^ 53) with 9007199254740992 in *.
  rewrite (double_floor_div_exact s 3600) by (change (2 ^ 53) with 9007199254740992; lia).
  rewrite (double_floor_div_exact (Z.rem s 3600) 60)
    by (change (2 ^ 53) with 9007199254740992; lia).
  assert (H1 : 0 <= s / 3600 < 9007199254740992).
  { split; [apply Z.div_pos; lia|]. apply Z.div_lt_upper_bound; lia. }
  assert (H2 : 0 <= Z.rem s 3600 / 60 < 9007199254740992).
  { split; [apply Z.div_pos; lia|]. apply Z.div_lt_upper_bound; lia. }
  unfold Double.toString. change (2 ^ 53) with 9007199254740992.
  rewrite !Z.abs_eq by lia.
  replace (s / 3600 <? 9007199254740992) with true by (symmetry; apply Z.ltb_lt; lia).
  replace (Z.rem s 3600 / 60 <? 9007199254740992) with true
    by (symmetry; apply Z.ltb_lt; lia).
  replace (Z.rem s 60 <? 9007199254740992) with true by (symmetry; apply Z.ltb_lt; lia).
  destruct (0 <? s / 3600); reflexivity.
Qed.

(** C9, as the code has it.  For every natural number of seconds [s]
    below 2^53, [formatTime s], computed with the division of JavaScript's
    numbers, is ["M:SS"] when [s < 3600] and ["H:MM:SS"] otherwise: hours
    (and, below one hour, minutes) are printed without padding, the fields
    after a colon on exactly two digits; and reading the fields back as
    [hours * 3600 + minutes * 60 + seconds] gives [s] again. *)
Theorem formatTime_round_trip_below_2_53 (s : N) :
  (s < 2 ^ 53)%N ->
  let h := (s / 3600)%N in
  let m := ((s mod 3600) / 60)%N in
  let sec := (s mod 60)%N in
  exists text : string,
    Double.formatTime (Z.of_N s) = Some text
    /\ TaskSession.formatTime (Num (Z.of_N s)) = text
    /\ text
       = (if (s <? 3600)%N
          then decimal m +:+ ":" +:+ two_digits sec
          else decimal h +:+ ":" +:+ two_digits m +:+ ":" +:+ two_digits sec)
    /\ (m < 60)%N /\ (sec < 60)%N
    /\ seconds_of h m sec = s
    /\ read text = Some s.
Proof.
  intros B h m sec.
  destruct (formatTime_exact s) as (F & Hm & Hsec & Hsum & R).
  exists (TaskSession.formatTime (Num (Z.of_N s))).
  split; [|repeat split; assumption].
  apply double_formatTime_exact.
  apply N2Z.inj_lt in B. rewrite N2Z.inj_pow in B. cbn in B. lia.
Qed.

End FormatTime.

Lemma formatTime_round_trip_below_2_53_witness :
  Double.formatTime 3725 = Some "1:02:05" /\ Duration.read "1:02:05" = Some 3725%N.
Proof.
  destruct (formatTime_round_trip_below_2_53 3725 eq_refl)
    as (text & F & E & _ & _ & _ & _ & R).
  vm_compute in E. subst text. split; [exact F | exact R].
Defined.

(** C9, as the specification states it, fails for large numbers of
    seconds.  The double [3600 * 2^52 + 2048] has 2^52 whole hours; its
    quotient by 3600 lies between 2^52 and 2^53, where the doubles are the
    whole numbers, and is rounded up to [2^52 + 1] before [Math.floor]
    sees it.  The text printed reads back as one hour more. *)
Lemma formatTime_round_trip_counterexample :
  let s := 3600 * 2 ^ 52 + 2048 in
  Double.representable s = true
  /\ s / 3600 = 2 ^ 52
  /\ Double.floor_div s 3600 = 2 ^ 52 + 1
  /\ Double.formatTime s = Some "4503599627370497:34:08"
  /\ Duration.read "4503599627370497:34:08" = Some (Z.to_N s + 3600)%N.
Proof. vm_compute. repeat split; reflexivity. Qed.

(** ** Running the handlers *)

Section Run.

Context {C : Type}.

Lemma run_ret {A} (a : A) (c : C) (w : World) :
  run (mret a) c w = (inl a, (c, w)).
Proof. reflexivity. Qed.

Lemma run_bind {A B} (m : Prog C A) (k : A -> Prog C B) (c : C) (w : World) :
  run (m ≫= k) c w
  = match run m c w with
    | (inl a, (c', w')) => run (k a) c' w'
    | (inr e, s') => (inr e, s')
    end.
Proof. unfold run, mbind, prog_bind. destruct (m (c, w)) as [[a|e] [c' w']]; reflexivity. Qed.

Lemma run_throw {A} (e : error) (c : C) (w : World) :
  run (throw e : Prog C A) c w = (inr e, (c, w)).
Proof. reflexivity. Qed.

Lemma run_try_catch {A} (body : Prog C A) (handler : error -> Prog C A) c w :
  run (try_catch body handler) c w
  = match run body c w with
    | (inl a, s') => (inl a, s')
    | (inr e, (c', w')) => run (handler e) c' w'
    end.
Proof. unfold run, try_catch. destruct (body (c, w)) as [[a|e] [c' w']]; reflexivity. Qed.

Lemma run_try_finally {A} (body : Prog C A) (cleanup : Prog C unit) c w :
  run (try_finally body cleanup) c w
  = match run body c w with
    | (r, (c', w')) =>
        match run cleanup c' w' with
        | (inl _, s'') => (r, s'')
        | (inr e, s'') => (inr e, s'')
        end
    end.
Proof. unfold run, try_finally. destruct (body (c, w)) as [r [c' w']]; reflexivity. Qed.

Lemma run_setState (f : C -> C) c w :
  run (setState f) c w = (inl tt, (f c, w)).
Proof. reflexivity. Qed.

Lemma run_emit (e : event) (c : C) w :
  run (emit e) c w = (inl tt, (c, mkWorld (localStorage w) (log w ++ [e]))).
Proof. reflexivity. Qed.

Lemma run_getItem (key : string) (c : C) w :
  run (getItem key) c w = (inl (localStorage w !! key), (c, w)).
Proof. reflexivity. Qed.

Lemma run_setItem (key data : string) (c : C) w :
  run (setItem key data) c w
  = (inl tt, (c, mkWorld (<[key := data]> (localStorage w)) (log w ++ [SetItem key data]))).
Proof. reflexivity. Qed.

Lemma run_removeItem (key : string) (c : C) w :
  run (removeItem key) c w
  = (inl tt, (c, mkWorld (delete key (localStorage w)) (log w ++ [RemoveItem key]))).
Proof. reflexivity. Qed.

Lemma run_await_resolved (call : api_call) (result : value) (c : C) w :
  run (await call (Resolved result)) c w
  = (inl result, (c, mkWorld (localStorage w) (log w ++ [ApiCall call]))).
Proof. reflexivity. Qed.

Lemma run_await_rejected (call : api_call) (e : error) (c : C) w :
  run (await call (Rejected e)) c w
  = (inr e, (c, mkWorld (localStorage w) (log w ++ [ApiCall call]))).
Proof. reflexivity. Qed.

Lemma run_get `{Browser} (v : value) (k : string) (c : C) w :
  run (get v k) c w
  = if nullish v then (inr (TypeError_reading k), (c, w)) else (inl (field k v), (c, w)).
Proof. unfold run, get. destruct (nullish v); reflexivity. Qed.

Lemma run_parse `{Browser} (text : string) (c : C) w :
  run (parse text) c w
  = match JSON_parse text with
    | Some v => (inl v, (c, w))
    | None => (inr (SyntaxError_parsing text), (c, w))
    end.
Proof. unfold run, parse. destruct (JSON_parse text); reflexivity. Qed.

Lemma run_if {A} (b : bool) (p q : Prog C A) c w :
  run (if b then p else q) c w = if b then run p c w else run q c w.
Proof. destruct b; reflexivity. Qed.

End Run.

#[global] Opaque run.

Ltac run_step :=
  first
    [ rewrite run_bind | rewrite run_ret | rewrite run_throw
    | rewrite run_try_catch | rewrite run_try_finally
    | rewrite run_setState | rewrite run_emit
    | rewrite run_getItem | rewrite run_setItem | rewrite run_removeItem
    | rewrite run_await_resolved | rewrite run_await_rejected
    | rewrite run_get | rewrite run_parse | rewrite run_if
    | progress cbn beta iota zeta delta [localStorage log fst snd]
    | progress rewrite <- app_assoc
    | progress cbn [app] ].

Ltac run_prog :=
  unfold toast, navigate, console_error, window_open, preventDefault;
  repeat run_step.

(** ** Objects *)

Section Objects.

Lemma obj_get_set_eq (k : string) (v : value) (o : obj) :
  obj_get k (obj_set k v o) = Some v.
Proof.
  induction o as [|[k' v'] o IH]; simpl.
  - now rewrite String.eqb_refl.
  - destruct (String.eqb k k') eqn:E; simpl.
    + now rewrite String.eqb_refl.
    + now rewrite E.
Qed.

Lemma obj_get_set_ne (k k' : string) (v : value) (o : obj) :
  k <> k' -> obj_get k (obj_set k' v o) = obj_get k o.
Proof.
  intros Hne. induction o as [|[k0 v0] o IH]; simpl.
  - now rewrite (proj2 (String.eqb_neq k k') Hne).
  - destruct (String.eqb k' k0) eqn:E; simpl.
    + apply String.eqb_eq in E. subst k0.
      now rewrite (proj2 (String.eqb_neq k k') Hne).
    + now rewrite IH.
Qed.

Lemma obj_keys_set (k : string) (v : value) (o : obj) :
  forall k', In k' (obj_keys (obj_set k v o)) <-> k' = k \/ In k' (obj_keys o).
Proof.
  unfold obj_keys. induction o as [|[k0 v0] o IH]; intros k'; simpl.
  - intuition.
  - destruct (String.eqb k k0) eqn:E; simpl.
    + apply String.eqb_eq in E. subst k0. intuition.
    + rewrite IH. intuition.
Qed.

(** A property is defined exactly when its name is among the keys. *)
Lemma obj_get_keys (k : string) (o : obj) :
  In k (obj_keys o) <-> exists v, obj_get k o = Some v.
Proof.
  unfold obj_keys. induction o as [|[k0 v0] o IH]; simpl.
  - split; [intros [] | intros [v Hv]; discriminate].
  - destruct (String.eqb k k0) eqn:E.
    + apply String.eqb_eq in E. subst k0. split; eauto.
    + apply String.eqb_neq in E. rewrite <- IH. intuition congruence.
Qed.

(** Reading [{ ...o, k1: v1, ..., kn: vn }]: the last of the listed
    definitions of [k] wins, and an unlisted [k] is read from [o]. *)
Lemma obj_get_extend (k : string) (ps o : obj) :
  obj_get k (obj_extend o ps)
  = match obj_get k (rev ps) with
    | Some v => Some v
    | None => obj_get k o
    end.
Proof.
  unfold obj_extend. revert o.
  induction ps as [|[k1 v1] ps IH]; intros o; simpl; [reflexivity|].
  rewrite IH.
  assert (Hrev : forall l : obj,
    obj_get k (l ++ [(k1, v1)])
    = match obj_get k l with
      | Some v => Some v
      | None => if String.eqb k k1 then Some v1 else None
      end).
  { induction l as [|[k2 v2] l IHl]; simpl; [reflexivity|].
    destruct (String.eqb k k2); [reflexivity | apply IHl]. }
  rewrite Hrev.
  destruct (obj_get k (rev ps)); [reflexivity|].
  destruct (String.eqb k k1) eqn:E.
  - apply String.eqb_eq in E. subst. apply obj_get_set_eq.
  - apply String.eqb_neq in E. now apply obj_get_set_ne.
Qed.

Lemma obj_keys_extend (ps o : obj) :
  forall k, In k (obj_keys (obj_extend o ps)) <-> In k (obj_keys o) \/ In k (obj_keys ps).
Proof.
  unfold obj_extend. revert o.
  induction ps as [|[k1 v1] ps IH]; intros o k; simpl.
  - tauto.
  - rewrite IH, obj_keys_set. intuition congruence.
Qed.

End Objects.

Section Runs.

Context {C A : Type}.

Lemma effects_run (p : Prog C A) (c c' : C) (w : World) r ls evs :
  run p c w = (r, (c', mkWorld ls (log w ++ evs))) -> effects p c w = evs.
Proof.
  intros E. unfold effects, world_after. rewrite E. simpl.
  apply drop_app_length.
Qed.

End Runs.

(** ** Requests *)

Section Requests.

Context `{Browser}.

(** A request resolves exactly when the response is [ok] and its body is
    JSON, and then with that body, whatever it is. *)
Lemma request_resolves (failure : string) (f : ApiService.fetched) (result : value) :
  ApiService.request failure f = Resolved result
  <-> f = ApiService.Response true (inl result).
Proof.
  split.
  - destruct f as [e|ok [body|e]]; simpl; try discriminate.
    destruct ok; simpl.
    + now intros [= ->].
    + destruct (nullish body); discriminate.
  - intros ->. reflexivity.
Qed.

End Requests.

(** ** Ending a task session *)

Section EndSession.

Context `{Browser}.

Import TaskSession.

(** The record that the [catch] branch stores. *)
Lemma failed_record (o : obj) (endTime : string) (elapsed : number) :
  let sessionData :=
    obj_extend o
      [ ("endTime", VStr endTime);
        ("actualDuration", VNum elapsed);
        ("interventionsStopped", VBool false);
        ("error", VStr "Failed to stop interventions") ] in
  obj_get "endTime" sessionData = Some (VStr endTime)
  /\ obj_get "actualDuration" sessionData = Some (VNum elapsed)
  /\ obj_get "interventionsStopped" sessionData = Some (VBool false)
  /\ obj_get "error" sessionData = Some (VStr "Failed to stop interventions")
  /\ (forall k, In k (obj_keys o) -> In k (obj_keys sessionData))
  /\ (forall k,
        ~ In k ["endTime"; "actualDuration"; "interventionsStopped"; "error"] ->
        obj_get k sessionData = obj_get k o).
Proof.
  intros sessionData. subst sessionData.
  repeat split; try (rewrite obj_get_extend; reflexivity).
  - intros k Hk. apply obj_keys_extend. now left.
  - intros k Hk. rewrite obj_get_extend. simpl.
    repeat match goal with
    | |- context [String.eqb k ?x] =>
        destruct (String.eqb_spec k x) as [->|_];
          [exfalso; apply Hk; simpl; tauto|]
    end.
    reflexivity.
Qed.


Lemma end_session_state (st : State) :
  isEndingSession st = false ->
  setIsEndingSession false (setIsEndingSession true st) = st.
Proof. destruct st; simpl; intros ->; reflexivity. Qed.

(** The handler does nothing without task data or while it is already
    ending the session. *)
Lemma handleEndSession_guard (st : State) (now : Z) (o : outcome) (w : World) :
  falsy (taskData st) || isEndingSession st = true ->
  run (handleEndSession st now o) st w = (inl tt, (st, w)).
Proof.
  intros G. unfold handleEndSession. rewrite G. now run_prog.
Qed.

Lemma handleEndSession_rejected (st : State) (now : Z) (e : error) (w : World) :
  falsy (taskData st) = false -> isEndingSession st = false ->
  run (handleEndSession st now (Rejected e)) st w = failed_run st now e w.
Proof.
  intros G1 G2. unfold handleEndSession, failed_run. rewrite G1, G2. cbn [orb].
  run_prog. now rewrite end_session_state.
Qed.

(** A response without a body to read the status from sends the handler
    to the [catch] branch as well. *)
Lemma handleEndSession_no_body (st : State) (now : Z) (result : value) (w : World) :
  falsy (taskData st) = false -> isEndingSession st = false ->
  nullish result = true ->
  run (handleEndSession st now (Resolved result)) st w
  = failed_run st now (TypeError_reading "status") w.
Proof.
  intros G1 G2 N. unfold handleEndSession, failed_run. rewrite G1, G2. cbn [orb].
  run_prog. rewrite N. run_prog. now rewrite end_session_state.
Qed.

Lemma handleEndSession_resolved (st : State) (now : Z) (result : value) (w : World) :
  falsy (taskData st) = false -> isEndingSession st = false ->
  nullish result = false ->
  let stopped := is_string (field "status" result) "success" in
  let text :=
    JSON_stringify
      (VObj (obj_extend (spread (taskData st))
               [ ("endTime", VStr (toISOString now));
                 ("actualDuration", VNum (elapsedTime st));
                 ("interventionsStopped", VBool stopped) ])) in
  run (handleEndSession st now (Resolved result)) st w
  = (inl tt,
     (st,
      mkWorld (<["completedTask" := text]> (localStorage w))
        (log w ++
         [ ApiCall stopInterventions;
           SetItem "completedTask" text;
           ToastShown
             (if stopped then
                Toast "Task session ended"
                  (Some "Monitoring stopped successfully. Please complete the assessment forms")
                  None
              else
                Toast "Task session ended"
                  (Some ("Session saved. " +:+ String_of (field "message" result)))
                  (Some "destructive"));
           Navigate "/task-results" ]))).
Proof.
  intros G1 G2 N stopped text. subst stopped text.
  unfold handleEndSession. rewrite G1, G2. cbn [orb].
  run_prog. rewrite N. run_prog.
  destruct (is_string (field "status" result) "success"); run_prog;
    now rewrite end_session_state.
Qed.



(** C1, as the code has it.  Ending a task session goes on when
    stopping the interventions fails: in every run of [handleEndSession]
    in which [apiService.stopInterventions] is called and rejects, one
    ["completedTask"] record is written to [localStorage], and the page
    navigates to ["/task-results"].  The record is the current task data
    extended with [endTime], [actualDuration] equal to the elapsed time,
    [interventionsStopped] set to [false] and [error] set to
    ["Failed to stop interventions"]: it has the fields of the task and
    these four, and no other; every field of the task that is not named
    like one of the four has the value it has in the task, and a field
    that is takes the new value.  So every field of the task is in the
    record with its value when the task has none of the four names, as the
    record that the task form stores, whose eight fields are listed. *)
Theorem end_session_continues_when_stop_fails
  (st : State) (now : Z) (e : error) (w : World) :
  falsy (taskData st) = false ->
  isEndingSession st = false ->
  let p := handleEndSession st now (Rejected e) in
  let added := ["endTime"; "actualDuration"; "interventionsStopped"; "error"] in
  let sessionData :=
    obj_extend (spread (taskData st))
      [ ("endTime", VStr (toISOString now));
        ("actualDuration", VNum (elapsedTime st));
        ("interventionsStopped", VBool false);
        ("error", VStr "Failed to stop interventions") ] in
  result_of p st w = inl tt
  /\ api_calls (effects p st w) = [stopInterventions]
  /\ localStorage (world_after p st w)
     = <["completedTask" := JSON_stringify (VObj sessionData)]> (localStorage w)
  /\ storage_writes (effects p st w)
     = [SetItem "completedTask" (JSON_stringify (VObj sessionData))]
  /\ obj_get "endTime" sessionData = Some (VStr (toISOString now))
  /\ obj_get "actualDuration" sessionData = Some (VNum (elapsedTime st))
  /\ obj_get "interventionsStopped" sessionData = Some (VBool false)
  /\ obj_get "error" sessionData = Some (VStr "Failed to stop interventions")
  /\ (forall o : obj, taskData st = VObj o ->
        (forall k, In k (obj_keys sessionData) <-> In k (obj_keys o) \/ In k added)
        /\ (forall k, ~ In k added -> obj_get k sessionData = obj_get k o)
        /\ ((forall k, In k added -> obj_get k o = None) ->
            forall k v, obj_get k o = Some v -> obj_get k sessionData = Some v))
  /\ (forall (formData : TaskForm.FormData) (started : Z),
        taskData st = TaskForm.taskData formData started ->
        field "name" (VObj sessionData) = VStr (TaskForm.name formData)
        /\ field "participantId" (VObj sessionData)
           = VStr (TaskForm.participantId formData)
        /\ field "batch" (VObj sessionData) = VStr (TaskForm.batch formData)
        /\ field "category" (VObj sessionData)
           = VArr (map VStr (TaskForm.category formData))
        /\ field "taskDescription" (VObj sessionData)
           = VStr (TaskForm.taskDescription formData)
        /\ field "estimatedTime" (VObj sessionData)
           = VStr (TaskForm.estimatedTime formData)
        /\ field "systemType" (VObj sessionData) = VStr (TaskForm.systemType formData)
        /\ field "startTime" (VObj sessionData) = VStr (toISOString started))
  /\ navigations (effects p st w) = ["/task-results"]
  /\ state_after p st w = st.
Proof.
  intros G1 G2 p added sessionData.
  pose proof (handleEndSession_rejected st now e w G1 G2) as R.
  fold p in R. unfold failed_run in R. fold sessionData in R.
  destruct (failed_record (spread (taskData st)) (toISOString now) (elapsedTime st))
    as (F1 & F2 & F3 & F4 & F5 & F6).
  fold sessionData in F1, F2, F3, F4, F5, F6.
  unfold result_of, state_after, world_after.
  rewrite (effects_run _ _ _ _ _ _ _ R), R. cbn [fst snd localStorage].
  do 4 (split; [reflexivity|]).
  do 4 (split; [assumption|]).
  split; [|split; [|split; reflexivity]].
  - intros o T.
    assert (S : spread (taskData st) = o) by (rewrite T; reflexivity).
    rewrite S in F6.
    split; [|split].
    + intros k. subst sessionData. rewrite obj_keys_extend, S. reflexivity.
    + exact F6.
    + intros Fresh k v Hk. rewrite F6; [exact Hk|].
      intros Hin. rewrite (Fresh k Hin) in Hk. discriminate.
  - intros formData started T.
    assert (K : forall k, ~ In k added ->
                field k (VObj sessionData) = field k (TaskForm.taskData formData started)).
    { intros k Hk. cbn [field]. rewrite (F6 k Hk), T. reflexivity. }
    rewrite !K by (cbn [In added]; intuition discriminate).
    repeat split.
Qed.


End EndSession.

Lemma end_session_continues_when_stop_fails_witness :
  exists text : string,
    localStorage
      (world_after
         (@TaskSession.handleEndSession Reference.browser Demo.session Demo.ended
            (Rejected Demo.network_down))
         Demo.session Demo.world) !! "completedTask" = Some text
    /\ option_map (field "participantId") (Reference.parse_text text)
       = Some (VStr "42")
    /\ option_map (field "category") (Reference.parse_text text)
       = Some (VArr [VStr "Coding"; VStr "Writing"])
    /\ option_map (field "actualDuration") (Reference.parse_text text)
       = Some (VNum (Num 754))
    /\ option_map (field "error") (Reference.parse_text text)
       = Some (VStr "Failed to stop interventions").
Proof.
  pose proof (@end_session_continues_when_stop_fails Reference.browser
                Demo.session Demo.ended Demo.network_down Demo.world
                eq_refl eq_refl) as W.
  cbv zeta in W. destruct W as (_ & _ & E & _).
  eexists. split; [rewrite E; apply lookup_insert_eq|].
  vm_compute. repeat split; reflexivity.
Defined.

(** C1, as the specification states it, fails for a task that has a
    field named like an added one: with [error: "sensor offline"] and
    [endTime: "yesterday"] in the task data, the stored record has the error
    of the handler and the time at which the session ended, and the values
    of the task are in it nowhere. *)
Lemma end_session_failure_record_counterexample :
  let st :=
    TaskSession.mkState
      (VObj [ ("name", VStr "Asha"); ("error", VStr "sensor offline");
              ("endTime", VStr "yesterday") ])
      (Num 754) false in
  let stored : option value :=
    match localStorage
            (world_after
               (@TaskSession.handleEndSession Reference.browser st Demo.ended
                  (Rejected Demo.network_down))
               st Demo.world) !! "completedTask" with
    | Some text => Reference.parse_text text
    | None => None
    end in
  field "error" (TaskSession.taskData st) = VStr "sensor offline"
  /\ field "endTime" (TaskSession.taskData st) = VStr "yesterday"
  /\ stored
     = Some (VObj [ ("name", VStr "Asha");
                    ("error", VStr "Failed to stop interventions");
                    ("endTime", VStr "2024-11-02T09:12:34.500Z");
                    ("actualDuration", VNum (Num 754));
                    ("interventionsStopped", VBool false) ]).
Proof. vm_compute. repeat split; reflexivity. Qed.



(** ** Submitting the task form *)

Section SubmitTask.

Context `{Browser}.

Import TaskForm.

Lemma empty_spec (s : string) : empty s = true <-> s = "".
Proof. unfold empty. apply String.eqb_eq. Qed.

Lemma test_digits_spec (s : string) : test_digits s = true <-> only_digits s.
Proof.
  unfold test_digits, only_digits.
  rewrite andb_true_iff, negb_true_iff, String.eqb_neq.
  apply and_iff_compat_l.
  induction s as [|c s IH]; simpl.
  - split; [constructor | reflexivity].
  - rewrite andb_true_iff, IH. unfold is_digit, decimal_digit.
    rewrite andb_true_iff, !Nat.leb_le.
    split.
    + intros [Hc Hs]. now constructor.
    + intros Hall. inversion Hall; subst. tauto.
Qed.

Lemma incomplete_spec (formData : FormData) :
  incomplete formData = true <->
  name formData = "" \/ participantId formData = "" \/ batch formData = ""
  \/ category formData = [] \/ taskDescription formData = ""
  \/ estimatedTime formData = "" \/ systemType formData = "".
Proof.
  unfold incomplete. rewrite !orb_true_iff, !empty_spec, Nat.eqb_eq.
  rewrite length_zero_iff_nil. tauto.
Qed.

Lemma task_form_incomplete (formData : FormData) (now : Z) (o : outcome) (w : World) :
  incomplete formData = true ->
  run (handleSubmit formData now o) formData w
  = (inl tt,
     (formData,
      mkWorld (localStorage w)
        (log w ++
         [ PreventDefault;
           ToastShown (Toast "Please fill in all fields" None (Some "destructive")) ]))).
Proof.
  intros E. unfold handleSubmit. rewrite E. now run_prog.
Qed.

Lemma task_form_bad_id (formData : FormData) (now : Z) (o : outcome) (w : World) :
  incomplete formData = false ->
  test_digits (participantId formData) = false ->
  run (handleSubmit formData now o) formData w
  = (inl tt,
     (formData,
      mkWorld (localStorage w)
        (log w ++
         [ PreventDefault;
           ToastShown (Toast "Invalid Participant ID"
                         (Some "Participant ID must be a number")
                         (Some "destructive")) ]))).
Proof.
  intros E1 E2. unfold handleSubmit. rewrite E1, E2. now run_prog.
Qed.

Lemma task_form_rejected (formData : FormData) (now : Z) (e : error) (w : World) :
  incomplete formData = false ->
  test_digits (participantId formData) = true ->
  run (handleSubmit formData now (Rejected e)) formData w
  = start_failed formData now e w.
Proof.
  intros E1 E2. unfold handleSubmit, start_failed. rewrite E1, E2. now run_prog.
Qed.

Lemma task_form_no_body (formData : FormData) (now : Z) (result : value) (w : World) :
  incomplete formData = false ->
  test_digits (participantId formData) = true ->
  nullish result = true ->
  run (handleSubmit formData now (Resolved result)) formData w
  = start_failed formData now (TypeError_reading "interventionsStarted") w.
Proof.
  intros E1 E2 N. unfold handleSubmit, start_failed. rewrite E1, E2.
  run_prog. rewrite N. now run_prog.
Qed.

Lemma task_form_resolved (formData : FormData) (now : Z) (result : value) (w : World) :
  incomplete formData = false ->
  test_digits (participantId formData) = true ->
  nullish result = false ->
  let text := JSON_stringify (taskData formData now) in
  run (handleSubmit formData now (Resolved result)) formData w
  = (inl tt,
     (formData,
      mkWorld (<["currentTask" := text]> (localStorage w))
        (log w ++
         [ PreventDefault;
           SetItem "currentTask" text;
           ApiCall (saveTaskDetailsAndStart (taskData formData now));
           ToastShown
             (Toast "Task session started"
                (Some (if truthy (field "interventionsStarted" result)
                       then "Task details saved and monitoring started!"
                       else "Task details saved. Good luck with your task!"))
                None);
           Navigate "/task-session" ]))).
Proof.
  intros E1 E2 N. unfold handleSubmit. rewrite E1, E2.
  run_prog. rewrite N. now run_prog.
Qed.

(** C4. The task form is validated on submission: whenever one of name,
    participant id, batch, task description, estimated time or system
    type is empty, or no category is selected, or the participant id does
    not consist solely of decimal digits, [handleSubmit] shows one
    destructive toast and returns without writing to [localStorage] (no
    ["currentTask"]), without calling [saveTaskDetailsAndStart] and
    without navigating. *)
Theorem task_form_rejects_invalid_input
  (formData : FormData) (now : Z) (o : outcome) (w : World) :
  name formData = "" \/ participantId formData = "" \/ batch formData = ""
  \/ taskDescription formData = "" \/ estimatedTime formData = ""
  \/ systemType formData = "" \/ category formData = []
  \/ ~ only_digits (participantId formData) ->
  let p := handleSubmit formData now o in
  exists t : toast_args,
    toasts (effects p formData w) = [t]
    /\ destructive t = true
    /\ result_of p formData w = inl tt
    /\ storage_writes (effects p formData w) = []
    /\ localStorage (world_after p formData w) = localStorage w
    /\ api_calls (effects p formData w) = []
    /\ navigations (effects p formData w) = [].
Proof.
  intros Bad p.
  destruct (incomplete formData) eqn:E1.
  - pose proof (task_form_incomplete formData now o w E1) as R. fold p in R.
    eexists. unfold result_of, world_after.
    rewrite (effects_run _ _ _ _ _ _ _ R), R. cbn.
    repeat split; reflexivity.
  - assert (E2 : test_digits (participantId formData) = false).
    { apply not_true_is_false. rewrite test_digits_spec.
      assert (N : incomplete formData <> true) by congruence.
      rewrite incomplete_spec in N. tauto. }
    pose proof (task_form_bad_id formData now o w E1 E2) as R. fold p in R.
    eexists. unfold result_of, world_after.
    rewrite (effects_run _ _ _ _ _ _ _ R), R. cbn.
    repeat split; reflexivity.
Qed.

End SubmitTask.

Lemma task_form_rejects_invalid_input_witness :
  let formData := TaskForm.mkFormData "Asha" "4x2" "UG27" ["Coding"] "Notes" "30" "system1" in
  exists t : toast_args,
    toasts (effects (@TaskForm.handleSubmit Reference.browser formData Demo.started
                       (Resolved Demo.stop_ok)) formData Demo.world) = [t]
    /\ title t = "Invalid Participant ID".
Proof.
  intros formData.
  destruct (@task_form_rejects_invalid_input Reference.browser formData
              Demo.started (Resolved Demo.stop_ok) Demo.world)
    as (t & T & _).
  { do 7 right. intros [_ D]. cbn in D.
    inversion D as [|? ? _ D1]; subst.
    inversion D1 as [|? ? X _]; subst.
    unfold decimal_digit in X. vm_compute in X. lia. }
  exists t. split; [exact T|].
  revert T. vm_compute. intros [= <-]. reflexivity.
Defined.

(** ** Submitting the assessment *)

Section SubmitAssessment.

Context `{Browser}.

Import TaskResults.

Lemma every_nonempty_spec (l : list string) :
  every_nonempty l = true <-> ~ In "" l.
Proof.
  unfold every_nonempty. rewrite forallb_forall. split.
  - intros Hall Hin. specialize (Hall _ Hin). discriminate.
  - intros Hnot v Hv. apply negb_true_iff, String.eqb_neq.
    intros ->. contradiction.
Qed.

Lemma assessment_answered_spec (st : State) :
  assessment_answered st = false <->
  mental (nasaTlx st) = "" \/ physical (nasaTlx st) = ""
  \/ temporal (nasaTlx st) = "" \/ performance (nasaTlx st) = ""
  \/ effort (nasaTlx st) = "" \/ frustration (nasaTlx st) = ""
  \/ accuracy (likertResponses st) = "" \/ effectiveness (likertResponses st) = ""
  \/ personalisation (likertResponses st) = "".
Proof.
  unfold assessment_answered. rewrite andb_false_iff.
  rewrite <- !not_true_iff_false, !every_nonempty_spec.
  unfold nasaTlx_values, likert_values. simpl.
  split.
  - intros [N|N].
    + destruct (string_dec (mental (nasaTlx st)) ""); [tauto|].
      destruct (string_dec (physical (nasaTlx st)) ""); [tauto|].
      destruct (string_dec (temporal (nasaTlx st)) ""); [tauto|].
      destruct (string_dec (performance (nasaTlx st)) ""); [tauto|].
      destruct (string_dec (effort (nasaTlx st)) ""); [tauto|].
      destruct (string_dec (frustration (nasaTlx st)) ""); [tauto|].
      exfalso. apply N. intuition congruence.
    + destruct (string_dec (accuracy (likertResponses st)) ""); [tauto|].
      destruct (string_dec (effectiveness (likertResponses st)) ""); [tauto|].
      destruct (string_dec (personalisation (likertResponses st)) ""); [tauto|].
      exfalso. apply N. intuition congruence.
  - intros D.
    destruct D as [D|[D|[D|[D|[D|[D|[D|[D|D]]]]]]]];
      first [ left; intros N; apply N; rewrite D; tauto
            | right; intros N; apply N; rewrite D; tauto ].
Qed.

Lemma assessment_unanswered (st : State) (now : Z) (o : outcome) (w : World) :
  assessment_answered st = false ->
  run (handleSubmit st now o) st w
  = (inl tt,
     (st,
      mkWorld (localStorage w)
        (log w ++
         [ PreventDefault;
           ToastShown (Toast "Please complete all assessment forms" None
                         (Some "destructive")) ]))).
Proof.
  intros E. unfold handleSubmit.
  unfold assessment_answered in E. apply andb_false_iff in E.
  replace (negb (every_nonempty (nasaTlx_values (nasaTlx st)))
           || negb (every_nonempty (likert_values (likertResponses st))))
    with true.
  - now run_prog.
  - symmetry. rewrite orb_true_iff, !negb_true_iff. exact E.
Qed.

Lemma assessment_no_participant (st : State) (now : Z) (o : outcome) (w : World) :
  assessment_answered st = true ->
  falsy (optional_field "participantId" (taskData st)) = true ->
  run (handleSubmit st now o) st w
  = (inl tt,
     (st,
      mkWorld (localStorage w)
        (log w ++
         [ PreventDefault;
           ToastShown (Toast "Participant ID missing"
                         (Some "Cannot save assessment without participant ID")
                         (Some "destructive")) ]))).
Proof.
  intros E P. unfold handleSubmit.
  unfold assessment_answered in E. apply andb_true_iff in E as [E1 E2].
  rewrite E1, E2, P. now run_prog.
Qed.

Lemma assessment_accepted_spec (st : State) :
  assessment_accepted st = true <->
  assessment_answered st = true /\ falsy (optional_field "participantId" (taskData st)) = false.
Proof.
  unfold assessment_accepted, truthy. now rewrite andb_true_iff, negb_true_iff.
Qed.

Lemma assessment_rejected (st : State) (now : Z) (e : error) (w : World) :
  assessment_accepted st = true ->
  run (handleSubmit st now (Rejected e)) st w
  = (inl tt,
     (setIsSubmitting false st,
      mkWorld (localStorage w)
        (log w ++
         [ PreventDefault;
           ApiCall (saveAssessment (assessmentData st now));
           ConsoleError "Failed to save assessment:" e;
           ToastShown
             (Toast "Failed to save assessment"
                (Some (if empty (message e) then "Please try again" else message e))
                (Some "destructive")) ]))).
Proof.
  intros V. apply assessment_accepted_spec in V as [E P].
  unfold handleSubmit.
  unfold assessment_answered in E. apply andb_true_iff in E as [E1 E2].
  rewrite E1, E2, P. now run_prog.
Qed.

Lemma assessment_resolved (st : State) (now : Z) (result : value) (w : World) :
  assessment_accepted st = true ->
  nullish result = false ->
  run (handleSubmit st now (Resolved result)) st w
  = (inl tt,
     (setIsSubmitting false st,
      mkWorld (cleared st now (localStorage w))
        (log w ++
         [ PreventDefault;
           ApiCall (saveAssessment (assessmentData st now));
           SetItem "sessionResults" (JSON_stringify (assessmentData st now));
           RemoveItem "currentTask";
           RemoveItem "completedTask";
           ToastShown
             (Toast "Assessment completed!"
                (Some (if truthy (field "isNewFile" result)
                       then "Assessment saved successfully"
                       else "Assessment appended ("
                            +:+ String_of (field "totalEntries" result)
                            +:+ " total entries)"))
                None);
           Navigate "/" ]))).
Proof.
  intros V N. apply assessment_accepted_spec in V as [E P].
  unfold handleSubmit, cleared.
  unfold assessment_answered in E. apply andb_true_iff in E as [E1 E2].
  rewrite E1, E2, P. run_prog. rewrite N. now run_prog.
Qed.

(** A response without a body: the assessment is stored and the session
    keys are removed before the toast is built, which then fails. *)
Lemma assessment_no_body (st : State) (now : Z) (result : value) (w : World) :
  assessment_accepted st = true ->
  nullish result = true ->
  let e := TypeError_reading "isNewFile" in
  run (handleSubmit st now (Resolved result)) st w
  = (inl tt,
     (setIsSubmitting false st,
      mkWorld (cleared st now (localStorage w))
        (log w ++
         [ PreventDefault;
           ApiCall (saveAssessment (assessmentData st now));
           SetItem "sessionResults" (JSON_stringify (assessmentData st now));
           RemoveItem "currentTask";
           RemoveItem "completedTask";
           ConsoleError "Failed to save assessment:" e;
           ToastShown
             (Toast "Failed to save assessment"
                (Some (if empty (message e) then "Please try again" else message e))
                (Some "destructive")) ]))).
Proof.
  intros V N. apply assessment_accepted_spec in V as [E P].
  unfold handleSubmit, cleared.
  unfold assessment_answered in E. apply andb_true_iff in E as [E1 E2].
  rewrite E1, E2, P. run_prog. rewrite N. now run_prog.
Qed.

Lemma cleared_lookup (st : State) (now : Z) (ls : gmap string string) :
  cleared st now ls !! "sessionResults" = Some (JSON_stringify (assessmentData st now))
  /\ cleared st now ls !! "currentTask" = None
  /\ cleared st now ls !! "completedTask" = None
  /\ (forall k, ~ In k ["sessionResults"; "currentTask"; "completedTask"] ->
                cleared st now ls !! k = ls !! k).
Proof.
  unfold cleared. repeat split.
  - rewrite !lookup_delete_ne by discriminate. apply lookup_insert_eq.
  - rewrite lookup_delete_ne by discriminate. apply lookup_delete_eq.
  - apply lookup_delete_eq.
  - intros k Hk. simpl in Hk.
    rewrite !lookup_delete_ne, lookup_insert_ne by tauto. reflexivity.
Qed.

(** C5. The assessment is validated on submission: whenever one of the
    six NASA TLX answers or one of the three Likert answers is the empty
    string, or [taskData.participantId] is missing, [handleSubmit] shows
    one destructive toast and returns without calling [saveAssessment],
    without modifying [localStorage] and without navigating. *)
Theorem assessment_rejects_incomplete_input
  (st : State) (now : Z) (o : outcome) (w : World) :
  mental (nasaTlx st) = "" \/ physical (nasaTlx st) = ""
  \/ temporal (nasaTlx st) = "" \/ performance (nasaTlx st) = ""
  \/ effort (nasaTlx st) = "" \/ frustration (nasaTlx st) = ""
  \/ accuracy (likertResponses st) = "" \/ effectiveness (likertResponses st) = ""
  \/ personalisation (likertResponses st) = ""
  \/ optional_field "participantId" (taskData st) = VUndefined ->
  let p := handleSubmit st now o in
  exists t : toast_args,
    toasts (effects p st w) = [t]
    /\ destructive t = true
    /\ result_of p st w = inl tt
    /\ api_calls (effects p st w) = []
    /\ storage_writes (effects p st w) = []
    /\ localStorage (world_after p st w) = localStorage w
    /\ navigations (effects p st w) = []
    /\ state_after p st w = st.
Proof.
  intros Bad p.
  destruct (assessment_answered st) eqn:E.
  - assert (P : falsy (optional_field "participantId" (taskData st)) = true).
    { assert (N : assessment_answered st <> false) by congruence.
      rewrite assessment_answered_spec in N.
      assert (U : optional_field "participantId" (taskData st) = VUndefined) by tauto.
      now rewrite U. }
    pose proof (assessment_no_participant st now o w E P) as R. fold p in R.
    eexists. unfold result_of, world_after, state_after.
    rewrite (effects_run _ _ _ _ _ _ _ R), R. cbn.
    repeat split; reflexivity.
  - pose proof (assessment_unanswered st now o w E) as R. fold p in R.
    eexists. unfold result_of, world_after, state_after.
    rewrite (effects_run _ _ _ _ _ _ _ R), R. cbn.
    repeat split; reflexivity.
Qed.

(** C6. A failed save leaves everything as it was, so that the
    participant can submit again: in every run of [handleSubmit] in which
    [apiService.saveAssessment] is called and rejects, [localStorage] is
    unchanged (no ["sessionResults"] is written, ["currentTask"] and
    ["completedTask"] are not removed), nothing navigates, one
    destructive toast is shown, and [isSubmitting] is [false] again while
    the answers stay in place; submitting them again, once the request
    gets through, completes the assessment. *)
Theorem failed_save_changes_nothing
  (st : State) (now : Z) (e : error) (w : World) :
  assessment_accepted st = true ->
  let p := handleSubmit st now (Rejected e) in
  let st' := state_after p st w in
  exists t : toast_args,
    api_calls (effects p st w) = [saveAssessment (assessmentData st now)]
    /\ localStorage (world_after p st w) = localStorage w
    /\ storage_writes (effects p st w) = []
    /\ navigations (effects p st w) = []
    /\ toasts (effects p st w) = [t]
    /\ destructive t = true
    /\ result_of p st w = inl tt
    /\ isSubmitting st' = false
    /\ st' = setIsSubmitting false st
    /\ (forall (now' : Z) (result : value) (w' : World),
          nullish result = false ->
          let retry := handleSubmit st' now' (Resolved result) in
          api_calls (effects retry st' w') = [saveAssessment (assessmentData st now')]
          /\ navigations (effects retry st' w') = ["/"]).
Proof.
  intros V p st'.
  pose proof (assessment_rejected st now e w V) as R. fold p in R.
  assert (S : st' = setIsSubmitting false st).
  { subst st'. unfold state_after. now rewrite R. }
  eexists. unfold result_of, world_after.
  rewrite (effects_run _ _ _ _ _ _ _ R), R, S. cbn [fst snd localStorage].
  do 9 (split; [reflexivity|]).
  intros now' result w' N.
  pose proof (assessment_resolved (setIsSubmitting false st) now' result w' V N) as R'.
  rewrite (effects_run _ _ _ _ _ _ _ R').
  split; reflexivity.
Qed.

End SubmitAssessment.

Lemma assessment_rejects_incomplete_input_witness :
  toasts (effects (@TaskResults.handleSubmit Reference.browser TaskResults.initial
                     Demo.ended (Resolved Demo.saved))
            TaskResults.initial Demo.stored)
  = [Toast "Please complete all assessment forms" None (Some "destructive")].
Proof.
  destruct (@assessment_rejects_incomplete_input Reference.browser
              TaskResults.initial Demo.ended (Resolved Demo.saved) Demo.stored)
    as (t & T & _).
  { left. reflexivity. }
  rewrite T. revert T. vm_compute. intros [= <-]. reflexivity.
Defined.

Lemma failed_save_changes_nothing_witness :
  let p := @TaskResults.handleSubmit Reference.browser Demo.assessment Demo.ended
             (Rejected Demo.network_down) in
  localStorage (world_after p Demo.assessment Demo.stored) = localStorage Demo.stored
  /\ navigations (effects p Demo.assessment Demo.stored) = [].
Proof.
  intros p.
  destruct (@failed_save_changes_nothing Reference.browser Demo.assessment
              Demo.ended Demo.network_down Demo.stored eq_refl)
    as (t & _ & L & _ & N & _).
  split; [exact L | exact N].
Defined.

(** ** The session keys *)

Section SessionKeys.

Context `{Browser}.

Lemma handleFeedbackClick_run (st : TaskResultsFeedback.State) (w : World) :
  run TaskResultsFeedback.handleFeedbackClick st w
  = (inl tt,
     (st,
      mkWorld (delete "completedTask" (delete "currentTask" (localStorage w)))
        (log w ++
         [ RemoveItem "currentTask";
           RemoveItem "completedTask";
           WindowOpen TaskResultsFeedback.feedback_form;
           Navigate "/" ]))).
Proof. unfold TaskResultsFeedback.handleFeedbackClick. now run_prog. Qed.

(** C7. Browser storage holds the state of the session only while it
    lasts.  When the assessment is saved, the writes to [localStorage]
    are exactly: ["sessionResults"] is set to the assessment data,
    ["currentTask"] is removed and ["completedTask"] is removed, and
    every other key keeps its value.  In the feedback variant,
    [handleFeedbackClick] likewise removes ["currentTask"] and
    ["completedTask"], touches nothing else, and returns home.  Neither
    ["currentTask"] nor ["completedTask"] is left after a completed
    session. *)
Theorem session_keys_do_not_survive
  (st : TaskResults.State) (now : Z) (result : value) (w : World)
  (fb : TaskResultsFeedback.State) (fw : World) :
  assessment_accepted st = true ->
  let p := TaskResults.handleSubmit st now (Resolved result) in
  let ls' := localStorage (world_after p st w) in
  let q := TaskResultsFeedback.handleFeedbackClick in
  let fls' := localStorage (world_after q fb fw) in
  (storage_writes (effects p st w)
   = [ SetItem "sessionResults" (JSON_stringify (TaskResults.assessmentData st now));
       RemoveItem "currentTask";
       RemoveItem "completedTask" ]
   /\ ls' !! "sessionResults" = Some (JSON_stringify (TaskResults.assessmentData st now))
   /\ ls' !! "currentTask" = None
   /\ ls' !! "completedTask" = None
   /\ (forall k, ~ In k ["sessionResults"; "currentTask"; "completedTask"] ->
                 ls' !! k = localStorage w !! k))
  /\ (storage_writes (effects q fb fw)
      = [RemoveItem "currentTask"; RemoveItem "completedTask"]
      /\ fls' !! "currentTask" = None
      /\ fls' !! "completedTask" = None
      /\ (forall k, ~ In k ["currentTask"; "completedTask"] ->
                    fls' !! k = localStorage fw !! k)
      /\ navigations (effects q fb fw) = ["/"]).
Proof.
  intros V p ls' q fls'. split.
  - assert (R : exists evs,
        run p st w = (inl tt, (TaskResults.setIsSubmitting false st,
                               mkWorld (cleared st now (localStorage w)) (log w ++ evs)))
        /\ storage_writes evs
           = [ SetItem "sessionResults" (JSON_stringify (TaskResults.assessmentData st now));
               RemoveItem "currentTask";
               RemoveItem "completedTask" ]).
    { destruct (nullish result) eqn:N.
      - eexists. split; [apply (assessment_no_body st now result w V N) | reflexivity].
      - eexists. split; [apply (assessment_resolved st now result w V N) | reflexivity]. }
    destruct R as (evs & R & W).
    subst ls'. unfold world_after.
    rewrite (effects_run _ _ _ _ _ _ _ R), R. cbn [fst snd localStorage].
    split; [exact W|]. apply cleared_lookup.
  - pose proof (handleFeedbackClick_run fb fw) as R. fold q in R.
    subst fls'. unfold world_after.
    rewrite (effects_run _ _ _ _ _ _ _ R), R. cbn [fst snd localStorage].
    split; [reflexivity|].
    split; [rewrite lookup_delete_ne by discriminate; apply lookup_delete_eq|].
    split; [apply lookup_delete_eq|].
    split; [|reflexivity].
    intros k Hk. simpl in Hk. rewrite !lookup_delete_ne by tauto. reflexivity.
Qed.

End SessionKeys.

Lemma session_keys_do_not_survive_witness :
  let p := @TaskResults.handleSubmit Reference.browser Demo.assessment Demo.ended
             (Resolved Demo.saved) in
  localStorage (world_after p Demo.assessment Demo.stored) !! "currentTask" = None
  /\ localStorage (world_after p Demo.assessment Demo.stored) !! "completedTask" = None.
Proof.
  intros p.
  destruct (@session_keys_do_not_survive Reference.browser Demo.assessment
              Demo.ended Demo.saved Demo.stored
              TaskResultsFeedback.initial Demo.stored eq_refl)
    as ((_ & _ & A & B & _) & _).
  split; [exact A | exact B].
Defined.

(** ** Opening a page *)

Section Mount.

Context `{Browser}.

(** What the effect of the session page does, case by case. *)
Lemma session_mount (st : TaskSession.State) (w : World) :
  run TaskSession.mount st w
  = match localStorage w !! "currentTask" with
    | None =>
        (inl None, (st, mkWorld (localStorage w) (log w ++ [Navigate "/task-form"])))
    | Some text =>
        if empty text then
          (inl None, (st, mkWorld (localStorage w) (log w ++ [Navigate "/task-form"])))
        else
          match JSON_parse text with
          | None => (inr (SyntaxError_parsing text), (st, w))
          | Some task =>
              if nullish task then
                (inr (TypeError_reading "startTime"), (TaskSession.setTaskData task st, w))
              else
                (inl (Some (Date_getTime (field "startTime" task))),
                 (TaskSession.setTaskData task st, w))
          end
    end.
Proof.
  unfold TaskSession.mount. run_prog.
  destruct (localStorage w !! "currentTask") as [text|]; [|now run_prog].
  destruct (empty text); [now run_prog|].
  run_prog. destruct (JSON_parse text) as [task|]; [|reflexivity].
  run_prog. destruct (nullish task); now run_prog.
Qed.

Lemma results_mount (st : TaskResults.State) (w : World) :
  run TaskResults.mount st w
  = match localStorage w !! "completedTask" with
    | None => (inl tt, (st, mkWorld (localStorage w) (log w ++ [Navigate "/"])))
    | Some text =>
        if empty text then
          (inl tt, (st, mkWorld (localStorage w) (log w ++ [Navigate "/"])))
        else
          match JSON_parse text with
          | None => (inr (SyntaxError_parsing text), (st, w))
          | Some task => (inl tt, (TaskResults.setTaskData task st, w))
          end
    end.
Proof.
  unfold TaskResults.mount. run_prog.
  destruct (localStorage w !! "completedTask") as [text|]; [|now run_prog].
  destruct (empty text); [now run_prog|].
  run_prog. destruct (JSON_parse text) as [task|]; [|reflexivity].
  now run_prog.
Qed.

Lemma feedback_mount (st : TaskResultsFeedback.State) (w : World) :
  run TaskResultsFeedback.mount st w
  = match localStorage w !! "completedTask" with
    | None => (inl tt, (st, mkWorld (localStorage w) (log w ++ [Navigate "/"])))
    | Some text =>
        if empty text then
          (inl tt, (st, mkWorld (localStorage w) (log w ++ [Navigate "/"])))
        else
          match JSON_parse text with
          | None => (inr (SyntaxError_parsing text), (st, w))
          | Some task => (inl tt, (TaskResultsFeedback.setTaskData task st, w))
          end
    end.
Proof.
  unfold TaskResultsFeedback.mount. run_prog.
  destruct (localStorage w !! "completedTask") as [text|]; [|now run_prog].
  destruct (empty text); [now run_prog|].
  run_prog. destruct (JSON_parse text) as [task|]; [|reflexivity].
  now run_prog.
Qed.

(** C10. Each page guards the session state it needs.  On mount, the
    session page redirects to ["/task-form"] whenever [localStorage] has
    no ["currentTask"] entry, and both results pages (the assessment form
    and the feedback variant) redirect to ["/"] whenever it has no
    ["completedTask"] entry, and they show the loading placeholder; a
    page shows its task content only when the record it needs was
    present, and then the task data is what that record parses to. *)
Theorem pages_guard_their_session_state (w : World) :
  (localStorage w !! "currentTask" = None ->
     navigations (effects TaskSession.mount TaskSession.initial w) = ["/task-form"]
     /\ TaskSession.render (state_after TaskSession.mount TaskSession.initial w)
        = TaskSession.Loading)
  /\ (localStorage w !! "completedTask" = None ->
        navigations (effects TaskResults.mount TaskResults.initial w) = ["/"]
        /\ TaskResults.render (state_after TaskResults.mount TaskResults.initial w)
           = TaskResults.Loading)
  /\ (localStorage w !! "completedTask" = None ->
        navigations (effects TaskResultsFeedback.mount TaskResultsFeedback.initial w) = ["/"]
        /\ TaskResultsFeedback.render
             (state_after TaskResultsFeedback.mount TaskResultsFeedback.initial w)
           = TaskResultsFeedback.Loading)
  /\ (let st' := state_after TaskSession.mount TaskSession.initial w in
      TaskSession.render st' <> TaskSession.Loading ->
      exists text, localStorage w !! "currentTask" = Some text
                   /\ JSON_parse text = Some (TaskSession.taskData st'))
  /\ (let st' := state_after TaskResults.mount TaskResults.initial w in
      TaskResults.render st' <> TaskResults.Loading ->
      exists text, localStorage w !! "completedTask" = Some text
                   /\ JSON_parse text = Some (TaskResults.taskData st'))
  /\ (let st' := state_after TaskResultsFeedback.mount TaskResultsFeedback.initial w in
      TaskResultsFeedback.render st' <> TaskResultsFeedback.Loading ->
      exists text, localStorage w !! "completedTask" = Some text
                   /\ JSON_parse text = Some (TaskResultsFeedback.taskData st')).
Proof.
  pose proof (session_mount TaskSession.initial w) as RS.
  pose proof (results_mount TaskResults.initial w) as RR.
  pose proof (feedback_mount TaskResultsFeedback.initial w) as RF.
  split; [|split; [|split; [|split; [|split]]]].
  - intros Absent. rewrite Absent in RS. unfold state_after.
    now rewrite (effects_run _ _ _ _ _ _ _ RS), RS.
  - intros Absent. rewrite Absent in RR. unfold state_after.
    now rewrite (effects_run _ _ _ _ _ _ _ RR), RR.
  - intros Absent. rewrite Absent in RF. unfold state_after.
    now rewrite (effects_run _ _ _ _ _ _ _ RF), RF.
  - intros st' Shown. subst st'. unfold state_after in *. rewrite RS in *.
    destruct (localStorage w !! "currentTask") as [text|]; [|now contradiction Shown].
    exists text. split; [reflexivity|].
    destruct (empty text); [now contradiction Shown|].
    destruct (JSON_parse text) as [task|]; [|now contradiction Shown].
    destruct (nullish task); reflexivity.
  - intros st' Shown. subst st'. unfold state_after in *. rewrite RR in *.
    destruct (localStorage w !! "completedTask") as [text|]; [|now contradiction Shown].
    exists text. split; [reflexivity|].
    destruct (empty text); [now contradiction Shown|].
    destruct (JSON_parse text) as [task|]; [|now contradiction Shown].
    reflexivity.
  - intros st' Shown. subst st'. unfold state_after in *. rewrite RF in *.
    destruct (localStorage w !! "completedTask") as [text|]; [|now contradiction Shown].
    exists text. split; [reflexivity|].
    destruct (empty text); [now contradiction Shown|].
    destruct (JSON_parse text) as [task|]; [|now contradiction Shown].
    reflexivity.
Qed.

End Mount.

Lemma pages_guard_their_session_state_witness :
  navigations (effects (@TaskSession.mount Reference.browser) TaskSession.initial Demo.world)
  = ["/task-form"]
  /\ exists text,
       localStorage Demo.stored !! "completedTask" = Some text
       /\ Reference.parse_text text = Some Demo.completed.
Proof.
  destruct (@pages_guard_their_session_state Reference.browser Demo.world)
    as (S & _).
  destruct (@pages_guard_their_session_state Reference.browser Demo.stored)
    as (_ & _ & _ & _ & R & _).
  split.
  - apply S. reflexivity.
  - apply R. vm_compute. discriminate.
Defined.

(** ** The order of the steps *)

Section StepOrder.

Context `{Browser}.

(** C2. The pages keep the order task setup, timed task session,
    post-task assessment.  A successful submission of the task form
    navigates to ["/task-session"]; ending the session navigates to
    ["/task-results"]; a successful submission of the assessment
    navigates back to ["/"].  A step navigates nowhere else: each handler
    navigates at most once, and only to the route the step hands over to.
    (Success is: the form passes its checks and the request resolves with
    a response body; ending the session is: the handler runs with task
    data and is not already ending.) *)
Theorem pages_follow_the_three_steps
  (formData : TaskForm.FormData) (session : TaskSession.State)
  (assessment : TaskResults.State) (now : Z) (o : outcome) (w : World) :
  map Steps.hands_over_to [Steps.TaskSetup; Steps.TimedSession; Steps.Assessment]
  = ["/task-session"; "/task-results"; "/"]
  /\ navigations (effects (TaskForm.handleSubmit formData now o) formData w)
     = (if form_accepted formData && delivered o
        then [Steps.hands_over_to Steps.TaskSetup] else [])
  /\ navigations (effects (TaskSession.handleEndSession session now o) session w)
     = (if falsy (TaskSession.taskData session) || TaskSession.isEndingSession session
        then [] else [Steps.hands_over_to Steps.TimedSession])
  /\ navigations (effects (TaskResults.handleSubmit assessment now o) assessment w)
     = (if assessment_accepted assessment && delivered o
        then [Steps.hands_over_to Steps.Assessment] else []).
Proof.
  split; [reflexivity|]. split; [|split].
  - unfold form_accepted.
    destruct (TaskForm.incomplete formData) eqn:E1.
    { now rewrite (effects_run _ _ _ _ _ _ _ (task_form_incomplete formData now o w E1)). }
    destruct (test_digits (TaskForm.participantId formData)) eqn:E2.
    2: { now rewrite (effects_run _ _ _ _ _ _ _ (task_form_bad_id formData now o w E1 E2)). }
    destruct o as [result|e]; cbn [negb andb delivered].
    + destruct (nullish result) eqn:N.
      * now rewrite (effects_run _ _ _ _ _ _ _ (task_form_no_body formData now result w E1 E2 N)).
      * now rewrite (effects_run _ _ _ _ _ _ _ (task_form_resolved formData now result w E1 E2 N)).
    + now rewrite (effects_run _ _ _ _ _ _ _ (task_form_rejected formData now e w E1 E2)).
  - destruct (falsy (TaskSession.taskData session) || TaskSession.isEndingSession session) eqn:G.
    { pose proof (handleEndSession_guard session now o w G) as R.
      assert (R' : run (TaskSession.handleEndSession session now o) session w
                   = (inl tt, (session, mkWorld (localStorage w) (log w ++ [])))).
      { rewrite R, app_nil_r. now destruct w. }
      now rewrite (effects_run _ _ _ _ _ _ _ R'). }
    apply orb_false_iff in G as [G1 G2].
    destruct o as [result|e].
    + destruct (nullish result) eqn:N.
      * now rewrite (effects_run _ _ _ _ _ _ _
                       (handleEndSession_no_body session now result w G1 G2 N)).
      * pose proof (handleEndSession_resolved session now result w G1 G2 N) as R.
        cbv zeta in R. now rewrite (effects_run _ _ _ _ _ _ _ R).
    + now rewrite (effects_run _ _ _ _ _ _ _
                     (handleEndSession_rejected session now e w G1 G2)).
  - destruct (assessment_accepted assessment) eqn:V.
    + destruct o as [result|e]; cbn [andb delivered].
      * destruct (nullish result) eqn:N.
        -- pose proof (assessment_no_body assessment now result w V N) as R.
           cbv zeta in R. now rewrite (effects_run _ _ _ _ _ _ _ R).
        -- now rewrite (effects_run _ _ _ _ _ _ _
                          (assessment_resolved assessment now result w V N)).
      * now rewrite (effects_run _ _ _ _ _ _ _ (assessment_rejected assessment now e w V)).
    + cbn [andb]. unfold assessment_accepted in V.
      destruct (assessment_answered assessment) eqn:E.
      * cbn [andb] in V. apply negb_false_iff in V.
        now rewrite (effects_run _ _ _ _ _ _ _
                       (assessment_no_participant assessment now o w E V)).
      * now rewrite (effects_run _ _ _ _ _ _ _ (assessment_unanswered assessment now o w E)).
Qed.

End StepOrder.

(** ** The session timer *)

Section Timer.

Context `{Browser}.

Import TaskSession.

Lemma tick_run (startTime : number) (now : Z) (st : State) (w : World) :
  run (tick startTime now) st w
  = (inl tt, (setElapsedTime (floor_div (sub (Num now) startTime) 1000) st, w)).
Proof. unfold tick. now run_prog. Qed.

(** After any number of ticks the state shows the time of the last one
    and is otherwise untouched. *)
Lemma ticking_run (startTime : number) (earlier : list Z) (now : Z) (st : State) (w : World) :
  run (ticking startTime (earlier ++ [now])) st w
  = (inl tt, (setElapsedTime (floor_div (sub (Num now) startTime) 1000) st, w)).
Proof.
  revert st. induction earlier as [|t earlier IH]; intros st; cbn [app ticking].
  - rewrite run_bind, tick_run. now run_prog.
  - rewrite run_bind, tick_run. cbn beta iota. rewrite IH. reflexivity.
Qed.

(** The task form stores the task, whatever becomes of the request. *)
Lemma form_stores_task (formData : TaskForm.FormData) (now : Z) (o : outcome) (w : World) :
  form_accepted formData = true ->
  localStorage (world_after (TaskForm.handleSubmit formData now o) formData w)
  = <["currentTask" := JSON_stringify (TaskForm.taskData formData now)]> (localStorage w).
Proof.
  unfold form_accepted. rewrite andb_true_iff, negb_true_iff. intros [E1 E2].
  unfold world_after.
  destruct o as [result|e].
  - destruct (nullish result) eqn:N.
    + now rewrite (task_form_no_body formData now result w E1 E2 N).
    + now rewrite (task_form_resolved formData now result w E1 E2 N).
  - now rewrite (task_form_rejected formData now e w E1 E2).
Qed.

(** Whenever the handler runs, in whichever branch, the record it stores
    carries the [elapsedTime] of the render that defined the handler. *)
Lemma end_session_stores_elapsed (st : State) (now : Z) (o : outcome) (w : World) :
  falsy (taskData st) = false -> isEndingSession st = false ->
  exists sessionData : obj,
    localStorage (world_after (handleEndSession st now o) st w) !! "completedTask"
    = Some (JSON_stringify (VObj sessionData))
    /\ obj_get "actualDuration" sessionData = Some (VNum (elapsedTime st)).
Proof.
  intros G1 G2. unfold world_after.
  destruct o as [result|e].
  - destruct (nullish result) eqn:N.
    + rewrite (handleEndSession_no_body st now result w G1 G2 N).
      eexists. split; [apply lookup_insert_eq|].
      now rewrite obj_get_extend.
    + pose proof (handleEndSession_resolved st now result w G1 G2 N) as R.
      cbv zeta in R. rewrite R.
      eexists. split; [apply lookup_insert_eq|].
      now rewrite obj_get_extend.
  - rewrite (handleEndSession_rejected st now e w G1 G2).
    eexists. split; [apply lookup_insert_eq|].
    now rewrite obj_get_extend.
Qed.

(** C8. The session timer is a local computation of elapsed time.  The
    task form stores [startTime], the time of the submission, in the
    ["currentTask"] record; the session page reads the record back and
    starts its timer from that [startTime]; each tick of the timer sets
    [elapsedTime] to [floor((now - startTime) / 1000)]; and the
    [actualDuration] recorded when the session ends is the [elapsedTime]
    of that moment, the value set by the last tick.  ([JSON.parse] is
    asked to give back the record whose text the form stored.) *)
Theorem session_timer_measures_elapsed_time
  (formData : TaskForm.FormData) (started : Z) (o1 : outcome) (w0 : World)
  (earlier : list Z) (now : Z) (ended : Z) (o2 : outcome) :
  form_accepted formData = true ->
  JSON_stringify (TaskForm.taskData formData started) <> "" ->
  JSON_parse (JSON_stringify (TaskForm.taskData formData started))
  = Some (TaskForm.taskData formData started) ->
  let w1 := world_after (TaskForm.handleSubmit formData started o1) formData w0 in
  let st1 := state_after mount initial w1 in
  let w2 := world_after mount initial w1 in
  let startTime := Date_getTime (VStr (toISOString started)) in
  let st2 := state_after (ticking startTime (earlier ++ [now])) st1 w2 in
  let p := handleEndSession st2 ended o2 in
  localStorage w1 !! "currentTask"
  = Some (JSON_stringify (TaskForm.taskData formData started))
  /\ field "startTime" (TaskForm.taskData formData started) = VStr (toISOString started)
  /\ result_of mount initial w1 = inl (Some startTime)
  /\ (forall (n : Z) (st : State) (w : World),
        elapsedTime (state_after (tick startTime n) st w)
        = floor_div (sub (Num n) startTime) 1000)
  /\ (forall t : Z, startTime = Num t ->
        floor_div (sub (Num now) startTime) 1000 = Num ((now - t) / 1000))
  /\ elapsedTime st2 = floor_div (sub (Num now) startTime) 1000
  /\ exists sessionData : obj,
       localStorage (world_after p st2 w2) !! "completedTask"
       = Some (JSON_stringify (VObj sessionData))
       /\ obj_get "actualDuration" sessionData = Some (VNum (elapsedTime st2)).
Proof.
  intros V NE RT w1 st1 w2 startTime st2 p.
  assert (L : localStorage w1 !! "currentTask"
              = Some (JSON_stringify (TaskForm.taskData formData started))).
  { subst w1. rewrite (form_stores_task formData started o1 w0 V).
    apply lookup_insert_eq. }
  assert (F : field "startTime" (TaskForm.taskData formData started)
              = VStr (toISOString started)) by reflexivity.
  assert (M : run mount initial w1
              = (inl (Some startTime),
                 (setTaskData (TaskForm.taskData formData started) initial, w1))).
  { rewrite session_mount, L.
    replace (empty (JSON_stringify (TaskForm.taskData formData started))) with false
      by (symmetry; apply not_true_is_false; rewrite empty_spec; exact NE).
    rewrite RT. cbn [nullish TaskForm.taskData]. now rewrite F. }
  assert (S2 : st2 = setElapsedTime (floor_div (sub (Num now) startTime) 1000)
                       (setTaskData (TaskForm.taskData formData started) initial)).
  { subst st2 st1 w2. unfold state_after at 1. rewrite ticking_run.
    unfold state_after. now rewrite M. }
  split; [exact L|]. split; [exact F|].
  split; [unfold result_of; now rewrite M|].
  split; [intros n st w; unfold state_after; now rewrite tick_run|].
  split; [intros t ->; reflexivity|].
  split; [now rewrite S2|].
  apply end_session_stores_elapsed; now rewrite S2.
Qed.

End Timer.

Lemma session_timer_measures_elapsed_time_witness :
  let w1 := world_after (@TaskForm.handleSubmit Reference.browser Demo.formData
                           Demo.started (Resolved Demo.stop_ok))
              Demo.formData Demo.world in
  let st1 := state_after (@TaskSession.mount Reference.browser) TaskSession.initial w1 in
  let w2 := world_after (@TaskSession.mount Reference.browser) TaskSession.initial w1 in
  let st2 :=
    state_after
      (ticking (Reference.time_of (VStr (Reference.iso_text Demo.started)))
         ([Demo.started + 1003; Demo.started + 2001] ++ [Demo.ended]))
      st1 w2 in
  TaskSession.elapsedTime st2 = Num 754
  /\ TaskSession.formatTime (TaskSession.elapsedTime st2) = "12:34".
Proof.
  intros w1 st1 w2 st2.
  destruct (@session_timer_measures_elapsed_time Reference.browser
              Demo.formData Demo.started (Resolved Demo.stop_ok) Demo.world
              [Demo.started + 1003; Demo.started + 2001] Demo.ended
              (Demo.ended + 40) (Resolved Demo.stop_ok))
    as (_ & _ & _ & _ & _ & E & _).
  - reflexivity.
  - vm_compute. discriminate.
  - vm_compute. reflexivity.
  - assert (E' : TaskSession.elapsedTime st2 = Num 754)
      by (etransitivity; [exact E | reflexivity]).
    split; [exact E' | now rewrite E'].
Defined.

(** ** The worked session, run *)

Section Worked.

Example demo_started : Reference.iso_text Demo.started = "2024-11-02T09:00:00.000Z".
Proof. vm_compute. reflexivity. Qed.

Example demo_time_reads_back :
  Reference.time_of (VStr (Reference.iso_text Demo.ended)) = Num Demo.ended.
Proof. vm_compute. reflexivity. Qed.

Example demo_task_reads_back :
  Reference.parse_text (Reference.stringify Demo.task) = Some Demo.task.
Proof. vm_compute. reflexivity. Qed.

Example formatTime_samples :
  map TaskSession.formatTime
    [Num 0; Num 59; Num 60; Num 754; Num 3599; Num 3600; Num 86399; Num (-5); NaN]
  = ["0:00"; "0:59"; "1:00"; "12:34"; "59:59"; "1:00:00"; "23:59:59"; "-1:-5"; "NaN:NaN"].
Proof. vm_compute. reflexivity. Qed.

Example demo_run_navigations :
  navigations (log Demo.whole_session) = ["/task-session"; "/task-results"; "/"].
Proof. vm_compute. reflexivity. Qed.

Example demo_run_calls :
  map (fun c => match c with
                | saveTaskDetailsAndStart _ => "saveTaskDetailsAndStart"
                | stopInterventions => "stopInterventions"
                | saveAssessment _ => "saveAssessment"
                end) (api_calls (log Demo.whole_session))
  = ["saveTaskDetailsAndStart"; "stopInterventions"; "saveAssessment"].
Proof. vm_compute. reflexivity. Qed.

Example demo_run_storage :
  map fst (map_to_list (localStorage Demo.whole_session)) = ["sessionResults"].
Proof. vm_compute. reflexivity. Qed.

Example demo_run_duration :
  match localStorage Demo.whole_session !! "sessionResults" with
  | Some text => option_map (field "participantId") (Reference.parse_text text)
  | None => None
  end = Some (VStr "42").
Proof. vm_compute. reflexivity. Qed.

End Worked.

(** * Further properties of the pages *)

(** ** The task form: what a submission does *)

Section TaskFormSubmission.

Context `{Browser}.

Lemma form_accepted_spec (formData : TaskForm.FormData) :
  form_accepted formData = true <->
  TaskForm.name formData <> "" /\ TaskForm.participantId formData <> ""
  /\ TaskForm.batch formData <> "" /\ TaskForm.category formData <> []
  /\ TaskForm.taskDescription formData <> "" /\ TaskForm.estimatedTime formData <> ""
  /\ TaskForm.systemType formData <> ""
  /\ only_digits (TaskForm.participantId formData).
Proof.
  unfold form_accepted.
  rewrite andb_true_iff, negb_true_iff, test_digits_spec, <- not_true_iff_false.
  rewrite incomplete_spec.
  split.
  - intros [N D]. repeat split; try (intros E; apply N; tauto); apply D.
  - intros (N1 & N2 & N3 & N4 & N5 & N6 & N7 & D). split; [tauto | exact D].
Qed.

(** The run of [handleSubmit], by the three ways it can go. *)
Lemma task_form_run (formData : TaskForm.FormData) (now : Z) (o : outcome) (w : World) :
  let text := JSON_stringify (TaskForm.taskData formData now) in
  exists evs : list event,
    run (TaskForm.handleSubmit formData now o) formData w
    = (inl tt,
       (formData,
        mkWorld
          (if form_accepted formData
           then <["currentTask" := text]> (localStorage w) else localStorage w)
          (log w ++ evs)))
    /\ api_calls evs
       = (if form_accepted formData
          then [saveTaskDetailsAndStart (TaskForm.taskData formData now)] else [])
    /\ storage_writes evs
       = (if form_accepted formData then [SetItem "currentTask" text] else [])
    /\ navigations evs
       = (if form_accepted formData && delivered o then ["/task-session"] else [])
    /\ exists t, toasts evs = [t]
                 /\ destructive t = negb (form_accepted formData && delivered o).
Proof.
  intros text. unfold form_accepted.
  destruct (TaskForm.incomplete formData) eqn:E1.
  { eexists. split; [apply (task_form_incomplete formData now o w E1)|].
    cbn. repeat split. eexists. split; reflexivity. }
  destruct (test_digits (TaskForm.participantId formData)) eqn:E2.
  2: { eexists. split; [apply (task_form_bad_id formData now o w E1 E2)|].
       cbn. repeat split. eexists. split; reflexivity. }
  destruct o as [result|e]; cbn [negb andb delivered].
  - destruct (nullish result) eqn:N.
    + eexists. split; [apply (task_form_no_body formData now result w E1 E2 N)|].
      cbn. repeat split. eexists. split; reflexivity.
    + eexists. split; [apply (task_form_resolved formData now result w E1 E2 N)|].
      cbn. repeat split. eexists. split; reflexivity.
  - eexists. split; [apply (task_form_rejected formData now e w E1 E2)|].
    cbn. repeat split. eexists. split; reflexivity.
Qed.

(** X1. The checks of the task form reject nothing else than what they
    are meant to: the backend is called, once and with the task record
    (the form data and the start time), exactly when the six text fields
    are filled, a category is selected and the participant id consists of
    decimal digits; otherwise it is not called.  Whatever the request
    gives, the handler catches it: it never throws and shows one toast,
    destructive unless the page goes on to the session. *)
Theorem task_form_calls_backend_iff_valid
  (formData : TaskForm.FormData) (now : Z) (o : outcome) (w : World) :
  let p := TaskForm.handleSubmit formData now o in
  (form_accepted formData = true <->
     TaskForm.name formData <> "" /\ TaskForm.participantId formData <> ""
     /\ TaskForm.batch formData <> "" /\ TaskForm.category formData <> []
     /\ TaskForm.taskDescription formData <> "" /\ TaskForm.estimatedTime formData <> ""
     /\ TaskForm.systemType formData <> ""
     /\ only_digits (TaskForm.participantId formData))
  /\ api_calls (effects p formData w)
     = (if form_accepted formData
        then [saveTaskDetailsAndStart (TaskForm.taskData formData now)] else [])
  /\ result_of p formData w = inl tt
  /\ exists t, toasts (effects p formData w) = [t]
               /\ destructive t = negb (form_accepted formData && delivered o).
Proof.
  intros p. split; [apply form_accepted_spec|].
  destruct (task_form_run formData now o w) as (evs & R & A & _ & _ & T).
  fold p in R. unfold result_of.
  rewrite (effects_run _ _ _ _ _ _ _ R), R.
  split; [exact A|]. split; [reflexivity | exact T].
Qed.

(** The writes and the requests of a submission, in their order. *)
Lemma task_form_order (formData : TaskForm.FormData) (now : Z) (o : outcome) (w : World) :
  let p := TaskForm.handleSubmit formData now o in
  let taskData := TaskForm.taskData formData now in
  writes_and_calls (effects p formData w)
  = (if form_accepted formData
     then [ SetItem "currentTask" (JSON_stringify taskData);
            ApiCall (saveTaskDetailsAndStart taskData) ]
     else []).
Proof.
  intros p taskData. subst p taskData. unfold form_accepted.
  destruct (TaskForm.incomplete formData) eqn:E1.
  { now rewrite (effects_run _ _ _ _ _ _ _ (task_form_incomplete formData now o w E1)). }
  destruct (test_digits (TaskForm.participantId formData)) eqn:E2.
  2: { now rewrite (effects_run _ _ _ _ _ _ _ (task_form_bad_id formData now o w E1 E2)). }
  destruct o as [result|e].
  - destruct (nullish result) eqn:N.
    + pose proof (task_form_no_body formData now result w E1 E2 N) as R.
      unfold start_failed in R.
      now rewrite (effects_run _ _ _ _ _ _ _ R).
    + pose proof (task_form_resolved formData now result w E1 E2 N) as R.
      cbv zeta in R.
      now rewrite (effects_run _ _ _ _ _ _ _ R).
  - pose proof (task_form_rejected formData now e w E1 E2) as R.
    unfold start_failed in R.
    now rewrite (effects_run _ _ _ _ _ _ _ R).
Qed.

(** X2. A submission of the task form writes nothing but
    ["currentTask"], and writes it before the request: of the writes and
    the requests of the handler, the write of the task record comes first
    and the call of [saveTaskDetailsAndStart] second, and there is no
    other.  Every other key of [localStorage] keeps its value (a
    ["completedTask"] left by an earlier session too), and the task record
    stays stored when the request fails, for there is no rollback.  A
    rejected form writes nothing and calls nothing. *)
Theorem task_form_writes_only_current_task
  (formData : TaskForm.FormData) (now : Z) (o : outcome) (w : World) :
  let p := TaskForm.handleSubmit formData now o in
  let taskData := TaskForm.taskData formData now in
  let text := JSON_stringify taskData in
  writes_and_calls (effects p formData w)
  = (if form_accepted formData
     then [SetItem "currentTask" text; ApiCall (saveTaskDetailsAndStart taskData)]
     else [])
  /\ storage_writes (effects p formData w)
     = (if form_accepted formData then [SetItem "currentTask" text] else [])
  /\ localStorage (world_after p formData w) !! "currentTask"
     = (if form_accepted formData then Some text else localStorage w !! "currentTask")
  /\ (forall k : string, k <> "currentTask" ->
        localStorage (world_after p formData w) !! k = localStorage w !! k).
Proof.
  intros p taskData text.
  split; [apply task_form_order|].
  destruct (task_form_run formData now o w) as (evs & R & _ & S & _).
  fold p taskData text in R, S. unfold world_after.
  rewrite (effects_run _ _ _ _ _ _ _ R), R. cbn [fst snd localStorage].
  split; [exact S|].
  destruct (form_accepted formData).
  - split; [apply lookup_insert_eq|].
    intros k N. apply lookup_insert_ne. congruence.
  - split; [reflexivity|]. reflexivity.
Qed.

End TaskFormSubmission.

Lemma task_form_writes_only_current_task_witness :
  let p := @TaskForm.handleSubmit Reference.browser Demo.formData Demo.started
             (Rejected Demo.network_down) in
  localStorage (world_after p Demo.formData Demo.stored) !! "completedTask"
  = localStorage Demo.stored !! "completedTask"
  /\ localStorage (world_after p Demo.formData Demo.stored) !! "currentTask"
     = Some (Reference.stringify Demo.task).
Proof.
  intros p.
  destruct (@task_form_writes_only_current_task Reference.browser Demo.formData
              Demo.started (Rejected Demo.network_down) Demo.stored)
    as (_ & _ & C & F).
  split; [apply F; discriminate | exact C].
Defined.

Section FailedStart.

Context `{Browser}.

(** X3. A start that fails leaves a session behind.  When the form
    passes its checks but the request does not deliver (it rejects, or
    resolves without a body), the page shows the error toast and stays;
    yet the task record is stored, so the session page, opened by hand,
    reads it back, does not redirect and shows the task with the timer at
    0:00, the timer started from the time of the failed submission. *)
Theorem failed_start_leaves_a_session
  (formData : TaskForm.FormData) (started : Z) (o : outcome) (w : World) :
  form_accepted formData = true ->
  delivered o = false ->
  JSON_stringify (TaskForm.taskData formData started) <> "" ->
  JSON_parse (JSON_stringify (TaskForm.taskData formData started))
  = Some (TaskForm.taskData formData started) ->
  let p := TaskForm.handleSubmit formData started o in
  let w1 := world_after p formData w in
  navigations (effects p formData w) = []
  /\ (exists t, toasts (effects p formData w) = [t] /\ destructive t = true)
  /\ navigations (effects TaskSession.mount TaskSession.initial w1) = []
  /\ result_of TaskSession.mount TaskSession.initial w1
     = inl (Some (Date_getTime (VStr (toISOString started))))
  /\ TaskSession.taskData (state_after TaskSession.mount TaskSession.initial w1)
     = TaskForm.taskData formData started
  /\ TaskSession.render (state_after TaskSession.mount TaskSession.initial w1)
     = TaskSession.Content "0:00".
Proof.
  intros V D NE RT p w1.
  destruct (task_form_run formData started o w) as (evs & R & _ & _ & Nav & T).
  fold p in R. rewrite V, D in *. cbn [andb negb] in *.
  assert (M : run TaskSession.mount TaskSession.initial w1
              = (inl (Some (Date_getTime (VStr (toISOString started)))),
                 (TaskSession.setTaskData (TaskForm.taskData formData started)
                    TaskSession.initial,
                  mkWorld (localStorage w1) (log w1 ++ [])))).
  { rewrite session_mount.
    assert (L : localStorage w1 !! "currentTask"
                = Some (JSON_stringify (TaskForm.taskData formData started))).
    { subst w1. unfold world_after. rewrite R. apply lookup_insert_eq. }
    rewrite L.
    replace (empty (JSON_stringify (TaskForm.taskData formData started))) with false
      by (symmetry; apply not_true_is_false; rewrite empty_spec; exact NE).
    rewrite RT, app_nil_r. now destruct w1. }
  rewrite (effects_run _ _ _ _ _ _ _ R).
  rewrite (effects_run _ _ _ _ _ _ _ M).
  unfold result_of, state_after. rewrite M.
  repeat split; try reflexivity; assumption.
Qed.

End FailedStart.

Lemma failed_start_leaves_a_session_witness :
  let p := @TaskForm.handleSubmit Reference.browser Demo.formData Demo.started
             (Rejected Demo.network_down) in
  let w1 := world_after p Demo.formData Demo.world in
  navigations (effects p Demo.formData Demo.world) = []
  /\ TaskSession.render
       (state_after (@TaskSession.mount Reference.browser) TaskSession.initial w1)
     = TaskSession.Content "0:00".
Proof.
  intros p w1.
  destruct (@failed_start_leaves_a_session Reference.browser Demo.formData
              Demo.started (Rejected Demo.network_down) Demo.world)
    as (N & _ & _ & _ & _ & R).
  - reflexivity.
  - reflexivity.
  - vm_compute. discriminate.
  - vm_compute. reflexivity.
  - split; [exact N | exact R].
Defined.

(** ** The participant id *)

Section ParticipantId.

Import Duration.

Lemma digit_reads (c : ascii) (d : Decimal.uint) :
  is_digit c = true -> exists d', uint_of_char c (Some d) = Some d'.
Proof.
  destruct c as [[] [] [] [] [] [] [] []]; simpl; intros E;
    first [discriminate E | eexists; reflexivity].
Qed.

Lemma digits_read (s : string) :
  all_digits s = true -> exists d, NilEmpty.uint_of_string s = Some d.
Proof.
  induction s as [|c s IH]; simpl.
  - intros _. eexists. reflexivity.
  - intros E. apply andb_prop in E as [Ec Es].
    destruct (IH Es) as [d ->]. now apply digit_reads.
Qed.

Lemma other_character_rejected (a b : string) (c : ascii) :
  is_digit c = false -> all_digits (a +:+ String c b) = false.
Proof.
  intros E. induction a as [|x a IH]; simpl.
  - now rewrite E.
  - rewrite IH. apply andb_false_r.
Qed.

(** X4. The participant ids that the form accepts are the numerals: the
    decimal notation of every natural number passes the test, every
    string that passes reads as a natural number (zero and leading zeros
    included, the [min] of the input is not checked), and a string with
    any other character in it, a sign, a point or a letter, is
    rejected. *)
Theorem accepted_ids_are_numerals :
  (forall n : N, test_digits (decimal n) = true)
  /\ (forall s : string, test_digits s = true -> exists n : N, read_decimal s = Some n)
  /\ (forall (a b : string) (c : ascii),
        is_digit c = false -> test_digits (a +:+ String c b) = false)
  /\ (forall s : string, test_digits s = true -> test_digits (String "0" s) = true).
Proof.
  split; [|split; [|split]].
  - intros n. unfold test_digits. rewrite all_digits_decimal, andb_true_r.
    apply negb_true_iff, String.eqb_neq. intros E.
    pose proof (read_decimal_decimal n) as R. rewrite E in R. discriminate.
  - intros s E. unfold test_digits in E. apply andb_prop in E as [NE D].
    destruct (digits_read s D) as [d Ed].
    exists (N.of_uint d). unfold read_decimal, NilZero.uint_of_string.
    destruct s; [discriminate NE|]. now rewrite Ed.
  - intros a b c E. unfold test_digits.
    rewrite (other_character_rejected a b c E). apply andb_false_r.
  - intros s E. unfold test_digits in *. apply andb_prop in E as [_ D].
    simpl. exact D.
Qed.

End ParticipantId.

Lemma accepted_ids_are_numerals_witness :
  Duration.read_decimal "0042" = Some 42%N /\ test_digits "4e2" = false.
Proof.
  destruct accepted_ids_are_numerals as (_ & R & O & _).
  split.
  - destruct (R "0042" eq_refl) as [n E]. rewrite E. f_equal.
    revert E. vm_compute. now intros [= <-].
  - apply (O "4" "2" "e"%char). reflexivity.
Defined.

(** ** The inputs of the task form *)

Section TaskFormFields.

Context `{Browser}.

Import TaskFormInputs.



Lemma includes_after_change (c c' : string) (checked : bool) (f : TaskForm.FormData) :
  includes c (handleCategoryChange c' checked f)
  = if String.eqb c' c then checked else includes c f.
Proof.
  unfold includes, handleCategoryChange. cbn [TaskForm.category].
  destruct checked.
  - rewrite existsb_app. cbn [existsb]. rewrite orb_false_r, (String.eqb_sym c c').
    destruct (String.eqb c' c); [apply orb_true_r | apply orb_false_r].
  - induction (TaskForm.category f) as [|x l IH]; cbn [List.filter existsb].
    + now destruct (String.eqb c' c).
    + unfold differs at 1.
      destruct (String.eqb_spec x c') as [->|Nx]; cbn [negb existsb].
      * rewrite IH. rewrite (String.eqb_sym c c').
        now destruct (String.eqb c' c).
      * rewrite IH.
        destruct (String.eqb_spec c' c) as [->|Nc]; [|reflexivity].
        now rewrite (proj2 (String.eqb_neq c x)) by congruence.
Qed.

Lemma category_changes_snoc (events : list (string * bool)) (e : string * bool)
  (f : TaskForm.FormData) :
  category_changes (events ++ [e]) f
  = handleCategoryChange (fst e) (snd e) (category_changes events f).
Proof. unfold category_changes. now rewrite fold_left_app. Qed.

(** X6. After any changes of the checkboxes, a category is selected
    exactly when the last change that names it was a check, or, when none
    names it, when it was selected before; and the changes touch no other
    field of the form. *)
Theorem category_selected_by_last_change
  (events : list (string * bool)) (f : TaskForm.FormData) (c : string) :
  let f' := category_changes events f in
  includes c f'
  = match last_change c events with
    | Some checked => checked
    | None => includes c f
    end
  /\ TaskForm.name f' = TaskForm.name f
  /\ TaskForm.participantId f' = TaskForm.participantId f
  /\ TaskForm.batch f' = TaskForm.batch f
  /\ TaskForm.taskDescription f' = TaskForm.taskDescription f
  /\ TaskForm.estimatedTime f' = TaskForm.estimatedTime f
  /\ TaskForm.systemType f' = TaskForm.systemType f.
Proof.
  induction events as [|e events IH] using rev_ind.
  - cbn. repeat split.
  - cbv zeta in *. rewrite category_changes_snoc.
    unfold last_change in *. rewrite fold_left_app. cbn [fold_left].
    destruct IH as (I & F1 & F2 & F3 & F4 & F5 & F6).
    rewrite includes_after_change, I.
    split; [now destruct (String.eqb (fst e) c)|].
    repeat split; assumption.
Qed.

Lemma filter_absent (c : string) (l : list string) :
  existsb (String.eqb c) l = false -> List.filter (fun x => differs c x) l = l.
Proof.
  induction l as [|x l IH]; cbn [existsb List.filter]; [reflexivity|].
  intros E. apply orb_false_iff in E as [Ex El].
  unfold differs at 1. rewrite String.eqb_sym, Ex. cbn [negb].
  now rewrite (IH El).
Qed.

(** X7. Checking a category that is not selected and unchecking it again
    gives back the form as it was, and keeps the list free of duplicates
    if it was; unchecking removes every occurrence, so that checking
    twice (which the handler does not refuse) is undone by one uncheck as
    well; and unchecking a category that is not selected changes
    nothing. *)
Theorem category_check_then_uncheck (c : string) (f : TaskForm.FormData) :
  includes c f = false ->
  let checked := handleCategoryChange c true f in
  TaskForm.category checked = (TaskForm.category f ++ [c])%list
  /\ handleCategoryChange c false checked = f
  /\ handleCategoryChange c false (handleCategoryChange c true checked) = f
  /\ handleCategoryChange c false f = f
  /\ (NoDup (TaskForm.category f) -> NoDup (TaskForm.category checked)).
Proof.
  intros A checked. subst checked. unfold includes in A.
  assert (F : forall l, existsb (String.eqb c) l = false ->
              List.filter (fun x => differs c x) (l ++ [c]) = l).
  { intros l E. rewrite List.filter_app, (filter_absent c l E). cbn [List.filter].
    unfold differs. rewrite String.eqb_refl. cbn [negb]. apply app_nil_r. }
  split; [reflexivity|].
  split; [|split; [|split]].
  - unfold handleCategoryChange. cbn [TaskForm.category TaskForm.name
      TaskForm.participantId TaskForm.batch TaskForm.taskDescription
      TaskForm.estimatedTime TaskForm.systemType].
    rewrite (F _ A). now destruct f.
  - unfold handleCategoryChange. cbn [TaskForm.category TaskForm.name
      TaskForm.participantId TaskForm.batch TaskForm.taskDescription
      TaskForm.estimatedTime TaskForm.systemType].
    rewrite List.filter_app. cbn [List.filter]. unfold differs at 2.
    rewrite String.eqb_refl. cbn [negb]. rewrite app_nil_r, (F _ A).
    now destruct f.
  - unfold handleCategoryChange. rewrite (filter_absent c _ A). now destruct f.
  - intros ND. cbn [handleCategoryChange TaskForm.category].
    apply NoDup_app. split; [exact ND|]. split; [|apply NoDup_singleton].
    intros x Hx Hc. apply list_elem_of_In in Hc. destruct Hc as [E|[]].
    apply list_elem_of_In in Hx. rewrite E in A.
    assert (T : existsb (String.eqb x) (TaskForm.category f) = true).
    { apply existsb_exists. exists x. split; [exact Hx | apply String.eqb_refl]. }
    congruence.
Qed.

(** X8. Unchecking the only selected category blocks the start: the
    form that results has no category, and submitting it shows the toast
    that asks to fill in all fields, stores nothing and calls nothing,
    however the other fields are filled. *)
Theorem unchecking_the_last_category_blocks_the_start
  (c : string) (f : TaskForm.FormData) (now : Z) (o : outcome) (w : World) :
  (forall x, In x (TaskForm.category f) -> x = c) ->
  let f' := handleCategoryChange c false f in
  let p := TaskForm.handleSubmit f' now o in
  TaskForm.category f' = []
  /\ toasts (effects p f' w)
     = [Toast "Please fill in all fields" None (Some "destructive")]
  /\ api_calls (effects p f' w) = []
  /\ localStorage (world_after p f' w) = localStorage w
  /\ navigations (effects p f' w) = [].
Proof.
  intros Only f' p.
  assert (E : TaskForm.category f' = []).
  { subst f'. cbn [handleCategoryChange TaskForm.category].
    induction (TaskForm.category f) as [|x l IH]; [reflexivity|].
    cbn [List.filter]. unfold differs at 1.
    rewrite (Only x (or_introl eq_refl)), String.eqb_refl. cbn [negb].
    apply IH. intros y Hy. apply Only. now right. }
  assert (I : TaskForm.incomplete f' = true).
  { apply incomplete_spec. tauto. }
  pose proof (task_form_incomplete f' now o w I) as R. fold p in R.
  unfold world_after. rewrite (effects_run _ _ _ _ _ _ _ R), R.
  repeat split; [exact E].
Qed.

End TaskFormFields.

Lemma category_check_then_uncheck_witness :
  TaskFormInputs.handleCategoryChange "studying" false
    (TaskFormInputs.handleCategoryChange "studying" true Demo.formData)
  = Demo.formData.
Proof.
  pose proof (category_check_then_uncheck "studying" Demo.formData eq_refl) as W.
  cbv zeta in W. exact (proj1 (proj2 W)).
Defined.

Lemma unchecking_the_last_category_blocks_the_start_witness :
  let f := TaskForm.mkFormData "Asha" "42" "UG27" ["coding"] "Notes" "30" "system1" in
  let f' := TaskFormInputs.handleCategoryChange "coding" false f in
  form_accepted f = true
  /\ api_calls (effects (@TaskForm.handleSubmit Reference.browser f' Demo.started
                           (Resolved Demo.stop_ok)) f' Demo.world) = [].
Proof.
  intros f f'. split; [reflexivity|].
  pose proof (@unchecking_the_last_category_blocks_the_start Reference.browser
                "coding" f Demo.started (Resolved Demo.stop_ok) Demo.world) as W.
  cbv zeta in W. apply W.
  intros x [<-|[]]. reflexivity.
Defined.

(** ** The inputs of the assessment *)

Section AssessmentInputs.

Context `{Browser}.

Import TaskResults TaskResultsInputs.

Lemma length_obj_set (k : string) (v : value) (o : obj) :
  (length o <= length (obj_set k v o))%nat.
Proof.
  induction o as [|[k' v'] o IH]; cbn [obj_set length]; [lia|].
  destruct (String.eqb k k'); cbn [length]; lia.
Qed.

Lemma length_changes (events : list (string * string)) (o : obj) :
  (length o <= length (Updaters.changes events o))%nat.
Proof.
  revert o. induction events as [|e events IH]; intros o; [cbn; lia|].
  unfold Updaters.changes in *. cbn [fold_left].
  etransitivity; [|apply IH].
  unfold Updaters.change, obj_extend. cbn [fold_left fst snd].
  apply length_obj_set.
Qed.

Ltac next_entry o :=
  let k := fresh "k" in
  let v := fresh "v" in
  destruct o as [|[k v] o]; [discriminate|]; destruct v; try discriminate.

Lemma nasaTlx_of_length (o : obj) (n : NasaTlx) :
  nasaTlx_of o = Some n -> length o = 6%nat.
Proof.
  unfold nasaTlx_of. intros E.
  do 6 next_entry o.
  destruct o; [reflexivity | discriminate].
Qed.

Lemma likert_of_length (o : obj) (l : Likert) :
  likert_of o = Some l -> length o = 3%nat.
Proof.
  unfold likert_of. intros E.
  do 3 next_entry o.
  destruct o; [reflexivity | discriminate].
Qed.

Lemma nasaTlx_of_long (events : list (string * string)) (o : obj) :
  (6 < length o)%nat -> nasaTlx_of (Updaters.changes events o) = None.
Proof.
  intros Lo. destruct (nasaTlx_of (Updaters.changes events o)) as [n|] eqn:E;
    [|reflexivity].
  apply nasaTlx_of_length in E. pose proof (length_changes events o). lia.
Qed.

Lemma likert_of_long (events : list (string * string)) (o : obj) :
  (3 < length o)%nat -> likert_of (Updaters.changes events o) = None.
Proof.
  intros Lo. destruct (likert_of (Updaters.changes events o)) as [n|] eqn:E;
    [|reflexivity].
  apply likert_of_length in E. pose proof (length_changes events o). lia.
Qed.

Lemma nasaTlx_changes (events : list (string * string)) (n : NasaTlx) :
  nasaTlx_of (Updaters.changes events (spread (nasaTlx_obj n)))
  = if named nasaTlx_fields events then Some (nasaTlx_after events n) else None.
Proof.
  revert n. induction events as [|[f v] events IH]; intros n.
  - now destruct n.
  - unfold Updaters.changes, named in *. cbn [fold_left forallb fst snd].
    unfold nasaTlx_fields at 1. cbn [existsb].
    unfold Updaters.change, obj_extend, nasaTlx_obj, spread.
    cbn [fold_left fst snd obj_set].
    destruct (String.eqb_spec f "mental") as [->|N1].
    { exact (IH (mkNasaTlx v (physical n) (temporal n) (performance n)
                   (effort n) (frustration n))). }
    destruct (String.eqb_spec f "physical") as [->|N2].
    { exact (IH (mkNasaTlx (mental n) v (temporal n) (performance n)
                   (effort n) (frustration n))). }
    destruct (String.eqb_spec f "temporal") as [->|N3].
    { exact (IH (mkNasaTlx (mental n) (physical n) v (performance n)
                   (effort n) (frustration n))). }
    destruct (String.eqb_spec f "performance") as [->|N4].
    { exact (IH (mkNasaTlx (mental n) (physical n) (temporal n) v
                   (effort n) (frustration n))). }
    destruct (String.eqb_spec f "effort") as [->|N5].
    { exact (IH (mkNasaTlx (mental n) (physical n) (temporal n) (performance n)
                   v (frustration n))). }
    destruct (String.eqb_spec f "frustration") as [->|N6].
    { exact (IH (mkNasaTlx (mental n) (physical n) (temporal n) (performance n)
                   (effort n) v)). }
    cbn [orb andb].
    refine (nasaTlx_of_long events _ _). cbn [length]. lia.
Qed.

Lemma likert_changes (events : list (string * string)) (l : Likert) :
  likert_of (Updaters.changes events (spread (likert_obj l)))
  = if named likert_fields events then Some (likert_after events l) else None.
Proof.
  revert l. induction events as [|[f v] events IH]; intros l.
  - now destruct l.
  - unfold Updaters.changes, named in *. cbn [fold_left forallb fst snd].
    unfold likert_fields at 1. cbn [existsb].
    unfold Updaters.change, obj_extend, likert_obj, spread.
    cbn [fold_left fst snd obj_set].
    destruct (String.eqb_spec f "accuracy") as [->|N1].
    { exact (IH (mkLikert v (effectiveness l) (personalisation l))). }
    destruct (String.eqb_spec f "effectiveness") as [->|N2].
    { exact (IH (mkLikert (accuracy l) v (personalisation l))). }
    destruct (String.eqb_spec f "personalisation") as [->|N3].
    { exact (IH (mkLikert (accuracy l) (effectiveness l) v)). }
    cbn [orb andb].
    refine (likert_of_long events _ _). cbn [length]. lia.
Qed.




Lemma last_value_empty (f start : string) (events : list (string * string)) :
  (forall e, In e events -> snd e <> "") ->
  String.eqb (Updaters.last_value f start events) ""
  = if existsb (fun e => String.eqb (fst e) f) events then false
    else String.eqb start "".
Proof.
  revert start. induction events as [|e events IH]; intros start V; [reflexivity|].
  unfold Updaters.last_value in *. cbn [fold_left existsb].
  rewrite IH by (intros e' He'; apply V; now right).
  destruct (String.eqb (fst e) f); cbn [orb]; [|reflexivity].
  rewrite (proj2 (String.eqb_neq (snd e) "")) by (apply V; now left).
  now destruct (existsb _ events).
Qed.

Lemma items_not_empty (v : string) :
  In v nasaTlx_items \/ In v likert_items -> v <> "".
Proof.
  assert (E : forallb (fun v => negb (String.eqb v "")) (nasaTlx_items ++ likert_items)
              = true) by (vm_compute; reflexivity).
  rewrite forallb_forall in E.
  intros I. specialize (E v). rewrite in_app_iff in E. specialize (E I).
  apply negb_true_iff, String.eqb_neq in E. exact E.
Qed.

(** X10. On a page whose scales are still unanswered, the answers pass
    the check of [handleSubmit] exactly when each of the nine scales has
    been chosen at least once, in whatever order and however often: the
    radio items offer the numbers 0 to 10 and 1 to 5, none of which is
    the empty string, so that an answer, once given, can be changed but
    not taken back. *)
Theorem assessment_answered_when_every_scale_chosen
  (nasa likert : list (string * string)) (st : State) :
  named nasaTlx_fields nasa = true ->
  named likert_fields likert = true ->
  (forall e, In e nasa -> In (snd e) nasaTlx_items) ->
  (forall e, In e likert -> In (snd e) likert_items) ->
  exists st',
    answered_with nasa likert st = Some st'
    /\ (nasaTlx st = nasaTlx initial -> likertResponses st = likertResponses initial ->
        assessment_answered st'
        = covered nasaTlx_fields nasa && covered likert_fields likert)
    /\ (assessment_answered st = true -> assessment_answered st' = true).
Proof.
  intros N L VN VL.
  assert (EN : forall e, In e nasa -> snd e <> "").
  { intros e He. apply items_not_empty. left. now apply VN. }
  assert (EL : forall e, In e likert -> snd e <> "").
  { intros e He. apply items_not_empty. right. now apply VL. }
  unfold answered_with.
  change (nasaTlx_of _)
    with (nasaTlx_of (Updaters.changes nasa (spread (nasaTlx_obj (nasaTlx st))))).
  change (likert_of _)
    with (likert_of (Updaters.changes likert (spread (likert_obj (likertResponses st))))).
  rewrite nasaTlx_changes, likert_changes, N, L.
  eexists. split; [reflexivity|].
  unfold assessment_answered, every_nonempty, nasaTlx_values, likert_values,
    setLikertResponses, setNasaTlx, nasaTlx_after, likert_after, covered,
    nasaTlx_fields, likert_fields.
  cbn [nasaTlx likertResponses mental physical temporal performance effort
       frustration accuracy effectiveness personalisation forallb].
  rewrite !(last_value_empty _ _ nasa EN), !(last_value_empty _ _ likert EL).
  split.
  - intros -> ->. cbn [initial nasaTlx likertResponses mental physical temporal
      performance effort frustration accuracy effectiveness personalisation].
    cbn [String.eqb].
    repeat match goal with
    | |- context [existsb ?p ?l] => destruct (existsb p l)
    end; reflexivity.
  - rewrite !andb_true_iff, !negb_true_iff.
    intros ((A1 & A2 & A3 & A4 & A5 & A6 & _) & (B1 & B2 & B3 & _)).
    rewrite A1, A2, A3, A4, A5, A6, B1, B2, B3.
    repeat match goal with
    | |- context [existsb ?p ?l] => destruct (existsb p l)
    end; repeat split.
Qed.

Lemma uploads_run (selections : list (option (list File))) (st : State) (w : World) :
  run (uploads selections) st w
  = (inl tt, (setUploadedFile (last_file (uploadedFile st) selections) st, w)).
Proof.
  revert st. induction selections as [|files later IH]; intros st.
  - cbn [uploads last_file fold_left]. rewrite run_ret. now destruct st.
  - cbn [uploads]. rewrite run_bind.
    unfold last_file in *. cbn [fold_left].
    destruct files as [[|file more]|]; cbn [handleFileUpload].
    + rewrite run_ret. apply IH.
    + rewrite run_setState, IH. reflexivity.
    + rewrite run_ret. apply IH.
Qed.

(** X11. The file input keeps the first file of the last selection that
    had one: a selection without a file (the dialog closed, [files] empty
    or [null]) does not take the file away, the further files of a
    selection are ignored, and selecting does nothing else (no storage
    access, no toast, no request).  The assessment then reports the name
    of that file, or ["No file uploaded"] when there is none or its name
    is empty. *)
Theorem upload_keeps_the_last_file
  (selections : list (option (list File))) (st : State) (now : Z) (w : World) :
  let p := uploads selections in
  let st' := state_after p st w in
  result_of p st w = inl tt
  /\ world_after p st w = w
  /\ st' = setUploadedFile (last_file (uploadedFile st) selections) st
  /\ field "file" (assessmentData st' now)
     = VStr (match last_file (uploadedFile st) selections with
             | Some file =>
                 if String.eqb (file_name file) "" then "No file uploaded"
                 else file_name file
             | None => "No file uploaded"
             end).
Proof.
  intros p st'. subst p st'.
  unfold result_of, world_after, state_after. rewrite uploads_run.
  repeat split.
Qed.

End AssessmentInputs.

Lemma assessment_answered_when_every_scale_chosen_witness :
  exists st',
    TaskResultsInputs.answered_with
      [("mental", "7"); ("physical", "1"); ("temporal", "5"); ("mental", "3");
       ("performance", "8"); ("effort", "6"); ("frustration", "10")]
      [("accuracy", "4"); ("effectiveness", "5"); ("personalisation", "3")]
      TaskResults.initial = Some st'
    /\ assessment_answered st' = true.
Proof.
  destruct (assessment_answered_when_every_scale_chosen
              [("mental", "7"); ("physical", "1"); ("temporal", "5"); ("mental", "3");
               ("performance", "8"); ("effort", "6"); ("frustration", "10")]
              [("accuracy", "4"); ("effectiveness", "5"); ("personalisation", "3")]
              TaskResults.initial eq_refl eq_refl)
    as (st' & A & C & _).
  - intros e I. repeat (destruct I as [<-|I]; [vm_compute; tauto|]). destruct I.
  - intros e I. repeat (destruct I as [<-|I]; [vm_compute; tauto|]). destruct I.
  - exists st'. split; [exact A|]. now rewrite C.
Defined.

(** ** The methods of the API service *)

Section ApiServiceMethods.

Context `{Browser} {C : Type}.

Import ApiService.

Lemma sending_run (label failure : string) (f : fetched) (c : C) (w : World) :
  run (ApiMethods.sending label failure f) c w
  = ApiMethods.settled label (request failure f) c w.
Proof.
  unfold ApiMethods.sending, ApiMethods.logged, ApiMethods.json, ApiMethods.settled,
    request.
  destruct f as [e|ok [result|e]]; [now run_prog| |now run_prog].
  destruct ok; cbn [negb]; [now run_prog|].
  run_prog. destruct (nullish result); now run_prog.
Qed.

Lemma reading_run (label failure : string) (f : fetched) (c : C) (w : World) :
  run (ApiMethods.reading label failure f) c w
  = ApiMethods.settled label (ApiMethods.read failure f) c w.
Proof.
  unfold ApiMethods.reading, ApiMethods.logged, ApiMethods.json, ApiMethods.settled,
    ApiMethods.read.
  destruct f as [e|ok [result|e]]; [now run_prog| |now run_prog].
  destruct ok; cbn [negb]; now run_prog.
Qed.

(** X12. The four methods that send data settle as the pages take them
    to: each resolves with the body of the response, or rejects with the
    error, that [request] gives with the fallback message of the method;
    when it rejects, it has logged that same error once, under its own
    label, before throwing it again; when it resolves, it has logged
    nothing; and in neither case does it touch the storage or the state
    of the caller. *)
Theorem sending_methods_log_and_rethrow (f : fetched) (c : C) (w : World) :
  run (ApiMethods.saveTaskDetailsAndStart f) c w
  = ApiMethods.settled "Error saving task details:" (saveTaskDetailsAndStart f) c w
  /\ run (ApiMethods.stopInterventions f) c w
     = ApiMethods.settled "Error stopping interventions:" (stopInterventions f) c w
  /\ run (ApiMethods.saveAssessment f) c w
     = ApiMethods.settled "Error saving assessment:" (saveAssessment f) c w
  /\ run (ApiMethods.saveFeedback f) c w
     = ApiMethods.settled "Error saving feedback:"
         (request "Failed to save feedback" f) c w.
Proof. repeat split; apply sending_run. Qed.

(** X13. The two methods that only read, [getStatus] and
    [getTaskDetails], resolve exactly when the response is [ok] and its
    body is JSON, and then with that body and without logging.  Otherwise
    they reject: with the error of a failed [fetch], with the error of
    [json()] for a body that is not JSON, even when the response is [ok],
    and for a response that is not [ok] with their own fixed message,
    whatever the body says (unlike the methods that send, they never pass
    on the message of the server and do not fail on a [null] body).  Every
    rejection, of each of the three kinds, is logged once under the label
    of the method before it is thrown again, and nothing else is done:
    the state of the caller and the storage are as they were. *)
Theorem reading_methods_report_their_own_message
  (f : fetched) (c : C) (w : World) :
  let logged (label : string) (e : error) : (value + error) * (C * World) :=
    (inr e, (c, mkWorld (localStorage w) (log w ++ [ConsoleError label e]))) in
  run (ApiMethods.getStatus f) c w
  = ApiMethods.settled "Error getting status:"
      (ApiMethods.read "Failed to get status" f) c w
  /\ run (ApiMethods.getTaskDetails f) c w
     = ApiMethods.settled "Error getting task details:"
         (ApiMethods.read "Failed to get task details" f) c w
  /\ (forall result,
        result_of (ApiMethods.getStatus f) c w = inl result
        <-> f = Response true (inl result))
  /\ (forall result,
        result_of (ApiMethods.getTaskDetails f) c w = inl result
        <-> f = Response true (inl result))
  /\ (forall result,
        run (ApiMethods.getStatus (Response true (inl result))) c w
        = (inl result, (c, w))
        /\ run (ApiMethods.getTaskDetails (Response true (inl result))) c w
           = (inl result, (c, w)))
  /\ (forall body,
        run (ApiMethods.getStatus (Response false (inl body))) c w
        = logged "Error getting status:" (Error "Failed to get status")
        /\ run (ApiMethods.getTaskDetails (Response false (inl body))) c w
           = logged "Error getting task details:" (Error "Failed to get task details"))
  /\ (forall ok e,
        run (ApiMethods.getStatus (Response ok (inr e))) c w
        = logged "Error getting status:" e
        /\ run (ApiMethods.getTaskDetails (Response ok (inr e))) c w
           = logged "Error getting task details:" e)
  /\ (forall e,
        run (ApiMethods.getStatus (Failed e)) c w
        = logged "Error getting status:" e
        /\ run (ApiMethods.getTaskDetails (Failed e)) c w
           = logged "Error getting task details:" e)
  /\ state_after (ApiMethods.getStatus f) c w = c
  /\ state_after (ApiMethods.getTaskDetails f) c w = c
  /\ localStorage (world_after (ApiMethods.getStatus f) c w) = localStorage w
  /\ localStorage (world_after (ApiMethods.getTaskDetails f) c w) = localStorage w.
Proof.
  intros logged. subst logged.
  unfold ApiMethods.getStatus, ApiMethods.getTaskDetails, result_of, state_after,
    world_after.
  assert (R : forall label failure result,
            fst (run (ApiMethods.reading label failure f) c w) = inl result
            <-> f = Response true (inl result)).
  { intros label failure result. rewrite reading_run.
    destruct f as [e|[] [body|e]]; cbn; split; congruence. }
  assert (S : forall label failure,
            fst (snd (run (ApiMethods.reading label failure f) c w)) = c
            /\ localStorage (snd (snd (run (ApiMethods.reading label failure f) c w)))
               = localStorage w).
  { intros label failure. rewrite reading_run.
    destruct f as [e|[] [body|e]]; cbn; split; reflexivity. }
  split; [apply reading_run|]. split; [apply reading_run|].
  split; [apply R|]. split; [apply R|].
  split; [intros result; now rewrite !reading_run|].
  split; [intros body; now rewrite !reading_run|].
  split; [intros ok e; rewrite !reading_run; now destruct ok|].
  split; [intros e; now rewrite !reading_run|].
  split; [apply S|]. split; [apply S|]. split; apply S.
Qed.

End ApiServiceMethods.

(** ** Ending the session, whatever the request does *)

Section EndSessionOutcomes.

Context `{Browser}.

Import TaskSession.

Lemma unchanged_world (w : World) : w = mkWorld (localStorage w) (log w ++ []).
Proof. destruct w. cbn. now rewrite app_nil_r. Qed.

Lemma stopped_record (st : State) (now : Z) (o : outcome) :
  obj_get "interventionsStopped" (Flow.sessionData st now o)
  = Some (VBool (Flow.stopped o)).
Proof.
  unfold Flow.sessionData. rewrite obj_get_extend.
  destruct o as [result|e]; cbn [delivered Flow.stopped].
  - destruct (nullish result) eqn:N; [|reflexivity].
    destruct result; try discriminate N; reflexivity.
  - reflexivity.
Qed.

Lemma session_record_field (st : TaskSession.State) (now : Z) (o : outcome) (k : string) :
  ~ In k ["endTime"; "actualDuration"; "interventionsStopped"; "error"] ->
  obj_get k (Flow.sessionData st now o) = obj_get k (spread (TaskSession.taskData st)).
Proof.
  intros Hk. unfold Flow.sessionData. rewrite obj_get_extend.
  cbn [In] in Hk.
  destruct (delivered o); cbn [rev app obj_get];
    repeat match goal with
    | |- context [String.eqb k ?x] =>
        destruct (String.eqb_spec k x) as [->|_]; [exfalso; apply Hk; tauto|]
    end; reflexivity.
Qed.

Lemma session_record_duration (st : TaskSession.State) (now : Z) (o : outcome) :
  obj_get "actualDuration" (Flow.sessionData st now o)
  = Some (VNum (TaskSession.elapsedTime st)).
Proof.
  unfold Flow.sessionData. rewrite obj_get_extend.
  destruct (delivered o); reflexivity.
Qed.

(** The run of the handler once its guard is passed. *)
Lemma end_session_run (st : State) (now : Z) (o : outcome) (w : World) :
  falsy (taskData st) = false -> isEndingSession st = false ->
  let text := JSON_stringify (VObj (Flow.sessionData st now o)) in
  exists evs t,
    run (handleEndSession st now o) st w
    = (inl tt, (st, mkWorld (<["completedTask" := text]> (localStorage w)) (log w ++ evs)))
    /\ api_calls evs = [stopInterventions]
    /\ storage_writes evs = [SetItem "completedTask" text]
    /\ navigations evs = ["/task-results"]
    /\ toasts evs = [t]
    /\ title t = "Task session ended"
    /\ destructive t = negb (Flow.stopped o).
Proof.
  intros G1 G2 text. subst text. unfold Flow.sessionData.
  destruct o as [result|e]; cbn [delivered Flow.stopped].
  - destruct (nullish result) eqn:N; cbn [negb].
    + do 2 eexists.
      split; [apply (handleEndSession_no_body st now result w G1 G2 N)|].
      destruct result; try discriminate N; repeat split.
    + pose proof (handleEndSession_resolved st now result w G1 G2 N) as R.
      cbv zeta in R.
      destruct (is_string (field "status" result) "success");
        do 2 eexists; (split; [exact R|]); repeat split.
  - do 2 eexists.
    split; [apply (handleEndSession_rejected st now e w G1 G2)|].
    repeat split.
Qed.

(** X14. Ending the session always hands over to the assessment.  When
    the page has its task and is not already ending, [handleEndSession],
    whatever becomes of the request (it resolves with any body, resolves
    without one, or rejects), calls [stopInterventions] once, writes one
    ["completedTask"] record and nothing else to the storage, shows one
    toast titled ["Task session ended"], navigates to ["/task-results"]
    once, throws nothing and leaves the state of the page as it was.  The
    toast warns (is destructive) exactly when the record says that the
    interventions were not stopped, that is unless the response has the
    status ["success"].  Otherwise the handler does nothing at all. *)
Theorem end_session_always_hands_over
  (st : State) (now : Z) (o : outcome) (w : World) :
  let p := handleEndSession st now o in
  let ready := negb (falsy (taskData st) || isEndingSession st) in
  let text := JSON_stringify (VObj (Flow.sessionData st now o)) in
  result_of p st w = inl tt
  /\ state_after p st w = st
  /\ api_calls (effects p st w) = (if ready then [stopInterventions] else [])
  /\ storage_writes (effects p st w)
     = (if ready then [SetItem "completedTask" text] else [])
  /\ localStorage (world_after p st w)
     = (if ready then <["completedTask" := text]> (localStorage w) else localStorage w)
  /\ navigations (effects p st w) = (if ready then ["/task-results"] else [])
  /\ (exists ts,
        toasts (effects p st w) = ts
        /\ length ts = (if ready then 1%nat else 0%nat)
        /\ forall t, In t ts ->
             title t = "Task session ended"
             /\ destructive t = negb (Flow.stopped o))
  /\ obj_get "interventionsStopped" (Flow.sessionData st now o)
     = Some (VBool (Flow.stopped o)).
Proof.
  intros p ready text. subst p ready.
  destruct (falsy (taskData st) || isEndingSession st) eqn:G; cbn [negb].
  - pose proof (handleEndSession_guard st now o w G) as R.
    rewrite (unchanged_world w) in R at 2.
    unfold result_of, state_after, world_after.
    rewrite (effects_run _ _ _ _ _ _ _ R), R.
    repeat split; [|apply stopped_record].
    exists []. split; [reflexivity|]. split; [reflexivity|]. intros t0 [].
  - apply orb_false_iff in G as [G1 G2].
    destruct (end_session_run st now o w G1 G2) as (evs & t & R & A & S & N & T & Ti & D).
    unfold result_of, state_after, world_after.
    rewrite (effects_run _ _ _ _ _ _ _ R), R.
    repeat split; try assumption; [|apply stopped_record].
    exists [t]. split; [exact T|]. split; [reflexivity|].
    intros t' [<-|[]]. split; assumption.
Qed.

End EndSessionOutcomes.

(** ** Submitting the assessment, whatever the request does *)

Section AssessmentOutcomes.

Context `{Browser}.

Import TaskResults.

Lemma assessment_run (st : State) (now : Z) (o : outcome) (w : World) :
  let accepted := assessment_accepted st in
  exists evs t,
    run (handleSubmit st now o) st w
    = (inl tt,
       (if accepted then setIsSubmitting false st else st,
        mkWorld
          (if accepted && Flow.resolved o then cleared st now (localStorage w)
           else localStorage w)
          (log w ++ evs)))
    /\ api_calls evs
       = (if accepted then [saveAssessment (assessmentData st now)] else [])
    /\ navigations evs = (if accepted && delivered o then ["/"] else [])
    /\ toasts evs = [t]
    /\ destructive t = negb (accepted && delivered o).
Proof.
  intros accepted. subst accepted.
  destruct (assessment_accepted st) eqn:V; cbn [andb].
  - destruct o as [result|e]; cbn [Flow.resolved delivered].
    + destruct (nullish result) eqn:N; cbn [negb].
      * pose proof (assessment_no_body st now result w V N) as R. cbv zeta in R.
        do 2 eexists. split; [exact R|]. repeat split.
      * do 2 eexists. split; [apply (assessment_resolved st now result w V N)|].
        repeat split.
    + do 2 eexists. split; [apply (assessment_rejected st now e w V)|].
      repeat split.
  - unfold assessment_accepted in V. apply andb_false_iff in V as [V|V].
    + do 2 eexists. split; [apply (assessment_unanswered st now o w V)|].
      repeat split.
    + destruct (assessment_answered st) eqn:A.
      * unfold truthy in V. apply negb_false_iff in V.
        do 2 eexists. split; [apply (assessment_no_participant st now o w A V)|].
        repeat split.
      * do 2 eexists. split; [apply (assessment_unanswered st now o w A)|].
        repeat split.
Qed.

(** X15. What submitting the assessment does, in every case.  The
    handler never throws and always shows exactly one toast.  It calls
    [saveAssessment], once and with the assessment data, exactly when all
    nine scales are answered and the participant id of the task is
    truthy; otherwise it leaves the state of the page and the storage as
    they were.  It navigates to ["/"], with a toast that does not warn,
    exactly when in addition the request resolves with a body; and it
    replaces the session records by ["sessionResults"] as soon as the
    request resolves, with or without a body.  After a call the
    submitting flag is off again, whatever the outcome. *)
Theorem assessment_submission_outcomes
  (st : State) (now : Z) (o : outcome) (w : World) :
  let p := handleSubmit st now o in
  let accepted := assessment_accepted st in
  result_of p st w = inl tt
  /\ state_after p st w = (if accepted then setIsSubmitting false st else st)
  /\ api_calls (effects p st w)
     = (if accepted then [saveAssessment (assessmentData st now)] else [])
  /\ localStorage (world_after p st w)
     = (if accepted && Flow.resolved o then cleared st now (localStorage w)
        else localStorage w)
  /\ navigations (effects p st w) = (if accepted && delivered o then ["/"] else [])
  /\ exists t,
       toasts (effects p st w) = [t]
       /\ destructive t = negb (accepted && delivered o).
Proof.
  intros p accepted. subst p accepted.
  destruct (assessment_run st now o w) as (evs & t & R & A & N & T & D).
  cbv zeta in R.
  unfold result_of, state_after, world_after.
  rewrite (effects_run _ _ _ _ _ _ _ R), R.
  repeat split; try assumption.
  exists t. split; assumption.
Qed.

(** X16. A response that cannot be read loses the session.  When the
    assessment passes the checks and the request resolves without a body,
    the page reports the failure (a destructive toast, no navigation) and
    stays; but the records of the session are already removed from the
    storage and the results written.  The page, loaded again, then finds
    no ["completedTask"] and redirects to ["/"], and the session page
    finds no ["currentTask"] and redirects to ["/task-form"]. *)
Theorem unread_response_loses_the_session
  (st : State) (now : Z) (result : value) (w : World) :
  assessment_accepted st = true ->
  nullish result = true ->
  let p := handleSubmit st now (Resolved result) in
  let w' := world_after p st w in
  navigations (effects p st w) = []
  /\ (exists t, toasts (effects p st w) = [t]
                /\ title t = "Failed to save assessment"
                /\ destructive t = true)
  /\ localStorage w' !! "sessionResults" = Some (JSON_stringify (assessmentData st now))
  /\ localStorage w' !! "completedTask" = None
  /\ localStorage w' !! "currentTask" = None
  /\ navigations (effects mount initial w') = ["/"]
  /\ render (state_after mount initial w') = Loading
  /\ navigations (effects TaskSession.mount TaskSession.initial w') = ["/task-form"]
  /\ TaskSession.render (state_after TaskSession.mount TaskSession.initial w')
     = TaskSession.Loading.
Proof.
  intros V N p w'.
  pose proof (assessment_no_body st now result w V N) as R. cbv zeta in R.
  fold p in R.
  destruct (cleared_lookup st now (localStorage w)) as (L1 & L2 & L3 & _).
  assert (W : localStorage w' = cleared st now (localStorage w)).
  { subst w'. unfold world_after. now rewrite R. }
  assert (M : run mount initial w'
              = (inl tt, (initial, mkWorld (localStorage w') (log w' ++ [Navigate "/"])))).
  { rewrite results_mount, W, L3. reflexivity. }
  assert (S : run TaskSession.mount TaskSession.initial w'
              = (inl None, (TaskSession.initial,
                            mkWorld (localStorage w') (log w' ++ [Navigate "/task-form"])))).
  { rewrite session_mount, W, L2. reflexivity. }
  rewrite (effects_run _ _ _ _ _ _ _ R).
  rewrite (effects_run _ _ _ _ _ _ _ M), (effects_run _ _ _ _ _ _ _ S).
  unfold state_after. rewrite M, S, W.
  repeat split; try assumption.
  eexists. repeat split.
Qed.

End AssessmentOutcomes.

Lemma unread_response_loses_the_session_witness :
  let p := @TaskResults.handleSubmit Reference.browser Demo.assessment
             (Demo.ended + 90000) (Resolved VNull) in
  let w' := world_after p Demo.assessment Demo.stored in
  navigations (effects p Demo.assessment Demo.stored) = []
  /\ navigations (effects (@TaskResults.mount Reference.browser) TaskResults.initial w')
     = ["/"].
Proof.
  intros p w'.
  destruct (@unread_response_loses_the_session Reference.browser Demo.assessment
              (Demo.ended + 90000) VNull Demo.stored eq_refl eq_refl)
    as (N & _ & _ & _ & _ & M & _).
  split; [exact N | exact M].
Defined.

(** ** Records that cannot be read, and the timer *)

Section RecordsAndTimer.

Context `{Browser}.

(** X17. A stored record that is not JSON makes the effect throw.
    The effects of the session page, of the assessment page and of the
    feedback variant call [JSON.parse] outside any [try]: on a record
    that is there but is not JSON they throw its [SyntaxError], before the
    task data is set and, on the session page, before the timer is
    started; the record being there, they do not redirect, and they write,
    remove, request and show nothing.  (What React does with an error
    thrown by an effect is outside the pages.) *)
Theorem unreadable_record_makes_the_effect_throw (text : string) (w : World) :
  text <> "" ->
  JSON_parse text = None ->
  (localStorage w !! "currentTask" = Some text ->
   run TaskSession.mount TaskSession.initial w
   = (inr (SyntaxError_parsing text), (TaskSession.initial, w))
   /\ effects TaskSession.mount TaskSession.initial w = [])
  /\ (localStorage w !! "completedTask" = Some text ->
      run TaskResults.mount TaskResults.initial w
      = (inr (SyntaxError_parsing text), (TaskResults.initial, w))
      /\ effects TaskResults.mount TaskResults.initial w = []
      /\ run TaskResultsFeedback.mount TaskResultsFeedback.initial w
         = (inr (SyntaxError_parsing text), (TaskResultsFeedback.initial, w))
      /\ effects TaskResultsFeedback.mount TaskResultsFeedback.initial w = []).
Proof.
  intros NE P.
  assert (E : empty text = false).
  { apply not_true_is_false. rewrite empty_spec. exact NE. }
  split.
  - intros L.
    assert (R : run TaskSession.mount TaskSession.initial w
                = (inr (SyntaxError_parsing text), (TaskSession.initial, w))).
    { now rewrite session_mount, L, E, P. }
    split; [exact R|].
    unfold effects, world_after. rewrite R. cbn [fst snd]. apply drop_all.
  - intros L.
    assert (R : run TaskResults.mount TaskResults.initial w
                = (inr (SyntaxError_parsing text), (TaskResults.initial, w))).
    { now rewrite results_mount, L, E, P. }
    assert (Q : run TaskResultsFeedback.mount TaskResultsFeedback.initial w
                = (inr (SyntaxError_parsing text), (TaskResultsFeedback.initial, w))).
    { now rewrite feedback_mount, L, E, P. }
    split; [exact R|].
    split; [unfold effects, world_after; rewrite R; cbn [fst snd]; apply drop_all|].
    split; [exact Q|].
    unfold effects, world_after. rewrite Q. cbn [fst snd]. apply drop_all.
Qed.

(** X18. A task record without a usable start time loses the duration.
    When the date made of the [startTime] of the stored record has no
    time (the property is missing, or is not a date), the session page
    still shows the task, every tick sets the elapsed time to [NaN] and
    the display reads ["NaN:NaN"].  The record that [handleEndSession]
    builds has [NaN] as its [actualDuration], whatever becomes of the
    request; [JSON.stringify] writes [NaN] as [null], so that the text
    stored under ["completedTask"] is the text of the record with
    [actualDuration: null], and that record is the task data of the
    assessment page.  (Of [JSON] it is asked that it writes this [NaN] as
    [null] and gives back the record so written.) *)
Theorem timer_without_start_time
  (text : string) (task : value) (w : World) (now ended : Z) (o : outcome) :
  localStorage w !! "currentTask" = Some text ->
  text <> "" ->
  JSON_parse text = Some task ->
  falsy task = false ->
  Date_getTime (field "startTime" task) = NaN ->
  let st1 := state_after TaskSession.mount TaskSession.initial w in
  let w1 := world_after TaskSession.mount TaskSession.initial w in
  let st2 := state_after (TaskSession.tick NaN now) st1 w1 in
  let p := TaskSession.handleEndSession st2 ended o in
  let sessionData := Flow.sessionData st2 ended o in
  let written := obj_set "actualDuration" VNull sessionData in
  JSON_stringify (VObj sessionData) = JSON_stringify (VObj written) ->
  JSON_stringify (VObj written) <> "" ->
  JSON_parse (JSON_stringify (VObj written)) = Some (VObj written) ->
  let w2 := world_after p st2 w1 in
  let st3 := state_after TaskResults.mount TaskResults.initial w2 in
  result_of TaskSession.mount TaskSession.initial w = inl (Some NaN)
  /\ TaskSession.elapsedTime st2 = NaN
  /\ TaskSession.render st2 = TaskSession.Content "NaN:NaN"
  /\ obj_get "actualDuration" sessionData = Some (VNum NaN)
  /\ storage_writes (effects p st2 w1)
     = [SetItem "completedTask" (JSON_stringify (VObj written))]
  /\ localStorage w2 !! "completedTask" = Some (JSON_stringify (VObj written))
  /\ obj_get "actualDuration" written = Some VNull
  /\ TaskResults.taskData st3 = VObj written
  /\ field "actualDuration" (TaskResults.taskData st3) = VNull.
Proof.
  intros L NE P F D st1 w1 st2 p sessionData written SN WNE WRT w2 st3.
  assert (E : empty text = false).
  { apply not_true_is_false. rewrite empty_spec. exact NE. }
  assert (N : nullish task = false) by (destruct task; try discriminate F; reflexivity).
  assert (M : run TaskSession.mount TaskSession.initial w
              = (inl (Some NaN), (TaskSession.setTaskData task TaskSession.initial, w))).
  { now rewrite session_mount, L, E, P, N, D. }
  assert (S2 : st2 = TaskSession.mkState task NaN false).
  { subst st2 st1 w1. unfold state_after at 1. rewrite tick_run.
    unfold state_after. now rewrite M. }
  assert (A : obj_get "actualDuration" sessionData = Some (VNum NaN)).
  { subst sessionData. rewrite session_record_duration. now rewrite S2. }
  destruct (end_session_run st2 ended o w1) as (evs & t & R & _ & SW & _).
  { now rewrite S2. }
  { now rewrite S2. }
  fold p sessionData in R, SW. rewrite SN in R, SW.
  assert (L2 : localStorage w2 !! "completedTask" = Some (JSON_stringify (VObj written))).
  { subst w2. unfold world_after. rewrite R. apply lookup_insert_eq. }
  assert (M3 : run TaskResults.mount TaskResults.initial w2
               = (inl tt, (TaskResults.setTaskData (VObj written) TaskResults.initial, w2))).
  { rewrite results_mount, L2.
    replace (empty (JSON_stringify (VObj written))) with false
      by (symmetry; apply not_true_is_false; rewrite empty_spec; exact WNE).
    now rewrite WRT. }
  assert (S3 : TaskResults.taskData st3 = VObj written).
  { subst st3. unfold state_after. now rewrite M3. }
  assert (WA : obj_get "actualDuration" written = Some VNull).
  { subst written. apply obj_get_set_eq. }
  split; [unfold result_of; now rewrite M|].
  split; [now rewrite S2|].
  split; [rewrite S2; unfold TaskSession.render; cbn [TaskSession.taskData];
          now rewrite F|].
  split; [exact A|].
  split; [now rewrite (effects_run _ _ _ _ _ _ _ R)|].
  split; [exact L2|]. split; [exact WA|]. split; [exact S3|].
  rewrite S3. cbn [field]. now rewrite WA.
Qed.


End RecordsAndTimer.

Lemma unreadable_record_makes_the_effect_throw_witness :
  let w := mkWorld (<["currentTask" := "{"]> ∅) [] in
  result_of (@TaskSession.mount Reference.browser) TaskSession.initial w
  = inr (Error "Unexpected token in JSON")
  /\ navigations (effects (@TaskSession.mount Reference.browser) TaskSession.initial w)
     = [].
Proof.
  intros w.
  destruct (@unreadable_record_makes_the_effect_throw Reference.browser "{" w)
    as (S & _).
  - discriminate.
  - vm_compute. reflexivity.
  - destruct (S (lookup_insert_eq _ _ _)) as (R & E).
    unfold result_of. rewrite R, E. split; reflexivity.
Defined.

Lemma timer_without_start_time_witness :
  let task := VObj [("name", VStr "Asha")] in
  let text := Reference.stringify task in
  let w := mkWorld (<["currentTask" := text]> ∅) [] in
  let st1 := state_after (@TaskSession.mount Reference.browser) TaskSession.initial w in
  let w1 := world_after (@TaskSession.mount Reference.browser) TaskSession.initial w in
  let st2 := state_after (TaskSession.tick NaN Demo.ended) st1 w1 in
  let w2 :=
    world_after
      (@TaskSession.handleEndSession Reference.browser st2 Demo.ended
         (Rejected Demo.network_down)) st2 w1 in
  TaskSession.render st2 = TaskSession.Content "NaN:NaN"
  /\ option_map (field "actualDuration")
       (match localStorage w2 !! "completedTask" with
        | Some stored => Reference.parse_text stored
        | None => None
        end)
     = Some VNull.
Proof.
  cbv zeta.
  pose proof (@timer_without_start_time Reference.browser
                (Reference.stringify (VObj [("name", VStr "Asha")]))
                (VObj [("name", VStr "Asha")])
                (mkWorld
                   (<["currentTask" := Reference.stringify (VObj [("name", VStr "Asha")])]> ∅)
                   [])
                Demo.ended Demo.ended (Rejected Demo.network_down)) as W.
  cbv zeta in W.
  destruct W as (_ & _ & R & _ & _ & L & A & _).
  - apply lookup_insert_eq.
  - vm_compute. discriminate.
  - vm_compute. reflexivity.
  - reflexivity.
  - reflexivity.
  - vm_compute. reflexivity.
  - vm_compute. discriminate.
  - vm_compute. reflexivity.
  - split; [exact R|].
    rewrite L. vm_compute. reflexivity.
Defined.

(** ** From the form to the assessment *)

Section FormToAssessment.

Context `{Browser}.

Lemma accepted_id_not_empty (formData : TaskForm.FormData) :
  form_accepted formData = true ->
  String.eqb (TaskForm.participantId formData) "" = false.
Proof.
  unfold form_accepted, test_digits.
  rewrite !andb_true_iff, !negb_true_iff. intros (_ & E & _). exact E.
Qed.

(** X20. What the participant entered in the task form is what the
    assessment sends.  Run the three pages one after the other: the form
    is accepted, the session page is mounted on what the form stored and
    ended with its timer at [elapsed], the assessment page is mounted on
    what ending stored ([JSON.parse] is asked to give back the two
    records whose texts were stored).  Then, whatever became of the
    request that started the task and of the one that stopped the
    interventions, the assessment page holds the session record, and the
    data it sends to [saveAssessment] carry the name, participant id,
    batch, categories, task description and estimated time of the form,
    unchanged.  The participant id is always there, so that only the
    scales decide whether the assessment is accepted.  The measured
    duration is in the session record but not in the data sent, nor are
    the start time and the system type. *)
Theorem form_fields_reach_the_assessment
  (formData : TaskForm.FormData) (started : Z) (start : outcome)
  (elapsed : number) (ended : Z) (stop : outcome) (w : World) :
  form_accepted formData = true ->
  let task := TaskForm.taskData formData started in
  JSON_stringify task <> "" ->
  JSON_parse (JSON_stringify task) = Some task ->
  let st2 := fst (Flow.session formData started start elapsed w) in
  let record := VObj (Flow.sessionData st2 ended stop) in
  JSON_stringify record <> "" ->
  JSON_parse (JSON_stringify record) = Some record ->
  let st3 := fst (Flow.assessment formData started start elapsed ended stop w) in
  TaskSession.taskData st2 = task
  /\ TaskResults.taskData st3 = record
  /\ field "actualDuration" record = VNum elapsed
  /\ TaskResults.render st3 = TaskResults.Content
  /\ forall (st : TaskResults.State) (now : Z),
       TaskResults.taskData st = TaskResults.taskData st3 ->
       let assessmentData := TaskResults.assessmentData st now in
       field "name" assessmentData = VStr (TaskForm.name formData)
       /\ field "participantId" assessmentData = VStr (TaskForm.participantId formData)
       /\ field "batch" assessmentData = VStr (TaskForm.batch formData)
       /\ field "category" assessmentData = VArr (map VStr (TaskForm.category formData))
       /\ field "taskDescription" assessmentData
          = VStr (TaskForm.taskDescription formData)
       /\ field "estimatedTime" assessmentData = VStr (TaskForm.estimatedTime formData)
       /\ field "actualDuration" assessmentData = VUndefined
       /\ field "startTime" assessmentData = VUndefined
       /\ field "systemType" assessmentData = VUndefined
       /\ assessment_accepted st = assessment_answered st.
Proof.
  intros V task NE1 RT1 st2 record NE2 RT2 st3.
  set (w1 := world_after (TaskForm.handleSubmit formData started start) formData w).
  assert (L1 : localStorage w1 !! "currentTask" = Some (JSON_stringify task)).
  { subst w1. rewrite (form_stores_task formData started start w V).
    apply lookup_insert_eq. }
  assert (M1 : run TaskSession.mount TaskSession.initial w1
               = (inl (Some (Date_getTime (field "startTime" task))),
                  (TaskSession.setTaskData task TaskSession.initial, w1))).
  { rewrite session_mount, L1.
    replace (empty (JSON_stringify task)) with false
      by (symmetry; apply not_true_is_false; rewrite empty_spec; exact NE1).
    now rewrite RT1. }
  assert (S2 : st2 = TaskSession.mkState task elapsed false).
  { subst st2. unfold Flow.session. fold w1. cbn [fst].
    unfold state_after. now rewrite M1. }
  assert (W2 : snd (Flow.session formData started start elapsed w) = w1).
  { unfold Flow.session. fold w1. cbn [snd].
    unfold world_after. now rewrite M1. }
  set (w3 := world_after (TaskSession.handleEndSession st2 ended stop) st2 w1).
  assert (L3 : localStorage w3 !! "completedTask" = Some (JSON_stringify record)).
  { destruct (end_session_run st2 ended stop w1) as (evs & t & R & _).
    - now rewrite S2.
    - now rewrite S2.
    - subst w3. unfold world_after. rewrite R. apply lookup_insert_eq. }
  assert (M3 : run TaskResults.mount TaskResults.initial w3
               = (inl tt, (TaskResults.setTaskData record TaskResults.initial, w3))).
  { rewrite results_mount, L3.
    replace (empty (JSON_stringify record)) with false
      by (symmetry; apply not_true_is_false; rewrite empty_spec; exact NE2).
    now rewrite RT2. }
  assert (S3 : st3 = TaskResults.setTaskData record TaskResults.initial).
  { subst st3. unfold Flow.assessment.
    rewrite (surjective_pairing (Flow.session formData started start elapsed w)).
    fold st2. rewrite W2. fold w3. cbn [fst].
    unfold state_after. now rewrite M3. }
  assert (D : field "actualDuration" record = VNum elapsed).
  { subst record. cbn [field]. rewrite session_record_duration. now rewrite S2. }
  assert (F : forall k,
            ~ In k ["endTime"; "actualDuration"; "interventionsStopped"; "error"] ->
            field k record = field k task).
  { intros k Hk. subst record. cbn [field].
    rewrite (session_record_field st2 ended stop k Hk), S2. reflexivity. }
  split; [now rewrite S2|]. split; [now rewrite S3|]. split; [exact D|].
  split; [now rewrite S3|].
  intros st now T assessmentData. subst assessmentData.
  rewrite S3 in T. cbn [TaskResults.setTaskData TaskResults.taskData] in T.
  unfold TaskResults.assessmentData. rewrite T.
  cbn [field obj_get String.eqb Ascii.eqb Bool.eqb].
  change (match obj_get ?k (Flow.sessionData st2 ended stop) with
          | Some x => x | None => VUndefined end) with (field k record).
  rewrite !F by (cbn [In]; intuition discriminate).
  repeat split.
  unfold assessment_accepted, truthy, optional_field. rewrite T.
  cbn [nullish].
  rewrite F by (cbn [In]; intuition discriminate).
  change (field "participantId" task) with (VStr (TaskForm.participantId formData)).
  change (nullish record) with false.
  cbn [falsy]. rewrite (accepted_id_not_empty formData V). apply andb_true_r.
Qed.

End FormToAssessment.

Lemma form_fields_reach_the_assessment_witness :
  let st3 := fst (@Flow.assessment Reference.browser Demo.formData Demo.started
                    (Rejected Demo.network_down) (Num 754) Demo.ended
                    (Resolved Demo.stop_ok) Demo.world) in
  field "participantId" (@TaskResults.assessmentData Reference.browser st3 Demo.ended)
  = VStr "42"
  /\ field "actualDuration" (TaskResults.taskData st3) = VNum (Num 754).
Proof.
  intros st3.
  destruct (@form_fields_reach_the_assessment Reference.browser Demo.formData
              Demo.started (Rejected Demo.network_down) (Num 754) Demo.ended
              (Resolved Demo.stop_ok) Demo.world)
    as (_ & R & D & _ & P).
  - reflexivity.
  - vm_compute. discriminate.
  - vm_compute. reflexivity.
  - vm_compute. discriminate.
  - vm_compute. reflexivity.
  - split.
    + destruct (P st3 Demo.ended eq_refl) as (_ & I & _). exact I.
    + fold st3 in R. rewrite R. exact D.
Defined.
